(** * gnome-terminal: the option digester of [src/terminal-options.c]

    A shallow embedding of the command-line prescanner, the option
    callbacks, the post-parse hook and the configuration-file merger of
    [terminal-options.c], followed by the properties of the window/tab
    specification tree they build.

    Conventions of the embedding:
    - a C string that may be [NULL] is an [option string]; a [GList] is a
      [list]; [g_list_last (l)->data] mutated in place is an update of the
      last element of the list ([map_last]);
    - a callback takes the [TerminalOptions] it receives through [data]
      and returns an [outcome]: [Done] for [TRUE], [Failed] for [FALSE]
      with the [GError] it set, both with the options as the callback left
      them, [Exited] for a call of [exit] and [Aborted] for a failed
      [g_assert];
    - GLib, the profile list, the key file and the descriptor table are
      outside this file: what the code asks of them is gathered in the
      records [GKeyFile] and [Env]. *)

From Corelib Require Import PrimFloat SpecFloat FloatOps FloatAxioms.
From Stdlib Require Import List String Ascii ZArith Bool Lia.
Import ListNotations.
Open Scope string_scope.
Open Scope Z_scope.
Open Scope list_scope.

(** ** Values handed in from outside *)

(** The accessors of a parsed [GKeyFile] the merger calls, each with the
    result GLib hands back: [None] is the [NULL] returned for a missing
    key or an undecodable value, [g_key_file_get_integer] yields [0] and
    [g_key_file_get_boolean] yields [FALSE] in that case. A key that is
    present with an empty value reads as [Some []] through
    [g_key_file_get_string_list]. *)
Record GKeyFile : Type := {
  g_key_file_has_group : string -> bool;
  g_key_file_has_key : string -> string -> bool;
  g_key_file_get_integer : string -> string -> Z;
  g_key_file_get_boolean : string -> string -> bool;
  g_key_file_get_string : string -> string -> option string;
  g_key_file_get_string_list : string -> string -> option (list string)
}.

(** What the digester needs from its surroundings. The constants are the
    macros of [terminal-defines.h] and [terminal-options.h]. A [double] is
    a binary64 [float] of the kernel, with its [nan], its infinities and
    its rounded arithmetic. *)
Record Env : Type := {
  (* profile list *)
  terminal_profiles_list_dup_uuid_or_name : option string -> option string;
  terminal_profiles_list_dup_uuid : string -> option string;
  (* GLib *)
  g_shell_parse_argv : string -> option (list string);
  g_strcompress : string -> string;
  g_strtod : string -> option float;      (* [Some] when [*end] is the final [NUL] *)
  g_application_id_is_valid : string -> bool;
  g_get_current_dir : string;
  g_key_file_load_from_file : string -> option GKeyFile;
  fd_can_dup : Z -> bool;                 (* [g_unix_fd_list_append] can take the descriptor *)
  (* terminal-defines.h, terminal-options.h *)
  TERMINAL_SCALE_MINIMUM : float;
  TERMINAL_SCALE_MAXIMUM : float;
  TERMINAL_VERBOSITY_NORMAL : Z;
  TERMINAL_VERBOSITY_DETAIL : Z;
  SOURCE_DEFAULT : Z;
  SOURCE_SESSION : Z;
  TERMINAL_CONFIG_COMPAT_VERSION : Z;
  TERMINAL_CONFIG_GROUP : string;
  TERMINAL_CONFIG_PROP_VERSION : string;
  TERMINAL_CONFIG_PROP_COMPAT_VERSION : string;
  TERMINAL_CONFIG_PROP_WINDOWS : string;
  TERMINAL_CONFIG_WINDOW_PROP_TABS : string;
  TERMINAL_CONFIG_WINDOW_PROP_ACTIVE_TAB : string;
  TERMINAL_CONFIG_WINDOW_PROP_ROLE : string;
  TERMINAL_CONFIG_WINDOW_PROP_GEOMETRY : string;
  TERMINAL_CONFIG_WINDOW_PROP_FULLSCREEN : string;
  TERMINAL_CONFIG_WINDOW_PROP_MAXIMIZED : string;
  TERMINAL_CONFIG_WINDOW_PROP_MENUBAR_VISIBLE : string;
  TERMINAL_CONFIG_TERMINAL_PROP_PROFILE_ID : string;
  TERMINAL_CONFIG_TERMINAL_PROP_WORKING_DIRECTORY : string;
  TERMINAL_CONFIG_TERMINAL_PROP_TITLE : string;
  TERMINAL_CONFIG_TERMINAL_PROP_COMMAND : string
}.

(** ** The specification tree *)

(** [PassFdElement e = { idx, fd }]: index in the tab's descriptor list
    and the descriptor number asked for. *)
Record PassFdElement : Type := { pf_index : Z; pf_fd : Z }.

(** [InitialTab]. [it_wait] is [None] as long as nothing was stored in the
    field: [initial_tab_new] takes the struct from [g_slice_new], which
    does not clear it, and assigns every field but [wait]. [it_fd_list]
    holds the descriptors of the [GUnixFDList], [None] for [NULL]. *)
Record InitialTab : Type := {
  it_profile : option string;
  it_exec_argv : option (list string);
  it_title : option string;
  it_working_dir : option string;
  it_zoom : float;
  it_zoom_set : bool;
  it_active : bool;
  it_wait : option bool;
  it_fd_list : option (list Z);
  it_fd_array : option (list PassFdElement)
}.

(** [InitialWindow]. *)
Record InitialWindow : Type := {
  iw_source_tag : Z;
  iw_tabs : list InitialTab;
  iw_force_menubar_state : bool;
  iw_menubar_state : bool;
  iw_start_fullscreen : bool;
  iw_start_maximized : bool;
  iw_implicit_first_window : bool;
  iw_geometry : option string;
  iw_role : option string
}.

(** What [terminal_fprintf] was asked to print, by call site. *)
Inductive message : Type :=
| MsgDeprecatedOption (option_name : string)
| MsgUseDashDash
| MsgUnsupportedOption (option_name : string)
| MsgProfileNotFound (value : string)
| MsgOptionGivenTwice (option_name : string)
| MsgZoomTooSmall (zoom : float)
| MsgZoomTooLarge (zoom : float)
| MsgVersion.

(** The [GError]s the callbacks set, by call site. [ErrFdAppend] stands
    for the [FALSE] returned after [g_unix_fd_list_append] gave [-1]: the
    [GError] is then the one that function set, and for a negative
    descriptor, which it refuses in a precondition check, it sets none. *)
Inductive GError : Type :=
| ErrUnsupportedOption (option_name : string)
| ErrInvalidAppId (value : string)
| ErrInvalidCommand
| ErrProfile
| ErrTwoRoles
| ErrWaitOnce
| ErrFdParse (value : string)
| ErrFdStdio (stream : string)
| ErrFdTwice (fd : Z)
| ErrFdAppend (fd : Z)
| ErrInvalidZoom (value : string)
| ErrCommandRequired
| ErrLoadFile
| ErrInvalidConfigFile
| ErrIncompatibleConfigFile
| ErrKeyFile.

(** [TerminalOptions], restricted to the fields the digester reads or
    writes, together with the process state the callbacks share: the
    file-scope [verbosity] and what went to [stdout] and to [stderr]. *)
Record TerminalOptions : Type := {
  server_app_id : option string;
  default_profile : option string;
  default_role : option string;
  default_geometry : option string;
  default_working_dir : option string;
  default_title : option string;
  default_window_menubar_forced : bool;
  default_window_menubar_state : bool;
  default_fullscreen : bool;
  default_maximize : bool;
  execute : bool;
  exec_argv : option (list string);
  initial_windows : list InitialWindow;
  zoom : float;
  zoom_set : bool;
  any_wait : bool;
  verbosity : Z;
  stdout : list message;
  stderr : list message
}.

(** The result of a callback. *)
Inductive outcome : Type :=
| Done (o : TerminalOptions)
| Failed (e : GError) (o : TerminalOptions)
| Exited (o : TerminalOptions)
| Aborted.

(** Sequencing: go on only after [TRUE]. *)
Definition and_then (r : outcome) (k : TerminalOptions -> outcome) : outcome :=
  match r with
  | Done o => k o
  | Failed e o => Failed e o
  | Exited o => Exited o
  | Aborted => Aborted
  end.

Notation "'let!' o ':=' r 'in' k" := (and_then r (fun o => k))
  (at level 10, o name, r at level 100, k at level 200).

(** ** Field assignments *)

Definition set_it_profile (v : option string) (it : InitialTab) : InitialTab :=
  Build_InitialTab v (it_exec_argv it) (it_title it) (it_working_dir it) (it_zoom it)
    (it_zoom_set it) (it_active it) (it_wait it) (it_fd_list it) (it_fd_array it).

Definition set_it_exec_argv (v : option (list string)) (it : InitialTab) : InitialTab :=
  Build_InitialTab (it_profile it) v (it_title it) (it_working_dir it) (it_zoom it)
    (it_zoom_set it) (it_active it) (it_wait it) (it_fd_list it) (it_fd_array it).

Definition set_it_title (v : option string) (it : InitialTab) : InitialTab :=
  Build_InitialTab (it_profile it) (it_exec_argv it) v (it_working_dir it) (it_zoom it)
    (it_zoom_set it) (it_active it) (it_wait it) (it_fd_list it) (it_fd_array it).

Definition set_it_working_dir (v : option string) (it : InitialTab) : InitialTab :=
  Build_InitialTab (it_profile it) (it_exec_argv it) (it_title it) v (it_zoom it)
    (it_zoom_set it) (it_active it) (it_wait it) (it_fd_list it) (it_fd_array it).

Definition set_it_zoom (z : float) (it : InitialTab) : InitialTab :=
  Build_InitialTab (it_profile it) (it_exec_argv it) (it_title it) (it_working_dir it) z
    true (it_active it) (it_wait it) (it_fd_list it) (it_fd_array it).

Definition set_it_active (v : bool) (it : InitialTab) : InitialTab :=
  Build_InitialTab (it_profile it) (it_exec_argv it) (it_title it) (it_working_dir it) (it_zoom it)
    (it_zoom_set it) v (it_wait it) (it_fd_list it) (it_fd_array it).

Definition set_it_wait (v : bool) (it : InitialTab) : InitialTab :=
  Build_InitialTab (it_profile it) (it_exec_argv it) (it_title it) (it_working_dir it) (it_zoom it)
    (it_zoom_set it) (it_active it) (Some v) (it_fd_list it) (it_fd_array it).

Definition set_it_fds (l : option (list Z)) (a : option (list PassFdElement))
    (it : InitialTab) : InitialTab :=
  Build_InitialTab (it_profile it) (it_exec_argv it) (it_title it) (it_working_dir it) (it_zoom it)
    (it_zoom_set it) (it_active it) (it_wait it) l a.

Definition set_iw_tabs (v : list InitialTab) (iw : InitialWindow) : InitialWindow :=
  Build_InitialWindow (iw_source_tag iw) v (iw_force_menubar_state iw) (iw_menubar_state iw)
    (iw_start_fullscreen iw) (iw_start_maximized iw) (iw_implicit_first_window iw)
    (iw_geometry iw) (iw_role iw).

Definition set_iw_menubar (forced state : bool) (iw : InitialWindow) : InitialWindow :=
  Build_InitialWindow (iw_source_tag iw) (iw_tabs iw) forced state
    (iw_start_fullscreen iw) (iw_start_maximized iw) (iw_implicit_first_window iw)
    (iw_geometry iw) (iw_role iw).

Definition set_iw_start_fullscreen (v : bool) (iw : InitialWindow) : InitialWindow :=
  Build_InitialWindow (iw_source_tag iw) (iw_tabs iw) (iw_force_menubar_state iw)
    (iw_menubar_state iw) v (iw_start_maximized iw) (iw_implicit_first_window iw)
    (iw_geometry iw) (iw_role iw).

Definition set_iw_start_maximized (v : bool) (iw : InitialWindow) : InitialWindow :=
  Build_InitialWindow (iw_source_tag iw) (iw_tabs iw) (iw_force_menubar_state iw)
    (iw_menubar_state iw) (iw_start_fullscreen iw) v (iw_implicit_first_window iw)
    (iw_geometry iw) (iw_role iw).

Definition set_iw_implicit_first_window (v : bool) (iw : InitialWindow) : InitialWindow :=
  Build_InitialWindow (iw_source_tag iw) (iw_tabs iw) (iw_force_menubar_state iw)
    (iw_menubar_state iw) (iw_start_fullscreen iw) (iw_start_maximized iw) v
    (iw_geometry iw) (iw_role iw).

Definition set_iw_geometry (v : option string) (iw : InitialWindow) : InitialWindow :=
  Build_InitialWindow (iw_source_tag iw) (iw_tabs iw) (iw_force_menubar_state iw)
    (iw_menubar_state iw) (iw_start_fullscreen iw) (iw_start_maximized iw)
    (iw_implicit_first_window iw) v (iw_role iw).

Definition set_iw_role (v : option string) (iw : InitialWindow) : InitialWindow :=
  Build_InitialWindow (iw_source_tag iw) (iw_tabs iw) (iw_force_menubar_state iw)
    (iw_menubar_state iw) (iw_start_fullscreen iw) (iw_start_maximized iw)
    (iw_implicit_first_window iw) (iw_geometry iw) v.

Definition set_server_app_id (v : option string) (o : TerminalOptions) : TerminalOptions :=
  Build_TerminalOptions v (default_profile o) (default_role o) (default_geometry o)
    (default_working_dir o) (default_title o) (default_window_menubar_forced o)
    (default_window_menubar_state o) (default_fullscreen o) (default_maximize o) (execute o)
    (exec_argv o) (initial_windows o) (zoom o) (zoom_set o) (any_wait o) (verbosity o) (stdout o) (stderr o).

Definition set_default_profile (v : option string) (o : TerminalOptions) : TerminalOptions :=
  Build_TerminalOptions (server_app_id o) v (default_role o) (default_geometry o)
    (default_working_dir o) (default_title o) (default_window_menubar_forced o)
    (default_window_menubar_state o) (default_fullscreen o) (default_maximize o) (execute o)
    (exec_argv o) (initial_windows o) (zoom o) (zoom_set o) (any_wait o) (verbosity o) (stdout o) (stderr o).

Definition set_default_role (v : option string) (o : TerminalOptions) : TerminalOptions :=
  Build_TerminalOptions (server_app_id o) (default_profile o) v (default_geometry o)
    (default_working_dir o) (default_title o) (default_window_menubar_forced o)
    (default_window_menubar_state o) (default_fullscreen o) (default_maximize o) (execute o)
    (exec_argv o) (initial_windows o) (zoom o) (zoom_set o) (any_wait o) (verbosity o) (stdout o) (stderr o).

Definition set_default_geometry (v : option string) (o : TerminalOptions) : TerminalOptions :=
  Build_TerminalOptions (server_app_id o) (default_profile o) (default_role o) v
    (default_working_dir o) (default_title o) (default_window_menubar_forced o)
    (default_window_menubar_state o) (default_fullscreen o) (default_maximize o) (execute o)
    (exec_argv o) (initial_windows o) (zoom o) (zoom_set o) (any_wait o) (verbosity o) (stdout o) (stderr o).

Definition set_default_working_dir (v : option string) (o : TerminalOptions) : TerminalOptions :=
  Build_TerminalOptions (server_app_id o) (default_profile o) (default_role o) (default_geometry o)
    v (default_title o) (default_window_menubar_forced o)
    (default_window_menubar_state o) (default_fullscreen o) (default_maximize o) (execute o)
    (exec_argv o) (initial_windows o) (zoom o) (zoom_set o) (any_wait o) (verbosity o) (stdout o) (stderr o).

Definition set_default_title (v : option string) (o : TerminalOptions) : TerminalOptions :=
  Build_TerminalOptions (server_app_id o) (default_profile o) (default_role o) (default_geometry o)
    (default_working_dir o) v (default_window_menubar_forced o)
    (default_window_menubar_state o) (default_fullscreen o) (default_maximize o) (execute o)
    (exec_argv o) (initial_windows o) (zoom o) (zoom_set o) (any_wait o) (verbosity o) (stdout o) (stderr o).

Definition set_default_window_menubar_forced (v : bool) (o : TerminalOptions) : TerminalOptions :=
  Build_TerminalOptions (server_app_id o) (default_profile o) (default_role o) (default_geometry o)
    (default_working_dir o) (default_title o) v
    (default_window_menubar_state o) (default_fullscreen o) (default_maximize o) (execute o)
    (exec_argv o) (initial_windows o) (zoom o) (zoom_set o) (any_wait o) (verbosity o) (stdout o) (stderr o).

Definition set_default_window_menubar_state (v : bool) (o : TerminalOptions) : TerminalOptions :=
  Build_TerminalOptions (server_app_id o) (default_profile o) (default_role o) (default_geometry o)
    (default_working_dir o) (default_title o) (default_window_menubar_forced o)
    v (default_fullscreen o) (default_maximize o) (execute o)
    (exec_argv o) (initial_windows o) (zoom o) (zoom_set o) (any_wait o) (verbosity o) (stdout o) (stderr o).

Definition set_default_fullscreen (v : bool) (o : TerminalOptions) : TerminalOptions :=
  Build_TerminalOptions (server_app_id o) (default_profile o) (default_role o) (default_geometry o)
    (default_working_dir o) (default_title o) (default_window_menubar_forced o)
    (default_window_menubar_state o) v (default_maximize o) (execute o)
    (exec_argv o) (initial_windows o) (zoom o) (zoom_set o) (any_wait o) (verbosity o) (stdout o) (stderr o).

Definition set_default_maximize (v : bool) (o : TerminalOptions) : TerminalOptions :=
  Build_TerminalOptions (server_app_id o) (default_profile o) (default_role o) (default_geometry o)
    (default_working_dir o) (default_title o) (default_window_menubar_forced o)
    (default_window_menubar_state o) (default_fullscreen o) v (execute o)
    (exec_argv o) (initial_windows o) (zoom o) (zoom_set o) (any_wait o) (verbosity o) (stdout o) (stderr o).

Definition set_execute (v : bool) (o : TerminalOptions) : TerminalOptions :=
  Build_TerminalOptions (server_app_id o) (default_profile o) (default_role o) (default_geometry o)
    (default_working_dir o) (default_title o) (default_window_menubar_forced o)
    (default_window_menubar_state o) (default_fullscreen o) (default_maximize o) v
    (exec_argv o) (initial_windows o) (zoom o) (zoom_set o) (any_wait o) (verbosity o) (stdout o) (stderr o).

Definition set_exec_argv (v : option (list string)) (o : TerminalOptions) : TerminalOptions :=
  Build_TerminalOptions (server_app_id o) (default_profile o) (default_role o) (default_geometry o)
    (default_working_dir o) (default_title o) (default_window_menubar_forced o)
    (default_window_menubar_state o) (default_fullscreen o) (default_maximize o) (execute o)
    v (initial_windows o) (zoom o) (zoom_set o) (any_wait o) (verbosity o) (stdout o) (stderr o).

Definition set_initial_windows (v : list InitialWindow) (o : TerminalOptions) : TerminalOptions :=
  Build_TerminalOptions (server_app_id o) (default_profile o) (default_role o) (default_geometry o)
    (default_working_dir o) (default_title o) (default_window_menubar_forced o)
    (default_window_menubar_state o) (default_fullscreen o) (default_maximize o) (execute o)
    (exec_argv o) v (zoom o) (zoom_set o) (any_wait o) (verbosity o) (stdout o) (stderr o).

Definition set_zoom (z : float) (o : TerminalOptions) : TerminalOptions :=
  Build_TerminalOptions (server_app_id o) (default_profile o) (default_role o) (default_geometry o)
    (default_working_dir o) (default_title o) (default_window_menubar_forced o)
    (default_window_menubar_state o) (default_fullscreen o) (default_maximize o) (execute o)
    (exec_argv o) (initial_windows o) z true (any_wait o) (verbosity o) (stdout o) (stderr o).

Definition set_any_wait (v : bool) (o : TerminalOptions) : TerminalOptions :=
  Build_TerminalOptions (server_app_id o) (default_profile o) (default_role o) (default_geometry o)
    (default_working_dir o) (default_title o) (default_window_menubar_forced o)
    (default_window_menubar_state o) (default_fullscreen o) (default_maximize o) (execute o)
    (exec_argv o) (initial_windows o) (zoom o) (zoom_set o) v (verbosity o) (stdout o) (stderr o).

Definition set_verbosity (v : Z) (o : TerminalOptions) : TerminalOptions :=
  Build_TerminalOptions (server_app_id o) (default_profile o) (default_role o) (default_geometry o)
    (default_working_dir o) (default_title o) (default_window_menubar_forced o)
    (default_window_menubar_state o) (default_fullscreen o) (default_maximize o) (execute o)
    (exec_argv o) (initial_windows o) (zoom o) (zoom_set o) (any_wait o) v (stdout o) (stderr o).

Definition set_stderr (v : list message) (o : TerminalOptions) : TerminalOptions :=
  Build_TerminalOptions (server_app_id o) (default_profile o) (default_role o) (default_geometry o)
    (default_working_dir o) (default_title o) (default_window_menubar_forced o)
    (default_window_menubar_state o) (default_fullscreen o) (default_maximize o) (execute o)
    (exec_argv o) (initial_windows o) (zoom o) (zoom_set o) (any_wait o) (verbosity o)
    (stdout o) v.

Definition set_stdout (v : list message) (o : TerminalOptions) : TerminalOptions :=
  Build_TerminalOptions (server_app_id o) (default_profile o) (default_role o) (default_geometry o)
    (default_working_dir o) (default_title o) (default_window_menubar_forced o)
    (default_window_menubar_state o) (default_fullscreen o) (default_maximize o) (execute o)
    (exec_argv o) (initial_windows o) (zoom o) (zoom_set o) (any_wait o) (verbosity o)
    v (stderr o).

(** ** List helpers for [GList] *)

(** [g_list_last (l)], [None] for the [NULL] of an empty list. *)
Fixpoint g_list_last {A : Type} (l : list A) : option A :=
  match l with
  | [] => None
  | [x] => Some x
  | _ :: t => g_list_last t
  end.

(** A store through the pointer [g_list_last (l)->data]. *)
Fixpoint map_last {A : Type} (f : A -> A) (l : list A) : list A :=
  match l with
  | [] => []
  | [x] => [f x]
  | x :: t => x :: map_last f t
  end.

Definition is_nil {A : Type} (l : list A) : bool :=
  match l with [] => true | _ :: _ => false end.

Definition is_null {A : Type} (p : option A) : bool :=
  match p with None => true | Some _ => false end.

Definition or_empty {A : Type} (p : option (list A)) : list A :=
  match p with None => [] | Some l => l end.

(** ** [g_ascii_strtoll (value, &end, 10)]

    GLib's locale-independent [strtoll]: leading white space, an optional
    sign, then the longest run of decimal digits; without a digit nothing
    is converted and [end == value]; a result outside [gint64] is clamped
    and [errno] becomes [ERANGE]. Text after the digits is left for
    [end] to point at. *)

Definition G_MAXINT64 : Z := 9223372036854775807.
Definition G_MININT64 : Z := -9223372036854775808.
Definition G_MAXINT : Z := 2147483647.
Definition G_MININT : Z := -2147483648.

Definition g_ascii_isspace (c : ascii) : bool :=
  let n := Z.of_N (N_of_ascii c) in (n =? 32) || ((9 <=? n) && (n <=? 13)).

Definition g_ascii_digit_value (c : ascii) : option Z :=
  let n := Z.of_N (N_of_ascii c) in
  if (48 <=? n) && (n <=? 57) then Some (n - 48) else None.

Fixpoint skip_space (s : string) : string :=
  match s with
  | String c r => if g_ascii_isspace c then skip_space r else s
  | EmptyString => s
  end.

Fixpoint read_digits (s : string) (acc : Z) (any : bool) : Z * bool :=
  match s with
  | String c r =>
      match g_ascii_digit_value c with
      | Some d => read_digits r (acc * 10 + d) true
      | None => (acc, any)
      end
  | EmptyString => (acc, any)
  end.

Record strtoll_result : Type := {
  sl_value : Z;             (* the returned gint64 *)
  sl_end_is_value : bool;   (* end == value: nothing was converted *)
  sl_errno : bool           (* errno != 0 *)
}.

Definition g_ascii_strtoll (value : string) : strtoll_result :=
  let s := skip_space value in
  let '(negative, digits) :=
    match s with
    | String "-"%char r => (true, r)
    | String "+"%char r => (false, r)
    | _ => (false, s)
    end in
  let '(n, any) := read_digits digits 0 false in
  if negb any then Build_strtoll_result 0 true false
  else
    let v := if negative then - n else n in
    if v >? G_MAXINT64 then Build_strtoll_result G_MAXINT64 false true
    else if v <? G_MININT64 then Build_strtoll_result G_MININT64 false true
    else Build_strtoll_result v false false.

Definition STDIN_FILENO : Z := 0.
Definition STDOUT_FILENO : Z := 1.
Definition STDERR_FILENO : Z := 2.

(** The literal [1e-6]: the double nearest to it. *)
Definition double_1e_6 : float := 0x1.0c6f7a0b5ed8dp-20.

(** ** Printing *)

(** The two streams [terminal_fprintf] is called with. *)
Inductive FILE : Type := fp_stdout | fp_stderr.

(** [terminal_fprintf]: nothing is printed when [verbosity] is below the
    level of the message. *)
Definition terminal_fprintf (fp : FILE) (verbosity_level : Z) (m : message)
    (o : TerminalOptions) : TerminalOptions :=
  if verbosity o <? verbosity_level then o
  else match fp with
       | fp_stdout => set_stdout (stdout o ++ [m]) o
       | fp_stderr => set_stderr (stderr o ++ [m]) o
       end.

(** ** Windows and tabs *)

Definition initial_tab_new (profile : option string) : InitialTab :=
  {| it_profile := profile;
     it_exec_argv := None;
     it_title := None;
     it_working_dir := None;
     it_zoom := 1%float;
     it_zoom_set := false;
     it_active := false;
     it_wait := None;
     it_fd_list := None;
     it_fd_array := None |}.

(** [g_slice_new0]: every field zero but the tag. *)
Definition initial_window_new (source_tag : Z) : InitialWindow :=
  {| iw_source_tag := source_tag;
     iw_tabs := [];
     iw_force_menubar_state := false;
     iw_menubar_state := false;
     iw_start_fullscreen := false;
     iw_start_maximized := false;
     iw_implicit_first_window := false;
     iw_geometry := None;
     iw_role := None |}.

(** [apply_defaults] writes to both of its arguments. *)
Definition apply_defaults (o : TerminalOptions) (iw : InitialWindow)
    : TerminalOptions * InitialWindow :=
  let '(o, iw) :=
    match default_role o with
    | Some r => (set_default_role None o, set_iw_role (Some r) iw)
    | None => (o, iw)
    end in
  let iw :=
    if is_null (iw_geometry iw) then set_iw_geometry (default_geometry o) iw else iw in
  let '(o, iw) :=
    if default_window_menubar_forced o
    then (set_default_window_menubar_forced false o,
          set_iw_menubar true (default_window_menubar_state o) iw)
    else (o, iw) in
  let iw := set_iw_start_fullscreen (iw_start_fullscreen iw || default_fullscreen o) iw in
  let iw := set_iw_start_maximized (iw_start_maximized iw || default_maximize o) iw in
  (o, iw).

(** The new window is the last one of the result. *)
Definition add_new_window (o : TerminalOptions) (profile : option string)
    (implicit_if_first_window : bool) : TerminalOptions :=
  let iw := initial_window_new 0 in
  let iw := set_iw_implicit_first_window
              (is_nil (initial_windows o) && implicit_if_first_window) iw in
  let iw := set_iw_tabs [initial_tab_new profile] iw in
  let '(o, iw) := apply_defaults o iw in
  set_initial_windows (initial_windows o ++ [iw]) o.

(** The window and the tab the context-sensitive options write to. *)
Definition top_window (o : TerminalOptions) : option InitialWindow :=
  g_list_last (initial_windows o).

Definition top_tab (o : TerminalOptions) : option InitialTab :=
  match top_window o with
  | Some iw => g_list_last (iw_tabs iw)
  | None => None
  end.

Definition with_top_window (f : InitialWindow -> InitialWindow)
    (o : TerminalOptions) : TerminalOptions :=
  set_initial_windows (map_last f (initial_windows o)) o.

Definition with_top_tab (f : InitialTab -> InitialTab)
    (o : TerminalOptions) : TerminalOptions :=
  with_top_window (fun iw => set_iw_tabs (map_last f (iw_tabs iw)) iw) o.

(** [ensure_top_window]; the window it returns is [top_window] of the
    result. [g_assert_nonnull (iw->tabs)] aborts on a window without
    tabs. *)
Definition ensure_top_window (o : TerminalOptions)
    (implicit_if_first_window : bool) : outcome :=
  let o :=
    if is_nil (initial_windows o)
    then add_new_window o None implicit_if_first_window
    else o in
  match top_window o with
  | Some iw => if is_nil (iw_tabs iw) then Aborted else Done o
  | None => Aborted
  end.

(** [ensure_top_tab]; the tab it returns is [top_tab] of the result. *)
Definition ensure_top_tab (o : TerminalOptions) : outcome :=
  let! o := ensure_top_window o true in
  match top_tab o with
  | Some _ => Done o
  | None => Aborted
  end.

(** ** The option callbacks *)

Section Digester.

Variable E : Env.

(** The macros [terminal_print], [terminal_printerr] and
    [terminal_printerr_detail] of [terminal-options.h]: [terminal_fprintf]
    on [stdout] or [stderr], at the level their name says. *)
Definition terminal_print (m : message) (o : TerminalOptions) : TerminalOptions :=
  terminal_fprintf fp_stdout (TERMINAL_VERBOSITY_NORMAL E) m o.

Definition terminal_printerr (m : message) (o : TerminalOptions) : TerminalOptions :=
  terminal_fprintf fp_stderr (TERMINAL_VERBOSITY_NORMAL E) m o.

Definition terminal_printerr_detail (m : message) (o : TerminalOptions) : TerminalOptions :=
  terminal_fprintf fp_stderr (TERMINAL_VERBOSITY_DETAIL E) m o.

Definition deprecated_option_warning (option_name : string) (o : TerminalOptions)
    : TerminalOptions :=
  terminal_printerr (MsgDeprecatedOption option_name) o.

Definition deprecated_command_option_warning (option_name : string)
    (o : TerminalOptions) : TerminalOptions :=
  terminal_printerr MsgUseDashDash (deprecated_option_warning option_name o).

Definition unsupported_option_callback (option_name : string) (o : TerminalOptions)
    : outcome :=
  Done (terminal_printerr (MsgUnsupportedOption option_name) o).

Definition unsupported_option_fatal_callback (option_name : string)
    (o : TerminalOptions) : outcome :=
  Failed (ErrUnsupportedOption option_name) o.

(** [option_version_cb] prints the version and leaves through [exit]; it
    never returns to the option parser. *)
Definition option_version_cb (o : TerminalOptions) : outcome :=
  Exited (terminal_print MsgVersion o).

Definition option_verbosity_cb (option_name : string) (o : TerminalOptions) : outcome :=
  if (option_name =? "--quiet")%string || (option_name =? "-q")%string
  then Done (set_verbosity 0 o)
  else Done (set_verbosity (verbosity o + 1) o).

Definition option_app_id_callback (value : string) (o : TerminalOptions) : outcome :=
  if negb (g_application_id_is_valid E value) then Failed (ErrInvalidAppId value) o
  else Done (set_server_app_id (Some value) o).

Definition option_command_callback (option_name value : string) (o : TerminalOptions)
    : outcome :=
  let o := deprecated_command_option_warning option_name o in
  match g_shell_parse_argv E value with
  | None => Failed ErrInvalidCommand o
  | Some argv =>
      if negb (is_nil (initial_windows o)) then
        let! o := ensure_top_tab o in
        Done (with_top_tab (set_it_exec_argv (Some argv)) o)
      else Done (set_exec_argv (Some argv) o)
  end.

(** The tail shared by [option_profile_cb] and [option_profile_id_cb]. *)
Definition store_profile (profile : string) (o : TerminalOptions) : outcome :=
  if negb (is_nil (initial_windows o)) then
    let! o := ensure_top_tab o in
    Done (with_top_tab (set_it_profile (Some profile)) o)
  else Done (set_default_profile (Some profile) o).

Definition option_profile_cb (value : string) (o : TerminalOptions) : outcome :=
  match terminal_profiles_list_dup_uuid_or_name E (Some value) with
  | Some profile => store_profile profile o
  | None =>
      let o := terminal_printerr (MsgProfileNotFound value) o in
      match terminal_profiles_list_dup_uuid_or_name E None with
      | Some profile => store_profile profile o
      | None => Failed ErrProfile o
      end
  end.

Definition option_profile_id_cb (value : string) (o : TerminalOptions) : outcome :=
  match terminal_profiles_list_dup_uuid E value with
  | None => Failed ErrProfile o
  | Some profile => store_profile profile o
  end.

Definition option_window_callback (value : option string) (o : TerminalOptions)
    : outcome :=
  match value with
  | Some v =>
      match terminal_profiles_list_dup_uuid_or_name E (Some v) with
      | Some profile => Done (add_new_window o (Some profile) false)
      | None =>
          let o := terminal_printerr (MsgProfileNotFound v) o in
          match terminal_profiles_list_dup_uuid_or_name E None with
          | Some profile => Done (add_new_window o (Some profile) false)
          | None => Failed ErrProfile o
          end
      end
  | None => Done (add_new_window o None false)
  end.

(** The tail of [option_tab_callback], once the profile is known. *)
Definition add_tab (profile : option string) (o : TerminalOptions) : TerminalOptions :=
  if negb (is_nil (initial_windows o)) then
    with_top_window (fun iw => set_iw_tabs (iw_tabs iw ++ [initial_tab_new profile]) iw) o
  else add_new_window o profile true.

Definition option_tab_callback (value : option string) (o : TerminalOptions) : outcome :=
  match value with
  | Some v =>
      match terminal_profiles_list_dup_uuid_or_name E (Some v) with
      | Some profile => Done (add_tab (Some profile) o)
      | None => Failed ErrProfile o
      end
  | None => Done (add_tab None o)
  end.

Definition option_role_callback (value : string) (o : TerminalOptions) : outcome :=
  if negb (is_nil (initial_windows o)) then
    Done (with_top_window (set_iw_role (Some value)) o)
  else if is_null (default_role o) then Done (set_default_role (Some value) o)
  else Failed ErrTwoRoles o.

Definition option_show_menubar_callback (o : TerminalOptions) : outcome :=
  if negb (is_nil (initial_windows o)) then
    match top_window o with
    | Some iw =>
        if iw_force_menubar_state iw && Bool.eqb (iw_menubar_state iw) true
        then Done (terminal_printerr_detail (MsgOptionGivenTwice "--show-menubar") o)
        else Done (with_top_window (set_iw_menubar true true) o)
    | None => Aborted
    end
  else Done (set_default_window_menubar_state true
               (set_default_window_menubar_forced true o)).

Definition option_hide_menubar_callback (o : TerminalOptions) : outcome :=
  if negb (is_nil (initial_windows o)) then
    match top_window o with
    | Some iw =>
        if iw_force_menubar_state iw && Bool.eqb (iw_menubar_state iw) false
        then Done (terminal_printerr_detail (MsgOptionGivenTwice "--hide-menubar") o)
        else Done (with_top_window (set_iw_menubar true false) o)
    | None => Aborted
    end
  else Done (set_default_window_menubar_state false
               (set_default_window_menubar_forced true o)).

Definition option_maximize_callback (o : TerminalOptions) : outcome :=
  if negb (is_nil (initial_windows o)) then
    Done (with_top_window (set_iw_start_maximized true) o)
  else Done (set_default_maximize true o).

Definition option_fullscreen_callback (o : TerminalOptions) : outcome :=
  if negb (is_nil (initial_windows o)) then
    Done (with_top_window (set_iw_start_fullscreen true) o)
  else Done (set_default_fullscreen true o).

Definition option_geometry_callback (value : string) (o : TerminalOptions) : outcome :=
  if negb (is_nil (initial_windows o)) then
    Done (with_top_window (set_iw_geometry (Some value)) o)
  else Done (set_default_geometry (Some value) o).

Definition option_title_callback (value : string) (o : TerminalOptions) : outcome :=
  if negb (is_nil (initial_windows o)) then
    let! o := ensure_top_tab o in
    Done (with_top_tab (set_it_title (Some value)) o)
  else Done (set_default_title (Some value) o).

Definition option_working_directory_callback (value : string) (o : TerminalOptions)
    : outcome :=
  if negb (is_nil (initial_windows o)) then
    let! o := ensure_top_tab o in
    Done (with_top_tab (set_it_working_dir (Some value)) o)
  else Done (set_default_working_dir (Some value) o).

Definition option_wait_cb (o : TerminalOptions) : outcome :=
  if any_wait o then Failed ErrWaitOnce o
  else
    let o := set_any_wait true o in
    let! o := ensure_top_tab o in
    Done (with_top_tab (set_it_wait true) o).

(** [g_unix_fd_list_append]: the index of the new entry, or [None] for
    the [-1] of a descriptor that is negative or cannot be duplicated. *)
Definition g_unix_fd_list_append (l : list Z) (fd : Z) : option (Z * list Z) :=
  if (0 <=? fd) && fd_can_dup E fd
  then Some (Z.of_nat (List.length l), l ++ [fd])
  else None.

Definition option_pass_fd_cb (value : string) (o : TerminalOptions) : outcome :=
  let r := g_ascii_strtoll value in
  let v := sl_value r in
  if sl_errno r || sl_end_is_value r || (v =? -1) || (v <? G_MININT) || (v >? G_MAXINT)
  then Failed (ErrFdParse value) o
  else
    let fd := v in
    if (fd =? STDIN_FILENO) || (fd =? STDOUT_FILENO) || (fd =? STDERR_FILENO)
    then Failed (ErrFdStdio (if fd =? STDIN_FILENO then "stdin"
                             else if fd =? STDOUT_FILENO then "stdout"
                             else "stderr")) o
    else
      let! o := ensure_top_tab o in
      let o := with_top_tab
                 (fun it => set_it_fds (Some (or_empty (it_fd_list it)))
                                       (Some (or_empty (it_fd_array it))) it) o in
      match top_tab o with
      | None => Aborted
      | Some it =>
          let fd_list := or_empty (it_fd_list it) in
          let fd_array := or_empty (it_fd_array it) in
          if existsb (fun e => pf_fd e =? fd) fd_array then Failed (ErrFdTwice fd) o
          else
            match g_unix_fd_list_append fd_list fd with
            | None => Failed (ErrFdAppend fd) o
            | Some (idx, fd_list') =>
                Done (with_top_tab
                        (set_it_fds (Some fd_list')
                                    (Some (fd_array ++ [Build_PassFdElement idx fd]))) o)
            end
      end.

Definition option_active_callback (o : TerminalOptions) : outcome :=
  let! o := ensure_top_tab o in
  Done (with_top_tab (set_it_active true) o).

Definition option_zoom_callback (value : string) (o : TerminalOptions) : outcome :=
  match g_strtod E value with
  | None => Failed (ErrInvalidZoom value) o
  | Some z =>
      let '(z, o) :=
        if PrimFloat.ltb z (TERMINAL_SCALE_MINIMUM E + double_1e_6)
        then (TERMINAL_SCALE_MINIMUM E, terminal_printerr (MsgZoomTooSmall z) o)
        else (z, o) in
      let '(z, o) :=
        if PrimFloat.ltb (TERMINAL_SCALE_MAXIMUM E - double_1e_6) z
        then (TERMINAL_SCALE_MAXIMUM E, terminal_printerr (MsgZoomTooLarge z) o)
        else (z, o) in
      if negb (is_nil (initial_windows o)) then
        let! o := ensure_top_tab o in
        Done (with_top_tab (set_it_zoom z) o)
      else Done (set_zoom z o)
  end.

(** The post-parse hook. *)
Definition digest_options_callback (o : TerminalOptions) : outcome :=
  if execute o then
    match exec_argv o with
    | None => Failed ErrCommandRequired o
    | Some argv =>
        let! o := ensure_top_tab o in
        Done (set_exec_argv None (with_top_tab (set_it_exec_argv (Some argv)) o))
    end
  else Done o.

(** ** The configuration-file merger *)

Definition terminal_util_key_file_get_string_unescape (key_file : GKeyFile)
    (group key : string) : option string :=
  match g_key_file_get_string key_file group key with
  | None => None
  | Some escaped => Some (g_strcompress E escaped)
  end.

Definition terminal_util_key_file_get_argv (key_file : GKeyFile)
    (group key : string) : option (list string) :=
  match terminal_util_key_file_get_string_unescape key_file group key with
  | None => None
  | Some flat => g_shell_parse_argv E flat
  end.

(** [g_strcmp0 (active_terminal, tab_group) == 0], the first possibly
    [NULL]. *)
Definition g_strcmp0_eq (a : option string) (b : string) : bool :=
  match a with
  | Some a => (a =? b)%string
  | None => false
  end.

(** One turn of the loop over [tab_groups]: the tab as appended to
    [iw->tabs], and whether [have_error] was set. *)
Definition merge_tab (key_file : GKeyFile) (active_terminal : option string)
    (tab_group : string) : InitialTab * bool :=
  let profile :=
    g_key_file_get_string key_file tab_group (TERMINAL_CONFIG_TERMINAL_PROP_PROFILE_ID E) in
  let it := initial_tab_new profile in
  let it := if g_strcmp0_eq active_terminal tab_group then set_it_active true it else it in
  let it := set_it_working_dir
              (terminal_util_key_file_get_string_unescape key_file tab_group
                 (TERMINAL_CONFIG_TERMINAL_PROP_WORKING_DIRECTORY E)) it in
  let it := set_it_title
              (g_key_file_get_string key_file tab_group
                 (TERMINAL_CONFIG_TERMINAL_PROP_TITLE E)) it in
  if g_key_file_has_key key_file tab_group (TERMINAL_CONFIG_TERMINAL_PROP_COMMAND E) then
    let argv := terminal_util_key_file_get_argv key_file tab_group
                  (TERMINAL_CONFIG_TERMINAL_PROP_COMMAND E) in
    (set_it_exec_argv argv it, is_null argv)
  else (it, false).

(** The loop over [tab_groups], left at the first error. *)
Fixpoint merge_tabs (key_file : GKeyFile) (active_terminal : option string)
    (tab_groups : list string) (iw : InitialWindow) : InitialWindow * bool :=
  match tab_groups with
  | [] => (iw, false)
  | tab_group :: rest =>
      let '(it, have_error) := merge_tab key_file active_terminal tab_group in
      let iw := set_iw_tabs (iw_tabs iw ++ [it]) iw in
      if have_error then (iw, true)
      else merge_tabs key_file active_terminal rest iw
  end.

(** The body of the loop over [groups] for a window group that has a
    tab list. *)
Definition merge_window (key_file : GKeyFile) (source_tag : Z)
    (window_group : string) (tab_groups : list string) (o : TerminalOptions)
    : TerminalOptions * InitialWindow * bool :=
  let iw := initial_window_new source_tag in
  let '(o, iw) := apply_defaults o iw in
  let active_terminal :=
    g_key_file_get_string key_file window_group (TERMINAL_CONFIG_WINDOW_PROP_ACTIVE_TAB E) in
  let iw := set_iw_role
              (g_key_file_get_string key_file window_group
                 (TERMINAL_CONFIG_WINDOW_PROP_ROLE E)) iw in
  let iw := set_iw_geometry
              (g_key_file_get_string key_file window_group
                 (TERMINAL_CONFIG_WINDOW_PROP_GEOMETRY E)) iw in
  let iw := set_iw_start_fullscreen
              (g_key_file_get_boolean key_file window_group
                 (TERMINAL_CONFIG_WINDOW_PROP_FULLSCREEN E)) iw in
  let iw := set_iw_start_maximized
              (g_key_file_get_boolean key_file window_group
                 (TERMINAL_CONFIG_WINDOW_PROP_MAXIMIZED E)) iw in
  let iw :=
    if g_key_file_has_key key_file window_group
         (TERMINAL_CONFIG_WINDOW_PROP_MENUBAR_VISIBLE E)
    then set_iw_menubar true
           (g_key_file_get_boolean key_file window_group
              (TERMINAL_CONFIG_WINDOW_PROP_MENUBAR_VISIBLE E)) iw
    else iw in
  let '(iw, have_error) := merge_tabs key_file active_terminal tab_groups iw in
  (o, iw, have_error).

(** The loop over [groups]: the options, the local [initial_windows] and
    [have_error] when the loop is left. *)
Fixpoint merge_windows (key_file : GKeyFile) (source_tag : Z) (groups : list string)
    (o : TerminalOptions) (initial_windows : list InitialWindow)
    : TerminalOptions * list InitialWindow * bool :=
  match groups with
  | [] => (o, initial_windows, false)
  | window_group :: rest =>
      match g_key_file_get_string_list key_file window_group
              (TERMINAL_CONFIG_WINDOW_PROP_TABS E) with
      | None => merge_windows key_file source_tag rest o initial_windows
      | Some tab_groups =>
          let '(o, iw, have_error) :=
            merge_window key_file source_tag window_group tab_groups o in
          let initial_windows := initial_windows ++ [iw] in
          if have_error then (o, initial_windows, true)
          else merge_windows key_file source_tag rest o initial_windows
      end
  end.

Definition terminal_options_merge_config (o : TerminalOptions) (key_file : GKeyFile)
    (source_tag : Z) : outcome :=
  if negb (g_key_file_has_group key_file (TERMINAL_CONFIG_GROUP E))
  then Failed ErrInvalidConfigFile o
  else
    let version :=
      g_key_file_get_integer key_file (TERMINAL_CONFIG_GROUP E)
        (TERMINAL_CONFIG_PROP_VERSION E) in
    let compat_version :=
      g_key_file_get_integer key_file (TERMINAL_CONFIG_GROUP E)
        (TERMINAL_CONFIG_PROP_COMPAT_VERSION E) in
    if (version <=? 0) || (compat_version <=? 0)
       || (compat_version >? TERMINAL_CONFIG_COMPAT_VERSION E)
    then Failed ErrIncompatibleConfigFile o
    else
      match g_key_file_get_string_list key_file (TERMINAL_CONFIG_GROUP E)
              (TERMINAL_CONFIG_PROP_WINDOWS E) with
      | None => Failed ErrKeyFile o
      | Some groups =>
          let '(o, built, have_error) :=
            merge_windows key_file source_tag groups o [] in
          if have_error then Failed ErrKeyFile o
          else Done (set_initial_windows (initial_windows o ++ built) o)
      end.

(** [option_load_config_cb]; finding the file and reading it is
    [g_key_file_load_from_file]. *)
Definition option_load_config_cb (option_name value : string) (o : TerminalOptions)
    : outcome :=
  match g_key_file_load_from_file E value with
  | None => Failed ErrLoadFile o
  | Some key_file =>
      terminal_options_merge_config o key_file
        (if (option_name =? "load-config")%string
         then SOURCE_DEFAULT E else SOURCE_SESSION E)
  end.

(** ** The prescanner and the parse *)

(** The options as [terminal_options_parse] sets them up. *)
Definition terminal_options_init : TerminalOptions :=
  {| server_app_id := None;
     default_profile := None;
     default_role := None;
     default_geometry := None;
     default_working_dir := Some (g_get_current_dir E);
     default_title := None;
     default_window_menubar_forced := false;
     default_window_menubar_state := true;
     default_fullscreen := false;
     default_maximize := false;
     execute := false;
     exec_argv := None;
     initial_windows := [];
     zoom := 1%float;
     zoom_set := false;
     any_wait := false;
     verbosity := 1;
     stdout := [];
     stderr := [] |}.

(** The loop [for (i = 1; i < *argcp; ++i)]: [rest] is [argv[i]] and what
    follows it; the result is the new [*argcp] and the options. *)
Fixpoint prescan_loop (i : nat) (rest : list string) (argc : nat)
    (o : TerminalOptions) : nat * TerminalOptions :=
  match rest with
  | [] => (argc, o)
  | arg :: rest' =>
      let is_execute := ((arg =? "-x") || (arg =? "--execute"))%string in
      let is_dashdash := (arg =? "--")%string in
      if negb is_execute && negb is_dashdash then prescan_loop (S i) rest' argc o
      else
        let o := if is_execute then deprecated_command_option_warning arg o else o in
        let o := set_execute is_execute o in
        if is_nil rest' then (argc, o)
        else (i, set_exec_argv (Some rest') o)
  end.

(** The prescan of [terminal_options_parse]: the argument vector handed
    to [g_option_context_parse] and the options. *)
Definition prescan (argv : list string) (o : TerminalOptions)
    : list string * TerminalOptions :=
  let '(argc, o) :=
    prescan_loop 1 (tl argv) (List.length argv) (set_exec_argv None o) in
  (firstn argc argv, o).

(** An option as [g_option_context_parse] hands it to its callback, one
    constructor for each callback of the option table. The entries of
    the table that have no callback, whose value the parser stores by
    itself, are no events. *)
Inductive event : Type :=
| EvVersion
| EvAppId (value : string)
| EvUnsupportedFatal (option_name : string)
| EvUnsupported (option_name : string)
| EvLoadConfig (option_name value : string)
| EvVerbosity (option_name : string)
| EvWindow (value : option string)
| EvTab (value : option string)
| EvShowMenubar
| EvHideMenubar
| EvMaximize
| EvFullscreen
| EvGeometry (value : string)
| EvRole (value : string)
| EvActive
| EvCommand (option_name value : string)
| EvProfile (value : string)
| EvProfileId (value : string)
| EvTitle (value : string)
| EvWorkingDirectory (value : string)
| EvWait
| EvPassFd (value : string)
| EvZoom (value : string).

Definition digest_event (ev : event) (o : TerminalOptions) : outcome :=
  match ev with
  | EvVersion => option_version_cb o
  | EvAppId v => option_app_id_callback v o
  | EvUnsupportedFatal n => unsupported_option_fatal_callback n o
  | EvUnsupported n => unsupported_option_callback n o
  | EvLoadConfig n v => option_load_config_cb n v o
  | EvVerbosity n => option_verbosity_cb n o
  | EvWindow v => option_window_callback v o
  | EvTab v => option_tab_callback v o
  | EvShowMenubar => option_show_menubar_callback o
  | EvHideMenubar => option_hide_menubar_callback o
  | EvMaximize => option_maximize_callback o
  | EvFullscreen => option_fullscreen_callback o
  | EvGeometry v => option_geometry_callback v o
  | EvRole v => option_role_callback v o
  | EvActive => option_active_callback o
  | EvCommand n v => option_command_callback n v o
  | EvProfile v => option_profile_cb v o
  | EvProfileId v => option_profile_id_cb v o
  | EvTitle v => option_title_callback v o
  | EvWorkingDirectory v => option_working_directory_callback v o
  | EvWait => option_wait_cb o
  | EvPassFd v => option_pass_fd_cb v o
  | EvZoom v => option_zoom_callback v o
  end.

(** The callbacks in the order of the command line, up to the first that
    returns [FALSE]. *)
Fixpoint digest_events (evs : list event) (o : TerminalOptions) : outcome :=
  match evs with
  | [] => Done o
  | ev :: rest => let! o := digest_event ev o in digest_events rest o
  end.

(** [g_option_context_parse] on the options found in the argument vector:
    the callbacks, then the post-parse hook. *)
Definition g_option_context_parse (evs : list event) (o : TerminalOptions) : outcome :=
  let! o := digest_events evs o in digest_options_callback o.

End Digester.

(** ** Vocabulary of the statements *)

(** The two tests of the prescan loop. *)
Definition is_execute_arg (arg : string) : bool :=
  ((arg =? "-x") || (arg =? "--execute"))%string.

Definition is_dashdash_arg (arg : string) : bool := (arg =? "--")%string.

Definition is_switch_arg (arg : string) : bool :=
  is_execute_arg arg || is_dashdash_arg arg.

(** All tabs of the tree, window after window. The tab the tab-scoped
    options write to is the last one of this list. *)
Definition all_tabs (o : TerminalOptions) : list InitialTab :=
  List.concat (map iw_tabs (initial_windows o)).

(** A tab nobody asked to wait for and without forwarded descriptors. *)
Definition fresh_tab (it : InitialTab) : Prop :=
  it_wait it = None /\ it_fd_list it = None /\ it_fd_array it = None.

(** Two states of a tab that differ neither in [wait] nor in the
    descriptors. *)
Definition tab_kept (it it' : InitialTab) : Prop :=
  it_wait it' = it_wait it /\
  it_fd_list it' = it_fd_list it /\
  it_fd_array it' = it_fd_array it.

(** The descriptors a tab forwards, in the order of [fd_array]. *)
Definition target_fds (it : InitialTab) : list Z :=
  map pf_fd (or_empty (it_fd_array it)).

Definition is_stdio (fd : Z) : bool :=
  (fd =? STDIN_FILENO) || (fd =? STDOUT_FILENO) || (fd =? STDERR_FILENO).

(** The value of [--fd] as [option_pass_fd_cb] reads it: the descriptor
    number, when the test after [g_ascii_strtoll] lets it through. *)
Definition parse_fd (value : string) : option Z :=
  let r := g_ascii_strtoll value in
  let v := sl_value r in
  if sl_errno r || sl_end_is_value r || (v =? -1) || (v <? G_MININT) || (v >? G_MAXINT)
  then None else Some v.

(** The invariant of [fd_array] and [fd_list] in one tab: the target
    descriptors are pairwise distinct, none is a standard stream, the
    local indices count up from 0, and both containers have one entry per
    descriptor. *)
Definition fd_passes_ok (it : InitialTab) : Prop :=
  NoDup (target_fds it) /\
  Forall (fun fd => is_stdio fd = false) (target_fds it) /\
  map pf_index (or_empty (it_fd_array it)) =
    map Z.of_nat (seq 0 (List.length (or_empty (it_fd_array it)))) /\
  List.length (or_empty (it_fd_list it)) = List.length (or_empty (it_fd_array it)).

(** How many tabs of the tree have [wait] stored as [TRUE]. *)
Definition wait_stored (it : InitialTab) : bool :=
  match it_wait it with Some true => true | _ => false end.

Definition count_wait (o : TerminalOptions) : nat :=
  List.length (filter wait_stored (all_tabs o)).

(** Reading a configuration document: the tab groups a window group
    lists, the window groups that list any, and the tabs whose command
    key is present but does not decode into an argument vector. *)
Definition tab_groups_of (E : Env) (key_file : GKeyFile) (window_group : string)
    : option (list string) :=
  g_key_file_get_string_list key_file window_group (TERMINAL_CONFIG_WINDOW_PROP_TABS E).

Definition surviving_groups (E : Env) (key_file : GKeyFile) (groups : list string)
    : list string :=
  filter (fun g => negb (is_null (tab_groups_of E key_file g))) groups.

Definition tab_command_fails (E : Env) (key_file : GKeyFile) (tab_group : string) : bool :=
  g_key_file_has_key key_file tab_group (TERMINAL_CONFIG_TERMINAL_PROP_COMMAND E)
  && is_null (terminal_util_key_file_get_argv E key_file tab_group
                (TERMINAL_CONFIG_TERMINAL_PROP_COMMAND E)).

Definition has_bad_command (E : Env) (key_file : GKeyFile) (groups : list string) : bool :=
  existsb (fun g => existsb (tab_command_fails E key_file)
                      (or_empty (tab_groups_of E key_file g))) groups.

(** A window of the tree that shows the keys of its window group, with
    one tab per listed tab group, in the order of the list. *)
Definition window_built_from (E : Env) (key_file : GKeyFile) (source_tag : Z)
    (window_group : string) (iw : InitialWindow) : Prop :=
  iw_source_tag iw = source_tag /\
  iw_role iw = g_key_file_get_string key_file window_group
                 (TERMINAL_CONFIG_WINDOW_PROP_ROLE E) /\
  iw_geometry iw = g_key_file_get_string key_file window_group
                     (TERMINAL_CONFIG_WINDOW_PROP_GEOMETRY E) /\
  map it_profile (iw_tabs iw) =
    map (fun tg => g_key_file_get_string key_file tg
                     (TERMINAL_CONFIG_TERMINAL_PROP_PROFILE_ID E))
        (or_empty (tab_groups_of E key_file window_group)) /\
  map it_title (iw_tabs iw) =
    map (fun tg => g_key_file_get_string key_file tg
                     (TERMINAL_CONFIG_TERMINAL_PROP_TITLE E))
        (or_empty (tab_groups_of E key_file window_group)).

(** Two states of the options that differ at most in the defaults. *)
Definition same_but_defaults (o o' : TerminalOptions) : Prop :=
  initial_windows o' = initial_windows o /\
  exec_argv o' = exec_argv o /\
  execute o' = execute o /\
  any_wait o' = any_wait o /\
  stderr o' = stderr o /\
  verbosity o' = verbosity o.

(** What one option may do to the flattened list of tabs: append fresh
    tabs, or change the last tab (after at most one fresh tab was added for
    an implicit first window) in a way described by [change]. *)
Definition tabs_grow (o o' : TerminalOptions) : Prop :=
  exists fresh, Forall fresh_tab fresh /\ all_tabs o' = all_tabs o ++ fresh.

Definition tabs_modify (change : InitialTab -> InitialTab -> Prop)
    (o o' : TerminalOptions) : Prop :=
  exists fresh ts it it',
    Forall fresh_tab fresh /\
    all_tabs o ++ fresh = ts ++ [it] /\
    all_tabs o' = ts ++ [it'] /\
    change it it'.

Definition wait_set (it it' : InitialTab) : Prop :=
  it_wait it' = Some true /\
  it_fd_list it' = it_fd_list it /\
  it_fd_array it' = it_fd_array it.

Definition fd_appended (fd : Z) (it it' : InitialTab) : Prop :=
  it_wait it' = it_wait it /\
  it_fd_array it' =
    Some (or_empty (it_fd_array it)
          ++ [Build_PassFdElement (Z.of_nat (List.length (or_empty (it_fd_list it)))) fd]) /\
  it_fd_list it' = Some (or_empty (it_fd_list it) ++ [fd]) /\
  ~ In fd (target_fds it) /\
  is_stdio fd = false.

(** The effect of one successful option on [any_wait] and on the tabs. *)
Definition tabs_step (ev : event) (o o' : TerminalOptions) : Prop :=
  match ev with
  | EvWait =>
      any_wait o = false /\ any_wait o' = true /\ tabs_modify wait_set o o'
  | EvPassFd value =>
      any_wait o' = any_wait o /\
      exists fd, parse_fd value = Some fd /\ tabs_modify (fd_appended fd) o o'
  | _ =>
      any_wait o' = any_wait o /\
      (tabs_grow o o' \/ tabs_modify tab_kept o o')
  end.

(** The descriptors already forwarded by the tab an [--fd] would write
    to: none when that tab does not exist yet. *)
Definition current_target_fds (o : TerminalOptions) : list Z :=
  match top_tab o with
  | Some it => target_fds it
  | None => []
  end.

(** The assertion of [ensure_top_window] holds: there is no window yet,
    or the last window has a tab. *)
Definition top_has_tab (o : TerminalOptions) : Prop :=
  initial_windows o = [] \/ top_tab o <> None.

(** [any_wait] accounts for the tabs in which [wait] was stored. *)
Definition wait_accounted (o : TerminalOptions) : Prop :=
  (any_wait o = false -> count_wait o = 0%nat) /\ (count_wait o <= 1)%nat.

(** The name [option_pass_fd_cb] puts in its error for a standard
    stream. *)
Definition stdio_name (fd : Z) : string :=
  if fd =? STDIN_FILENO then "stdin"
  else if fd =? STDOUT_FILENO then "stdout"
  else "stderr".

(** The store [option_pass_fd_cb] makes first: an empty list and an empty
    array in place of [NULL]. *)
Definition with_fd_containers (it : InitialTab) : InitialTab :=
  set_it_fds (Some (or_empty (it_fd_list it))) (Some (or_empty (it_fd_array it))) it.

(** The options that write to the current window, those that write to
    the current tab, and among the latter the three whose callbacks call
    [ensure_top_tab] without looking for a window first. *)
Definition is_window_flag (ev : event) : bool :=
  match ev with
  | EvRole _ | EvGeometry _ | EvShowMenubar | EvHideMenubar
  | EvMaximize | EvFullscreen => true
  | _ => false
  end.

Definition is_tab_flag (ev : event) : bool :=
  match ev with
  | EvProfile _ | EvProfileId _ | EvTitle _ | EvWorkingDirectory _
  | EvCommand _ _ | EvZoom _ | EvWait | EvPassFd _ | EvActive => true
  | _ => false
  end.

Definition always_ensures_tab (ev : event) : bool :=
  match ev with
  | EvWait | EvPassFd _ | EvActive => true
  | _ => false
  end.

(** The value [option_zoom_callback] stores for a zoom factor it read:
    the two comparisons of the callback, one after the other. *)
Definition zoom_clamped (E : Env) (z : float) : float :=
  let z := if PrimFloat.ltb z (TERMINAL_SCALE_MINIMUM E + double_1e_6)
           then TERMINAL_SCALE_MINIMUM E else z in
  if PrimFloat.ltb (TERMINAL_SCALE_MAXIMUM E - double_1e_6) z
  then TERMINAL_SCALE_MAXIMUM E else z.

(** The store a window option makes in the window it writes to. *)
Definition window_store (ev : event) (iw : InitialWindow) : InitialWindow :=
  match ev with
  | EvRole v => set_iw_role (Some v) iw
  | EvGeometry v => set_iw_geometry (Some v) iw
  | EvShowMenubar => set_iw_menubar true true iw
  | EvHideMenubar => set_iw_menubar true false iw
  | EvMaximize => set_iw_start_maximized true iw
  | EvFullscreen => set_iw_start_fullscreen true iw
  | _ => iw
  end.

(** The profile [option_profile_cb] goes on with: the profile of that
    name or identifier, and the default profile when the list has none. *)
Definition profile_or_default (E : Env) (value : string) : option string :=
  match terminal_profiles_list_dup_uuid_or_name E (Some value) with
  | Some profile => Some profile
  | None => terminal_profiles_list_dup_uuid_or_name E None
  end.

(** The store a tab option makes in the tab it writes to. *)
Definition tab_effect (E : Env) (ev : event) (it it' : InitialTab) : Prop :=
  match ev with
  | EvProfile v =>
      exists p, profile_or_default E v = Some p /\ it' = set_it_profile (Some p) it
  | EvProfileId v =>
      exists p, terminal_profiles_list_dup_uuid E v = Some p /\
                it' = set_it_profile (Some p) it
  | EvTitle v => it' = set_it_title (Some v) it
  | EvWorkingDirectory v => it' = set_it_working_dir (Some v) it
  | EvCommand _ v =>
      exists argv, g_shell_parse_argv E v = Some argv /\
                   it' = set_it_exec_argv (Some argv) it
  | EvZoom v =>
      exists z, g_strtod E v = Some z /\ it' = set_it_zoom (zoom_clamped E z) it
  | EvActive => it' = set_it_active true it
  | EvWait => it' = set_it_wait true it
  | EvPassFd v =>
      exists fd, parse_fd v = Some fd /\
        it' = set_it_fds
                (Some (or_empty (it_fd_list it) ++ [fd]))
                (Some (or_empty (it_fd_array it)
                       ++ [Build_PassFdElement
                             (Z.of_nat (List.length (or_empty (it_fd_list it)))) fd]))
                it
  | _ => False
  end.

(** What an option leaves in the defaults when there is no window. *)
Definition default_effect (E : Env) (ev : event) (o' : TerminalOptions) : Prop :=
  match ev with
  | EvRole v => default_role o' = Some v
  | EvGeometry v => default_geometry o' = Some v
  | EvShowMenubar =>
      default_window_menubar_forced o' = true /\ default_window_menubar_state o' = true
  | EvHideMenubar =>
      default_window_menubar_forced o' = true /\ default_window_menubar_state o' = false
  | EvMaximize => default_maximize o' = true
  | EvFullscreen => default_fullscreen o' = true
  | EvProfile v =>
      exists p, profile_or_default E v = Some p /\ default_profile o' = Some p
  | EvProfileId v =>
      exists p, terminal_profiles_list_dup_uuid E v = Some p /\
                default_profile o' = Some p
  | EvTitle v => default_title o' = Some v
  | EvWorkingDirectory v => default_working_dir o' = Some v
  | EvCommand _ v =>
      exists argv, g_shell_parse_argv E v = Some argv /\ exec_argv o' = Some argv
  | EvZoom v =>
      exists z, g_strtod E v = Some z /\ zoom o' = zoom_clamped E z /\ zoom_set o' = true
  | _ => False
  end.

(** Every window of the tree has a tab. *)
Definition windows_have_tabs (o : TerminalOptions) : Prop :=
  Forall (fun iw => iw_tabs iw <> []) (initial_windows o).

Definition is_load_config (ev : event) : bool :=
  match ev with EvLoadConfig _ _ => true | _ => false end.

(** ** A sample environment and sample documents

    Concrete surroundings to run the callbacks in: a profile list that
    knows two profiles, a word splitter for unquoted commands, descriptors
    3 to 7 open, and the constants as upstream defines them. *)

(** A key file given by its entries: groups, and for each key of a group
    its value as the typed accessors return it. *)
Inductive key_value : Type :=
| KInteger (n : Z)
| KBoolean (b : bool)
| KString (s : string)
| KStringList (l : list string).

Definition key_file_entries : Type := list (string * list (string * key_value)).

Fixpoint assoc {A : Type} (k : string) (l : list (string * A)) : option A :=
  match l with
  | [] => None
  | (k', v) :: rest => if (k =? k')%string then Some v else assoc k rest
  end.

Definition lookup_key (d : key_file_entries) (group key : string) : option key_value :=
  match assoc group d with
  | Some keys => assoc key keys
  | None => None
  end.

Definition key_file_of (d : key_file_entries) : GKeyFile :=
  {| g_key_file_has_group := fun g => negb (is_null (assoc g d));
     g_key_file_has_key := fun g k => negb (is_null (lookup_key d g k));
     g_key_file_get_integer := fun g k =>
       match lookup_key d g k with Some (KInteger n) => n | _ => 0 end;
     g_key_file_get_boolean := fun g k =>
       match lookup_key d g k with Some (KBoolean b) => b | _ => false end;
     g_key_file_get_string := fun g k =>
       match lookup_key d g k with Some (KString s) => Some s | _ => None end;
     g_key_file_get_string_list := fun g k =>
       match lookup_key d g k with Some (KStringList l) => Some l | _ => None end |}.

(** Two documents: a session with two windows, and one whose only
    window group has a tab list that is present and empty. *)
Definition session_document : key_file_entries :=
  [ ("GNOME Terminal Configuration",
       [ ("Version", KInteger 1); ("CompatVersion", KInteger 1);
         ("Windows", KStringList ["Window0"; "Window1"; "Window2"]) ]);
    ("Window0",
       [ ("Terminals", KStringList ["Terminal0"; "Terminal1"]);
         ("ActiveTerminal", KString "Terminal1");
         ("Role", KString "editor"); ("MenubarVisible", KBoolean false) ]);
    ("Window1", [ ("Geometry", KString "80x24") ]);
    ("Window2", [ ("Terminals", KStringList ["Terminal2"]) ]);
    ("Terminal0", [ ("ProfileID", KString "p0"); ("Title", KString "first") ]);
    ("Terminal1", [ ("Command", KString "vim notes.txt") ]);
    ("Terminal2", [ ("Title", KString "third") ]) ].

Definition empty_tabs_document : key_file_entries :=
  [ ("GNOME Terminal Configuration",
       [ ("Version", KInteger 1); ("CompatVersion", KInteger 1);
         ("Windows", KStringList ["Window0"]) ]);
    ("Window0", [ ("Terminals", KStringList []) ]) ].

Definition sample_load (path : string) : option GKeyFile :=
  if (path =? "session.conf")%string then Some (key_file_of session_document)
  else if (path =? "empty-tabs.conf")%string then Some (key_file_of empty_tabs_document)
  else None.

Fixpoint split_words (s : string) (cur : string) : list string :=
  match s with
  | EmptyString => if (cur =? "")%string then [] else [cur]
  | String c r =>
      if g_ascii_isspace c
      then (if (cur =? "")%string then split_words r "" else cur :: split_words r "")
      else split_words r (cur ++ String c "")%string
  end.

Definition sample_shell_parse_argv (s : string) : option (list string) :=
  match split_words s "" with
  | [] => None
  | argv => if existsb (fun w => (w =? "'")%string) argv then None else Some argv
  end.

Definition sample_profiles (name : option string) : option string :=
  match name with
  | None => Some "b1dcc9dd-5262-4d8d-a863-c897e6d979b9"
  | Some n =>
      if (n =? "Default")%string then Some "b1dcc9dd-5262-4d8d-a863-c897e6d979b9"
      else if (n =? "Work")%string then Some "0f1e2d3c-4b5a-4978-8695-a4b3c2d1e0f9"
      else None
  end.

Definition sample_env : Env :=
  {| terminal_profiles_list_dup_uuid_or_name := sample_profiles;
     terminal_profiles_list_dup_uuid := fun v => if (String.length v =? 36)%nat then Some v else None;
     g_shell_parse_argv := sample_shell_parse_argv;
     g_strcompress := fun s => s;
     g_strtod := fun s => if (s =? "1.0")%string then Some 1%float
                          else if (s =? "0.5")%string then Some 0.5%float
                          else if (s =? "9")%string then Some 9%float
                          else if (s =? "nan")%string then Some nan
                          else if (s =? "")%string then Some 0%float
                          else None;
     g_application_id_is_valid := fun s => negb (s =? "")%string;
     g_get_current_dir := "/home/user";
     g_key_file_load_from_file := sample_load;
     fd_can_dup := fun fd => (3 <=? fd) && (fd <=? 7);
     TERMINAL_SCALE_MINIMUM := 0.25%float;
     TERMINAL_SCALE_MAXIMUM := 4%float;
     TERMINAL_VERBOSITY_NORMAL := 1;
     TERMINAL_VERBOSITY_DETAIL := 2;
     SOURCE_DEFAULT := 1;
     SOURCE_SESSION := 2;
     TERMINAL_CONFIG_COMPAT_VERSION := 1;
     TERMINAL_CONFIG_GROUP := "GNOME Terminal Configuration";
     TERMINAL_CONFIG_PROP_VERSION := "Version";
     TERMINAL_CONFIG_PROP_COMPAT_VERSION := "CompatVersion";
     TERMINAL_CONFIG_PROP_WINDOWS := "Windows";
     TERMINAL_CONFIG_WINDOW_PROP_TABS := "Terminals";
     TERMINAL_CONFIG_WINDOW_PROP_ACTIVE_TAB := "ActiveTerminal";
     TERMINAL_CONFIG_WINDOW_PROP_ROLE := "Role";
     TERMINAL_CONFIG_WINDOW_PROP_GEOMETRY := "Geometry";
     TERMINAL_CONFIG_WINDOW_PROP_FULLSCREEN := "Fullscreen";
     TERMINAL_CONFIG_WINDOW_PROP_MAXIMIZED := "Maximized";
     TERMINAL_CONFIG_WINDOW_PROP_MENUBAR_VISIBLE := "MenubarVisible";
     TERMINAL_CONFIG_TERMINAL_PROP_PROFILE_ID := "ProfileID";
     TERMINAL_CONFIG_TERMINAL_PROP_WORKING_DIRECTORY := "WorkingDirectory";
     TERMINAL_CONFIG_TERMINAL_PROP_TITLE := "Title";
     TERMINAL_CONFIG_TERMINAL_PROP_COMMAND := "Command" |}.

(** The options when the first callback runs, in the sample environment. *)
Definition sample_options : TerminalOptions := terminal_options_init sample_env.

(** The options a callback left, whatever it returned. *)
Definition options_of (r : outcome) : TerminalOptions :=
  match r with
  | Done o => o
  | Failed _ o => o
  | Exited o => o
  | Aborted => sample_options
  end.

(** Sample command lines, after the prescan. *)
Definition after_dashdash : TerminalOptions :=
  snd (prescan sample_env ["gnome-terminal"; "--"; "foo"; "bar"] sample_options).

Definition after_execute : TerminalOptions :=
  snd (prescan sample_env ["gnome-terminal"; "-x"; "top"] sample_options).

(** [--window --hide-menubar], with everything printed. *)
Definition hidden_menubar_window : TerminalOptions :=
  options_of (digest_events sample_env [EvWindow None; EvHideMenubar]
                (set_verbosity 3 sample_options)).


(** ** The rest of the interface *)

(** [terminal_options_ensure_window]; [mode_str] is the value of the
    "new terminal mode" setting read from [GSettings]. *)
Definition terminal_options_ensure_window (mode_str : string) (o : TerminalOptions)
    : outcome :=
  let implicit_if_first_window := (mode_str =? "tab")%string in
  ensure_top_window o implicit_if_first_window.

Definition is_verbosity (ev : event) : bool :=
  match ev with EvVerbosity _ => true | _ => false end.

Definition is_version (ev : event) : bool :=
  match ev with EvVersion => true | _ => false end.

(** A callback that returned, with [TRUE] or [FALSE], and left the two
    streams and [verbosity] as they were. The failed assertion, whose
    message is GLib's, is set apart: the statements say when it is met. *)
Definition printed_nothing (o : TerminalOptions) (r : outcome) : Prop :=
  match r with
  | Done o' | Failed _ o' =>
      stdout o' = stdout o /\ stderr o' = stderr o /\ verbosity o' = verbosity o
  | Exited _ => False
  | Aborted => True
  end.

(** The checks [terminal_options_merge_config] makes before it reads the
    window list. *)
Definition config_versions_ok (E : Env) (key_file : GKeyFile) : bool :=
  let version :=
    g_key_file_get_integer key_file (TERMINAL_CONFIG_GROUP E)
      (TERMINAL_CONFIG_PROP_VERSION E) in
  let compat_version :=
    g_key_file_get_integer key_file (TERMINAL_CONFIG_GROUP E)
      (TERMINAL_CONFIG_PROP_COMPAT_VERSION E) in
  negb ((version <=? 0) || (compat_version <=? 0)
        || (compat_version >? TERMINAL_CONFIG_COMPAT_VERSION E)).

(** Two states of the options that differ at most in the window list and
    in the two defaults [apply_defaults] consumes. *)
Definition same_but_consumed (o o' : TerminalOptions) : Prop :=
  server_app_id o' = server_app_id o /\
  default_profile o' = default_profile o /\
  default_geometry o' = default_geometry o /\
  default_working_dir o' = default_working_dir o /\
  default_title o' = default_title o /\
  default_window_menubar_state o' = default_window_menubar_state o /\
  default_fullscreen o' = default_fullscreen o /\
  default_maximize o' = default_maximize o /\
  execute o' = execute o /\
  exec_argv o' = exec_argv o /\
  zoom o' = zoom o /\
  zoom_set o' = zoom_set o /\
  any_wait o' = any_wait o /\
  verbosity o' = verbosity o /\
  stdout o' = stdout o /\
  stderr o' = stderr o.

(** The window a window group of a document gives: what shows of the
    document in its display fields. *)
Definition window_display_from (E : Env) (key_file : GKeyFile)
    (window_group : string) (iw : InitialWindow) : Prop :=
  iw_start_fullscreen iw =
    g_key_file_get_boolean key_file window_group (TERMINAL_CONFIG_WINDOW_PROP_FULLSCREEN E) /\
  iw_start_maximized iw =
    g_key_file_get_boolean key_file window_group (TERMINAL_CONFIG_WINDOW_PROP_MAXIMIZED E) /\
  iw_implicit_first_window iw = false /\
  (g_key_file_has_key key_file window_group
     (TERMINAL_CONFIG_WINDOW_PROP_MENUBAR_VISIBLE E) = true ->
   iw_force_menubar_state iw = true /\
   iw_menubar_state iw =
     g_key_file_get_boolean key_file window_group
       (TERMINAL_CONFIG_WINDOW_PROP_MENUBAR_VISIBLE E)).

(** The tab a tab group of a document gives. *)
Definition tab_from_document (E : Env) (key_file : GKeyFile)
    (active_terminal : option string) (tab_group : string) (it : InitialTab) : Prop :=
  it_active it = g_strcmp0_eq active_terminal tab_group /\
  it_working_dir it =
    option_map (g_strcompress E)
      (g_key_file_get_string key_file tab_group
         (TERMINAL_CONFIG_TERMINAL_PROP_WORKING_DIRECTORY E)) /\
  it_exec_argv it =
    (if g_key_file_has_key key_file tab_group (TERMINAL_CONFIG_TERMINAL_PROP_COMMAND E)
     then match g_key_file_get_string key_file tab_group
                  (TERMINAL_CONFIG_TERMINAL_PROP_COMMAND E) with
          | Some escaped => g_shell_parse_argv E (g_strcompress E escaped)
          | None => None
          end
     else None) /\
  it_zoom it = 1%float /\ it_zoom_set it = false /\
  it_fd_array it = None.

Definition window_tabs_from (E : Env) (key_file : GKeyFile)
    (window_group : string) (iw : InitialWindow) : Prop :=
  Forall2 (tab_from_document E key_file
             (g_key_file_get_string key_file window_group
                (TERMINAL_CONFIG_WINDOW_PROP_ACTIVE_TAB E)))
          (or_empty (tab_groups_of E key_file window_group)) (iw_tabs iw).

(** Only the first window of the list may be marked as implicit. *)
Definition implicit_only_first (o : TerminalOptions) : Prop :=
  Forall (fun iw => iw_implicit_first_window iw = false) (tl (initial_windows o)).

(** More sample inputs: [--role editor --fullscreen] before any window,
    and a document that lists one window group, which has no tab list. *)
Definition role_and_fullscreen_defaults : TerminalOptions :=
  options_of (digest_events sample_env [EvRole "editor"; EvFullscreen] sample_options).

Definition no_tab_list_document : key_file_entries :=
  [ ("GNOME Terminal Configuration",
       [ ("Version", KInteger 1); ("CompatVersion", KInteger 1);
         ("Windows", KStringList ["Window0"]) ]);
    ("Window0", [ ("Geometry", KString "80x24") ]) ].



(** ** Basic facts about the list helpers *)

Lemma g_list_last_app (A : Type) (l : list A) (x : A) :
  g_list_last (l ++ [x]) = Some x.
Proof.
  induction l as [|y l IH]; simpl; [reflexivity|].
  destruct (l ++ [x]) eqn:Hl; [destruct l; discriminate|exact IH].
Qed.

Lemma map_last_app (A : Type) (f : A -> A) (l : list A) (x : A) :
  map_last f (l ++ [x]) = l ++ [f x].
Proof.
  induction l as [|y l IH]; simpl; [reflexivity|].
  destruct (l ++ [x]) eqn:Hl; [destruct l; discriminate|].
  now rewrite IH.
Qed.

Lemma list_last_split (A : Type) (l : list A) :
  l <> [] -> exists l0 x, l = l0 ++ [x].
Proof.
  intros H. destruct (exists_last H) as (l0 & x & Hl). now exists l0, x.
Qed.

Lemma is_nil_false_split (A : Type) (l : list A) :
  is_nil l = false -> exists l0 x, l = l0 ++ [x].
Proof.
  intros H. apply list_last_split. now destruct l.
Qed.

Lemma is_nil_app (A : Type) (l : list A) (x : A) : is_nil (l ++ [x]) = false.
Proof. now destruct l. Qed.

Lemma g_list_last_None (A : Type) (l : list A) : g_list_last l = None -> l = [].
Proof.
  destruct l as [|x l]; [reflexivity|].
  destruct (list_last_split A (x :: l)) as (l0 & y & Hl); [discriminate|].
  rewrite Hl, g_list_last_app. discriminate.
Qed.

Lemma Forall_map_last (A : Type) (P : A -> Prop) (f : A -> A) (l : list A) :
  Forall P l -> (forall x, P x -> P (f x)) -> Forall P (map_last f l).
Proof.
  intros Hl Hf. destruct l as [|x l]; [constructor|].
  destruct (list_last_split A (x :: l)) as (l0 & y & Heq); [discriminate|].
  rewrite Heq in *. rewrite map_last_app.
  apply Forall_app in Hl. destruct Hl as [H0 H1].
  apply Forall_app. split; [exact H0|].
  inversion H1; subst. constructor; auto.
Qed.

(** ** The state the top-level helpers leave *)

Lemma top_window_app (o : TerminalOptions) (l : list InitialWindow) (iw : InitialWindow) :
  initial_windows o = l ++ [iw] -> top_window o = Some iw.
Proof. unfold top_window. intros ->. apply g_list_last_app. Qed.

Lemma with_top_window_app (f : InitialWindow -> InitialWindow) (o : TerminalOptions)
    (l : list InitialWindow) (iw : InitialWindow) :
  initial_windows o = l ++ [iw] ->
  initial_windows (with_top_window f o) = l ++ [f iw].
Proof. unfold with_top_window. simpl. intros ->. apply map_last_app. Qed.

Lemma with_top_tab_app (f : InitialTab -> InitialTab) (o : TerminalOptions)
    (l : list InitialWindow) (iw : InitialWindow) (ts : list InitialTab) (it : InitialTab) :
  initial_windows o = l ++ [iw] -> iw_tabs iw = ts ++ [it] ->
  initial_windows (with_top_tab f o) = l ++ [set_iw_tabs (ts ++ [f it]) iw].
Proof.
  intros Hw Ht. unfold with_top_tab. rewrite (with_top_window_app _ _ _ _ Hw).
  now rewrite Ht, map_last_app.
Qed.

(** [ensure_top_window] on options that already hold a window: nothing
    changes, and the assertion holds when the last window has a tab. *)
Lemma ensure_top_tab_some (o : TerminalOptions) (l : list InitialWindow)
    (iw : InitialWindow) (ts : list InitialTab) (it : InitialTab) :
  initial_windows o = l ++ [iw] -> iw_tabs iw = ts ++ [it] ->
  ensure_top_tab o = Done o.
Proof.
  intros Hw Ht. unfold ensure_top_tab, ensure_top_window, top_tab.
  rewrite Hw, is_nil_app. rewrite (top_window_app _ _ _ Hw).
  rewrite Ht, is_nil_app. simpl. rewrite (top_window_app _ _ _ Hw).
  now rewrite Ht, g_list_last_app.
Qed.

Lemma ensure_top_tab_no_tabs (o : TerminalOptions) (l : list InitialWindow)
    (iw : InitialWindow) :
  initial_windows o = l ++ [iw] -> iw_tabs iw = [] ->
  ensure_top_tab o = Aborted.
Proof.
  intros Hw Ht. unfold ensure_top_tab, ensure_top_window.
  rewrite Hw, is_nil_app. rewrite (top_window_app _ _ _ Hw). now rewrite Ht.
Qed.

(** What [apply_defaults] does to a window that comes with no role, no
    geometry and no menubar state of its own. *)
Lemma add_new_window_windows (o : TerminalOptions) (profile : option string)
    (implicit : bool) :
  exists iw,
    initial_windows (add_new_window o profile implicit) = initial_windows o ++ [iw] /\
    iw_tabs iw = [initial_tab_new profile] /\
    iw_implicit_first_window iw = is_nil (initial_windows o) && implicit /\
    iw_source_tag iw = 0 /\
    iw_role iw = default_role o /\
    iw_geometry iw = default_geometry o /\
    iw_force_menubar_state iw = default_window_menubar_forced o /\
    (default_window_menubar_forced o = true ->
     iw_menubar_state iw = default_window_menubar_state o) /\
    iw_start_fullscreen iw = default_fullscreen o /\
    iw_start_maximized iw = default_maximize o.
Proof.
  unfold add_new_window, apply_defaults. destruct o as [? ? dr ? ? ? mf ? ? ? ? ? ? ? ? ? ? ? ?].
  simpl. destruct dr, mf; simpl; eexists; repeat split; simpl; try reflexivity; intros; try discriminate.
Qed.

Lemma ensure_top_tab_empty (o : TerminalOptions) :
  initial_windows o = [] ->
  ensure_top_tab o = Done (add_new_window o None true).
Proof.
  intros Hw. unfold ensure_top_tab, ensure_top_window, top_tab. rewrite Hw. simpl.
  destruct (add_new_window_windows o None true) as (iw & Hiw & Ht & _).
  rewrite Hw in Hiw. simpl in Hiw.
  unfold top_window. rewrite Hiw. simpl. rewrite Ht. simpl.
  unfold top_window. rewrite Hiw. simpl. now rewrite Ht.
Qed.

Lemma apply_defaults_options (o : TerminalOptions) (iw : InitialWindow) :
  let o' := fst (apply_defaults o iw) in
  default_window_menubar_forced o' = false /\
  default_role o' = None /\
  default_geometry o' = default_geometry o /\
  default_window_menubar_state o' = default_window_menubar_state o /\
  default_fullscreen o' = default_fullscreen o /\
  default_maximize o' = default_maximize o /\
  initial_windows o' = initial_windows o /\
  exec_argv o' = exec_argv o /\
  execute o' = execute o /\
  any_wait o' = any_wait o /\
  stderr o' = stderr o /\
  verbosity o' = verbosity o.
Proof.
  unfold apply_defaults. destruct o as [? ? dr ? ? ? mf ? ? ? ? ? ? ? ? ? ? ? ?].
  simpl. destruct dr, mf; simpl; repeat split; reflexivity.
Qed.

Lemma apply_defaults_window (o : TerminalOptions) (iw : InitialWindow) :
  let iw' := snd (apply_defaults o iw) in
  iw_tabs iw' = iw_tabs iw /\
  iw_source_tag iw' = iw_source_tag iw /\
  iw_implicit_first_window iw' = iw_implicit_first_window iw /\
  (iw_geometry iw = None -> iw_geometry iw' = default_geometry o) /\
  (forall g, iw_geometry iw = Some g -> iw_geometry iw' = Some g) /\
  (default_window_menubar_forced o = true ->
   iw_force_menubar_state iw' = true /\
   iw_menubar_state iw' = default_window_menubar_state o) /\
  (default_window_menubar_forced o = false ->
   iw_force_menubar_state iw' = iw_force_menubar_state iw /\
   iw_menubar_state iw' = iw_menubar_state iw).
Proof.
  unfold apply_defaults. destruct o as [? ? dr ? ? ? mf ? ? ? ? ? ? ? ? ? ? ? ?].
  destruct iw as [? ? ? ? ? ? ? g ?].
  simpl. destruct dr, mf, g; simpl; repeat split; intros; try reflexivity;
    try discriminate; try assumption.
Qed.

Lemma add_new_window_options (o : TerminalOptions) (profile : option string)
    (implicit : bool) :
  let o' := add_new_window o profile implicit in
  default_window_menubar_forced o' = false /\
  default_role o' = None /\
  default_geometry o' = default_geometry o /\
  default_window_menubar_state o' = default_window_menubar_state o /\
  default_fullscreen o' = default_fullscreen o /\
  default_maximize o' = default_maximize o /\
  exec_argv o' = exec_argv o /\
  execute o' = execute o /\
  any_wait o' = any_wait o /\
  stderr o' = stderr o /\
  verbosity o' = verbosity o.
Proof.
  unfold add_new_window, apply_defaults. destruct o as [? ? dr ? ? ? mf ? ? ? ? ? ? ? ? ? ? ? ?].
  simpl. destruct dr, mf; simpl; repeat split; reflexivity.
Qed.

(** ** Defaults at window creation *)

Section Defaults.

Variable E : Env.


End Defaults.

(** ** The post-parse hook *)

(** C1, as the code has it. With [execute] set and no command buffered the
    hook fails; with [execute] clear it changes nothing, whether or not a
    command is buffered; with [execute] set and a command buffered, the
    command moves from the buffer to a tab of the list: to the one tab of
    the implicit first window when the list was empty, and to the first
    tab of the first window when the list held one window with one tab. *)
Theorem digest_options_callback_attaches (o : TerminalOptions) :
  (execute o = true -> exec_argv o = None ->
   digest_options_callback o = Failed ErrCommandRequired o) /\
  (execute o = false -> digest_options_callback o = Done o) /\
  (forall argv, execute o = true -> exec_argv o = Some argv ->
     initial_windows o = [] ->
     exists o' iw it,
       digest_options_callback o = Done o' /\
       initial_windows o' = [iw] /\ iw_tabs iw = [it] /\
       iw_implicit_first_window iw = true /\
       it_exec_argv it = Some argv /\ exec_argv o' = None) /\
  (forall argv iw it, execute o = true -> exec_argv o = Some argv ->
     initial_windows o = [iw] -> iw_tabs iw = [it] ->
     exists o',
       digest_options_callback o = Done o' /\
       initial_windows o' = [set_iw_tabs [set_it_exec_argv (Some argv) it] iw] /\
       exec_argv o' = None) /\
  (forall argv o', execute o = true -> exec_argv o = Some argv ->
     digest_options_callback o = Done o' ->
     exec_argv o' = None /\
     exists iw it,
       In iw (initial_windows o') /\ In it (iw_tabs iw) /\
       it_exec_argv it = Some argv).
Proof.
  unfold digest_options_callback. split; [|split; [|split; [|split]]].
  - intros He Ha. now rewrite He, Ha.
  - intros He. now rewrite He.
  - intros argv He Ha Hw. rewrite He, Ha.
    rewrite (ensure_top_tab_empty o Hw). simpl.
    destruct (add_new_window_windows o None true) as (iw & Hiw & Ht & Hi & _).
    rewrite Hw in Hiw, Hi. simpl in Hiw, Hi.
    eexists. exists (set_iw_tabs [set_it_exec_argv (Some argv) (initial_tab_new None)] iw).
    eexists. split; [reflexivity|]. simpl.
    rewrite Hiw. simpl. rewrite Ht. simpl. repeat split; try reflexivity. exact Hi.
  - intros argv iw it He Ha Hw Ht. rewrite He, Ha.
    rewrite (ensure_top_tab_some o [] iw [] it Hw Ht). simpl.
    eexists. split; [reflexivity|]. simpl. rewrite Hw. simpl. rewrite Ht. simpl.
    split; reflexivity.
  - intros argv o' He Ha Hdone. rewrite He, Ha in Hdone.
    destruct (ensure_top_tab o) as [o1| | |] eqn:Het; simpl in Hdone; try discriminate.
    injection Hdone as <-. split; [reflexivity|]. simpl.
    unfold ensure_top_tab in Het.
    destruct (ensure_top_window o true) as [o2| | |] eqn:Hew; simpl in Het; try discriminate.
    destruct (top_tab o2) as [it|] eqn:Htt; try discriminate.
    injection Het as ->.
    unfold top_tab, top_window in Htt.
    destruct (g_list_last (initial_windows o1)) as [iw|] eqn:Hlw; try discriminate.
    destruct (list_last_split _ (initial_windows o1)) as (l0 & iw' & Hl0).
    { intros Hnil. rewrite Hnil in Hlw. discriminate. }
    rewrite Hl0, g_list_last_app in Hlw. injection Hlw as ->.
    destruct (list_last_split _ (iw_tabs iw)) as (t0 & it' & Ht0).
    { intros Hnil. rewrite Hnil in Htt. discriminate. }
    rewrite Hl0, map_last_app. rewrite Ht0, map_last_app.
    eexists. eexists. split; [apply in_or_app; right; left; reflexivity|].
    simpl. split; [apply in_or_app; right; left; reflexivity|reflexivity].
Qed.

(** ** The prescanner *)

Section Prescanner.

Variable E : Env.

Lemma prescan_loop_no_switch (rest : list string) (i argc : nat) (o : TerminalOptions) :
  Forall (fun a => is_switch_arg a = false) rest ->
  prescan_loop E i rest argc o = (argc, o).
Proof.
  intros H. revert i. induction H as [|a rest Ha _ IH]; intros i; simpl; [reflexivity|].
  unfold is_switch_arg, is_execute_arg, is_dashdash_arg in Ha.
  apply orb_false_iff in Ha. destruct Ha as [Ha1 Ha2].
  rewrite Ha1, Ha2. simpl. apply IH.
Qed.

Lemma prescan_loop_switch (pre : list string) (m : string) (post : list string)
    (i argc : nat) (o : TerminalOptions) :
  Forall (fun a => is_switch_arg a = false) pre ->
  is_switch_arg m = true ->
  prescan_loop E i (pre ++ m :: post) argc o =
  let o1 := if is_execute_arg m then deprecated_command_option_warning E m o else o in
  let o2 := set_execute (is_execute_arg m) o1 in
  if is_nil post then (argc, o2)
  else ((i + List.length pre)%nat, set_exec_argv (Some post) o2).
Proof.
  intros H Hm. revert i. induction H as [|a pre Ha _ IH]; intros i; simpl.
  - unfold is_switch_arg, is_execute_arg, is_dashdash_arg in Hm.
    unfold is_execute_arg.
    destruct ((m =? "-x")%string || (m =? "--execute")%string) eqn:He; simpl.
    + now rewrite Nat.add_0_r.
    + simpl in Hm. rewrite Hm. simpl. now rewrite Nat.add_0_r.
  - unfold is_switch_arg, is_execute_arg, is_dashdash_arg in Ha.
    apply orb_false_iff in Ha. destruct Ha as [Ha1 Ha2].
    rewrite Ha1, Ha2. simpl. rewrite IH. cbv zeta.
    now rewrite Nat.add_succ_comm.
Qed.

(** C8, as the code has it. Among the arguments after the program name,
    nothing happens up to the first ["-x"], ["--execute"] or ["--"];
    [execute] is set exactly when that first match is an execute flag;
    when tokens follow the match they become the trailing command as they
    are, and the match and all that follows are cut from the vector handed
    to the option parser; when the match is the last token the vector is
    left whole and no command is recorded; without a match the vector is
    unchanged and no command is recorded. *)
Theorem prescan_first_match (o : TerminalOptions) (argv0 : string) (args : list string) :
  (Forall (fun a => is_switch_arg a = false) args ->
   prescan E (argv0 :: args) o = (argv0 :: args, set_exec_argv None o)) /\
  (forall pre m post,
     args = pre ++ m :: post ->
     Forall (fun a => is_switch_arg a = false) pre ->
     is_switch_arg m = true ->
     execute (snd (prescan E (argv0 :: args) o)) = is_execute_arg m /\
     (post <> [] ->
      fst (prescan E (argv0 :: args) o) = argv0 :: pre /\
      exec_argv (snd (prescan E (argv0 :: args) o)) = Some post) /\
     (post = [] ->
      fst (prescan E (argv0 :: args) o) = argv0 :: args /\
      exec_argv (snd (prescan E (argv0 :: args) o)) = None)).
Proof.
  split.
  - intros H. unfold prescan. cbn [tl]. rewrite (prescan_loop_no_switch _ _ _ _ H).
    now rewrite firstn_all.
  - intros pre m post -> Hpre Hm. unfold prescan. cbn [tl].
    rewrite (prescan_loop_switch _ _ _ _ _ _ Hpre Hm). cbv zeta.
    destruct post as [|p post]; cbn [is_nil].
    + cbn [snd fst]. split; [reflexivity|]. split; [intros Hne; now elim Hne|].
      intros _. rewrite firstn_all. split; [reflexivity|].
      destruct (is_execute_arg m); cbn; [|reflexivity].
      unfold deprecated_command_option_warning, deprecated_option_warning,
        terminal_printerr, terminal_fprintf.
      repeat match goal with |- context [if ?b then _ else _] => destruct b end;
        reflexivity.
    + cbn [snd fst]. split; [reflexivity|]. split; [|discriminate].
      intros _. split; [|reflexivity].
      cbn [Nat.add firstn]. f_equal.
      rewrite firstn_app, firstn_all, Nat.sub_diag. cbn. apply app_nil_r.
Qed.

End Prescanner.

(** ** The tabs of the tree, flattened *)

Lemma all_tabs_app (o : TerminalOptions) (l : list InitialWindow) (iw : InitialWindow) :
  initial_windows o = l ++ [iw] ->
  all_tabs o = List.concat (map iw_tabs l) ++ iw_tabs iw.
Proof.
  unfold all_tabs. intros ->. rewrite map_app, List.concat_app. simpl.
  now rewrite app_nil_r.
Qed.

Lemma all_tabs_with_top_tab (f : InitialTab -> InitialTab) (o : TerminalOptions)
    (l : list InitialWindow) (iw : InitialWindow) (ts : list InitialTab) (it : InitialTab) :
  initial_windows o = l ++ [iw] -> iw_tabs iw = ts ++ [it] ->
  all_tabs o = (List.concat (map iw_tabs l) ++ ts) ++ [it] /\
  all_tabs (with_top_tab f o) = (List.concat (map iw_tabs l) ++ ts) ++ [f it].
Proof.
  intros Hw Ht. split.
  - rewrite (all_tabs_app o l iw Hw), Ht. now rewrite app_assoc.
  - rewrite (all_tabs_app _ l _ (with_top_tab_app f o l iw ts it Hw Ht)).
    simpl. now rewrite app_assoc.
Qed.

Lemma all_tabs_with_top_window (g : InitialWindow -> InitialWindow) (o : TerminalOptions) :
  (forall iw, iw_tabs (g iw) = iw_tabs iw) ->
  all_tabs (with_top_window g o) = all_tabs o.
Proof.
  intros Hg. destruct (initial_windows o) as [|w ws] eqn:Hw.
  - unfold all_tabs, with_top_window. simpl. now rewrite Hw.
  - destruct (list_last_split _ (w :: ws)) as (l & iw & Hl); [discriminate|].
    rewrite Hl in Hw.
    rewrite (all_tabs_app _ l _ (with_top_window_app g o l iw Hw)).
    rewrite (all_tabs_app o l iw Hw). now rewrite Hg.
Qed.

Lemma all_tabs_add_new_window (o : TerminalOptions) (profile : option string)
    (implicit : bool) :
  all_tabs (add_new_window o profile implicit) = all_tabs o ++ [initial_tab_new profile].
Proof.
  destruct (add_new_window_windows o profile implicit) as (iw & Hw & Ht & _).
  rewrite (all_tabs_app _ _ _ Hw), Ht. reflexivity.
Qed.

Lemma all_tabs_add_tab (profile : option string) (o : TerminalOptions) :
  all_tabs (add_tab profile o) = all_tabs o ++ [initial_tab_new profile].
Proof.
  unfold add_tab. destruct (initial_windows o) as [|w ws] eqn:Hw; simpl.
  - apply all_tabs_add_new_window.
  - destruct (list_last_split _ (w :: ws)) as (l & iw & Hl); [discriminate|].
    rewrite Hl in Hw.
    rewrite (all_tabs_app _ l _
               (with_top_window_app
                  (fun iw => set_iw_tabs (iw_tabs iw ++ [initial_tab_new profile]) iw)
                  o l iw Hw)).
    rewrite (all_tabs_app o l iw Hw). simpl. now rewrite app_assoc.
Qed.

Lemma fresh_initial_tab_new (profile : option string) : fresh_tab (initial_tab_new profile).
Proof. repeat split. Qed.

(** After [ensure_top_tab] the tab to write to is the last of all tabs;
    the only tab that may have been added is the fresh tab of an implicit
    first window; nothing else of the options changes. *)
Lemma ensure_top_tab_done (o o1 : TerminalOptions) :
  ensure_top_tab o = Done o1 ->
  exists fresh ts it,
    Forall fresh_tab fresh /\
    all_tabs o ++ fresh = ts ++ [it] /\
    top_tab o1 = Some it /\
    (forall f, all_tabs (with_top_tab f o1) = ts ++ [f it]) /\
    initial_windows o1 <> [] /\
    any_wait o1 = any_wait o /\ exec_argv o1 = exec_argv o /\
    execute o1 = execute o /\ stderr o1 = stderr o /\ verbosity o1 = verbosity o.
Proof.
  intros H. destruct (initial_windows o) as [|w ws] eqn:Hw.
  - rewrite (ensure_top_tab_empty o Hw) in H. injection H as <-.
    destruct (add_new_window_windows o None true) as (iw & Hiw & Ht & _).
    destruct (add_new_window_options o None true)
      as (_ & _ & _ & _ & _ & _ & Ha & He & Hy & Hs & Hv).
    rewrite Hw in Hiw. simpl in Hiw.
    exists [initial_tab_new None], [], (initial_tab_new None).
    split; [repeat constructor|].
    split; [unfold all_tabs; now rewrite Hw|].
    split; [unfold top_tab, top_window; rewrite Hiw; simpl; now rewrite Ht|].
    split.
    { intros f.
      destruct (all_tabs_with_top_tab f _ [] iw [] (initial_tab_new None) Hiw Ht) as [_ H2].
      exact H2. }
    split; [rewrite Hiw; discriminate|]. repeat split; assumption.
  - destruct (list_last_split _ (w :: ws)) as (l & iw & Hl); [discriminate|].
    rewrite Hl in Hw. clear Hl.
    destruct (iw_tabs iw) as [|t ts0] eqn:Ht.
    + rewrite (ensure_top_tab_no_tabs o l iw Hw Ht) in H. discriminate.
    + destruct (list_last_split _ (t :: ts0)) as (ts & it & Hts); [discriminate|].
      rewrite Hts in Ht. clear Hts.
      rewrite (ensure_top_tab_some o l iw ts it Hw Ht) in H. injection H as <-.
      exists [], (List.concat (map iw_tabs l) ++ ts), it.
      split; [constructor|].
      destruct (all_tabs_with_top_tab (fun x => x) o l iw ts it Hw Ht) as [H1 _].
      split; [now rewrite app_nil_r|].
      split; [unfold top_tab; rewrite (top_window_app _ _ _ Hw), Ht; apply g_list_last_app|].
      split.
      { intros f. now destruct (all_tabs_with_top_tab f o l iw ts it Hw Ht). }
      split; [rewrite Hw; now destruct l|]. repeat split.
Qed.

(** ** The configuration-file merger *)

Section Merger.

Variable E : Env.
Variable key_file : GKeyFile.

Lemma merge_tab_result (active_terminal : option string) (tab_group : string) :
  fresh_tab (fst (merge_tab E key_file active_terminal tab_group)) /\
  snd (merge_tab E key_file active_terminal tab_group)
    = tab_command_fails E key_file tab_group /\
  it_profile (fst (merge_tab E key_file active_terminal tab_group))
    = g_key_file_get_string key_file tab_group (TERMINAL_CONFIG_TERMINAL_PROP_PROFILE_ID E) /\
  it_title (fst (merge_tab E key_file active_terminal tab_group))
    = g_key_file_get_string key_file tab_group (TERMINAL_CONFIG_TERMINAL_PROP_TITLE E).
Proof.
  unfold merge_tab, tab_command_fails.
  destruct (g_key_file_has_key key_file tab_group _);
    destruct (g_strcmp0_eq active_terminal tab_group); simpl;
    repeat split; reflexivity.
Qed.

Lemma merge_tabs_result (active_terminal : option string) (tab_groups : list string)
    (iw : InitialWindow) :
  exists new,
    fst (merge_tabs E key_file active_terminal tab_groups iw)
      = set_iw_tabs (iw_tabs iw ++ new) iw /\
    Forall fresh_tab new /\
    snd (merge_tabs E key_file active_terminal tab_groups iw)
      = existsb (tab_command_fails E key_file) tab_groups /\
    (existsb (tab_command_fails E key_file) tab_groups = false ->
     new = map (fun tg => fst (merge_tab E key_file active_terminal tg)) tab_groups).
Proof.
  revert iw. induction tab_groups as [|tg rest IH]; intros iw.
  - exists []. simpl. rewrite app_nil_r. repeat split; try constructor.
    now destruct iw.
  - simpl. destruct (merge_tab_result active_terminal tg) as (Hf & He & _).
    destruct (merge_tab E key_file active_terminal tg) as [it err] eqn:Hmt.
    simpl in Hf, He. rewrite <- He.
    destruct err; simpl.
    + exists [it]. split; [reflexivity|]. split; [now constructor|].
      split; [reflexivity|discriminate].
    + destruct (IH (set_iw_tabs (iw_tabs iw ++ [it]) iw)) as (new & H1 & H2 & H3 & H4).
      exists (it :: new). rewrite H1, H3. simpl. rewrite <- app_assoc. simpl.
      split; [reflexivity|]. split; [now constructor|]. split; [reflexivity|].
      intros Hn. now rewrite (H4 Hn).
Qed.

Lemma merge_window_result (source_tag : Z) (window_group : string)
    (tab_groups : list string) (o : TerminalOptions) :
  tab_groups_of E key_file window_group = Some tab_groups ->
  let r := merge_window E key_file source_tag window_group tab_groups o in
  fst (fst r) = fst (apply_defaults o (initial_window_new source_tag)) /\
  Forall fresh_tab (iw_tabs (snd (fst r))) /\
  snd r = existsb (tab_command_fails E key_file) tab_groups /\
  (snd r = false -> window_built_from E key_file source_tag window_group (snd (fst r))).
Proof.
  intros Htg. unfold merge_window.
  destruct (apply_defaults_window o (initial_window_new source_tag)) as (Ht & Hs & _).
  destruct (apply_defaults o (initial_window_new source_tag)) as [o1 iw1] eqn:Had.
  simpl in Ht, Hs.
  match goal with
  | |- context [merge_tabs E key_file ?a tab_groups ?w] =>
      destruct (merge_tabs_result a tab_groups w) as (new & H1 & H2 & H3 & H4);
      destruct (merge_tabs E key_file a tab_groups w) as [iw2 err] eqn:Hm
  end.
  simpl in H1, H3. cbv zeta. cbn [fst snd].
  split; [reflexivity|].
  assert (Htabs : iw_tabs iw2 = new).
  { rewrite H1.
    destruct (g_key_file_has_key key_file window_group _); simpl; now rewrite Ht. }
  split; [now rewrite Htabs|]. split; [exact H3|].
  intros Herr. rewrite Herr in H3. symmetry in H3. specialize (H4 H3).
  unfold window_built_from. rewrite Htg. simpl or_empty. rewrite Htabs, H4.
  rewrite !map_map. rewrite H1.
  repeat split.
  - destruct (g_key_file_has_key key_file window_group _); simpl; exact Hs.
  - destruct (g_key_file_has_key key_file window_group _); reflexivity.
  - destruct (g_key_file_has_key key_file window_group _); reflexivity.
  - apply map_ext. intros tg. now destruct (merge_tab_result
      (g_key_file_get_string key_file window_group
         (TERMINAL_CONFIG_WINDOW_PROP_ACTIVE_TAB E)) tg) as (_ & _ & Hp & _).
  - apply map_ext. intros tg. now destruct (merge_tab_result
      (g_key_file_get_string key_file window_group
         (TERMINAL_CONFIG_WINDOW_PROP_ACTIVE_TAB E)) tg) as (_ & _ & _ & Hp).
Qed.

End Merger.

Section MergeConfig.

Variable E : Env.
Variable key_file : GKeyFile.
Variable source_tag : Z.

Lemma same_but_defaults_refl (o : TerminalOptions) : same_but_defaults o o.
Proof. repeat split. Qed.

Lemma same_but_defaults_trans (o1 o2 o3 : TerminalOptions) :
  same_but_defaults o1 o2 -> same_but_defaults o2 o3 -> same_but_defaults o1 o3.
Proof.
  unfold same_but_defaults.
  intros (A1 & A2 & A3 & A4 & A5 & A6) (B1 & B2 & B3 & B4 & B5 & B6).
  repeat split; congruence.
Qed.

Lemma apply_defaults_same_but_defaults (o : TerminalOptions) (iw : InitialWindow) :
  same_but_defaults o (fst (apply_defaults o iw)).
Proof.
  destruct (apply_defaults_options o iw)
    as (_ & _ & _ & _ & _ & _ & H1 & H2 & H3 & H4 & H5 & H6).
  repeat split; assumption.
Qed.

Lemma has_bad_command_cons (g : string) (rest : list string) :
  has_bad_command E key_file (g :: rest) =
  existsb (tab_command_fails E key_file) (or_empty (tab_groups_of E key_file g))
  || has_bad_command E key_file rest.
Proof. reflexivity. Qed.

Lemma surviving_groups_cons (g : string) (rest : list string) :
  surviving_groups E key_file (g :: rest) =
  if negb (is_null (tab_groups_of E key_file g))
  then g :: surviving_groups E key_file rest
  else surviving_groups E key_file rest.
Proof. reflexivity. Qed.

Lemma merge_windows_result (groups : list string) (o : TerminalOptions)
    (acc : list InitialWindow) :
  let r := merge_windows E key_file source_tag groups o acc in
  same_but_defaults o (fst (fst r)) /\
  exists new,
    snd (fst r) = acc ++ new /\
    Forall (fun iw => Forall fresh_tab (iw_tabs iw)) new /\
    snd r = has_bad_command E key_file groups /\
    (snd r = false ->
     Forall2 (window_built_from E key_file source_tag)
       (surviving_groups E key_file groups) new).
Proof.
  revert o acc. induction groups as [|g rest IH]; intros o acc; cbv zeta.
  - simpl. split; [apply same_but_defaults_refl|].
    exists []. rewrite app_nil_r. repeat split; constructor.
  - rewrite has_bad_command_cons, surviving_groups_cons.
    cbn [merge_windows]. unfold tab_groups_of.
    destruct (g_key_file_get_string_list key_file g (TERMINAL_CONFIG_WINDOW_PROP_TABS E))
      as [tgs|] eqn:Htg; cbn [is_null negb or_empty existsb orb].
    + destruct (merge_window_result E key_file source_tag g tgs o Htg)
        as (H1 & H2 & H3 & H4).
      destruct (merge_window E key_file source_tag g tgs o) as [[o1 iw] err] eqn:Hmw.
      simpl in H1, H2, H3, H4. rewrite <- H3.
      assert (Hs : same_but_defaults o o1).
      { rewrite H1. apply apply_defaults_same_but_defaults. }
      destruct err; simpl.
      * split; [exact Hs|]. exists [iw].
        split; [reflexivity|]. split; [now repeat constructor|].
        split; [reflexivity|discriminate].
      * destruct (IH o1 (acc ++ [iw])) as (Hs' & new & N1 & N2 & N3 & N4).
        split; [exact (same_but_defaults_trans _ _ _ Hs Hs')|].
        exists (iw :: new). rewrite N1, <- app_assoc. simpl.
        split; [reflexivity|]. split; [now constructor|]. split; [exact N3|].
        intros Hn. constructor; [now apply H4|now apply N4].
    + exact (IH o acc).
Qed.

Lemma terminal_options_merge_config_not_aborted (o : TerminalOptions) :
  terminal_options_merge_config E o key_file source_tag <> Aborted.
Proof.
  unfold terminal_options_merge_config.
  destruct (negb (g_key_file_has_group key_file (TERMINAL_CONFIG_GROUP E)));
    [discriminate|].
  match goal with |- context [if ?c then Failed ErrIncompatibleConfigFile o else _] =>
    destruct c end; [discriminate|].
  destruct (g_key_file_get_string_list key_file (TERMINAL_CONFIG_GROUP E)
              (TERMINAL_CONFIG_PROP_WINDOWS E)) as [groups|]; [|discriminate].
  destruct (merge_windows E key_file source_tag groups o []) as [[o1 built] err].
  now destruct err.
Qed.

(** C9. A merge never aborts; whenever it returns an error the window list
    is the one it started from; it does return an error when the command
    key of a tab of a listed window group is present and does not decode
    or split, wherever in the document that tab is; and when it succeeds
    the list is the old one followed by one window per window group that
    has a tab list, in the order of the document, each with its tabs in
    the order of that list. *)
Theorem terminal_options_merge_config_all_or_nothing (o : TerminalOptions) :
  terminal_options_merge_config E o key_file source_tag <> Aborted /\
  (forall e o',
     terminal_options_merge_config E o key_file source_tag = Failed e o' ->
     initial_windows o' = initial_windows o) /\
  (forall groups,
     g_key_file_get_string_list key_file (TERMINAL_CONFIG_GROUP E)
       (TERMINAL_CONFIG_PROP_WINDOWS E) = Some groups ->
     has_bad_command E key_file groups = true ->
     exists e o',
       terminal_options_merge_config E o key_file source_tag = Failed e o' /\
       initial_windows o' = initial_windows o) /\
  (forall o',
     terminal_options_merge_config E o key_file source_tag = Done o' ->
     exists groups built,
       g_key_file_get_string_list key_file (TERMINAL_CONFIG_GROUP E)
         (TERMINAL_CONFIG_PROP_WINDOWS E) = Some groups /\
       has_bad_command E key_file groups = false /\
       initial_windows o' = initial_windows o ++ built /\
       Forall2 (window_built_from E key_file source_tag)
         (surviving_groups E key_file groups) built).
Proof.
  unfold terminal_options_merge_config.
  destruct (negb (g_key_file_has_group key_file (TERMINAL_CONFIG_GROUP E))).
  { repeat split; try discriminate.
    - intros e o' H. now injection H as _ <-.
    - intros. now exists ErrInvalidConfigFile, o. }
  match goal with |- context [if ?c then Failed ErrIncompatibleConfigFile o else _] =>
    destruct c end.
  { repeat split; try discriminate.
    - intros e o' H. now injection H as _ <-.
    - intros. now exists ErrIncompatibleConfigFile, o. }
  destruct (g_key_file_get_string_list key_file (TERMINAL_CONFIG_GROUP E)
              (TERMINAL_CONFIG_PROP_WINDOWS E)) as [groups|].
  2:{ repeat split; try discriminate.
      intros e o' H. now injection H as _ <-. }
  destruct (merge_windows_result groups o []) as (Hs & new & N1 & N2 & N3 & N4).
  destruct (merge_windows E key_file source_tag groups o []) as [[o1 built] err].
  simpl in Hs, N1, N3, N4. destruct Hs as (Hw & _).
  destruct err.
  - repeat split; try discriminate.
    + intros e o' H. injection H as _ <-. exact Hw.
    + intros. now exists ErrKeyFile, o1.
  - repeat split; try discriminate.
    + intros groups' Hg Hbad. injection Hg as <-. congruence.
    + intros o' H. injection H as <-. exists groups, built.
      split; [reflexivity|]. split; [now symmetry|].
      split; [simpl; now rewrite Hw|].
      subst built. now apply N4.
Qed.

End MergeConfig.

(** ** One option at a time: what happens to the tabs *)

Section Steps.

Variable E : Env.

Lemma terminal_fprintf_same (fp : FILE) (level : Z) (m : message) (o : TerminalOptions) :
  initial_windows (terminal_fprintf fp level m o) = initial_windows o /\
  any_wait (terminal_fprintf fp level m o) = any_wait o /\
  exec_argv (terminal_fprintf fp level m o) = exec_argv o /\
  execute (terminal_fprintf fp level m o) = execute o /\
  verbosity (terminal_fprintf fp level m o) = verbosity o /\
  default_window_menubar_forced (terminal_fprintf fp level m o)
    = default_window_menubar_forced o.
Proof.
  unfold terminal_fprintf. destruct (verbosity o <? level), fp; repeat split.
Qed.

Lemma tabs_grow_same (o o' : TerminalOptions) :
  initial_windows o' = initial_windows o -> tabs_grow o o'.
Proof.
  intros H. exists []. split; [constructor|].
  unfold all_tabs. now rewrite H, app_nil_r.
Qed.

Lemma tabs_grow_windows (o o' : TerminalOptions) (new : list InitialWindow) :
  initial_windows o' = initial_windows o ++ new ->
  Forall (fun iw => Forall fresh_tab (iw_tabs iw)) new ->
  tabs_grow o o'.
Proof.
  intros H Hn. exists (List.concat (map iw_tabs new)). split.
  - apply Forall_concat. apply Forall_map. exact Hn.
  - unfold all_tabs. now rewrite H, map_app, List.concat_app.
Qed.

(** The pattern of the tab-scoped callbacks: [ensure_top_tab], then a
    store through the tab it returned. *)
Lemma ensure_then_store (f : InitialTab -> InitialTab) (o0 o o' : TerminalOptions)
    (change : InitialTab -> InitialTab -> Prop) :
  initial_windows o0 = initial_windows o ->
  (forall it, change it (f it)) ->
  (let! o1 := ensure_top_tab o0 in Done (with_top_tab f o1)) = Done o' ->
  any_wait o' = any_wait o0 /\ tabs_modify change o o'.
Proof.
  intros Hw Hf H. destruct (ensure_top_tab o0) as [o1| | |] eqn:Het; try discriminate.
  simpl in H. injection H as <-.
  destruct (ensure_top_tab_done o0 o1 Het) as (fresh & ts & it & H1 & H2 & _ & H4 & _ & H5 & _).
  split; [exact H5|].
  exists fresh, ts, it, (f it). split; [exact H1|].
  split; [unfold all_tabs in *; now rewrite <- Hw|].
  split; [apply H4|apply Hf].
Qed.

Lemma tab_kept_setters (it : InitialTab) :
  (forall v, tab_kept it (set_it_profile v it)) /\
  (forall v, tab_kept it (set_it_exec_argv v it)) /\
  (forall v, tab_kept it (set_it_title v it)) /\
  (forall v, tab_kept it (set_it_working_dir v it)) /\
  (forall v, tab_kept it (set_it_zoom v it)) /\
  (forall v, tab_kept it (set_it_active v it)).
Proof. repeat split. Qed.

Lemma store_profile_step (profile : string) (o0 o o' : TerminalOptions) :
  initial_windows o0 = initial_windows o -> any_wait o0 = any_wait o ->
  store_profile profile o0 = Done o' ->
  any_wait o' = any_wait o /\ (tabs_grow o o' \/ tabs_modify tab_kept o o').
Proof.
  intros Hw Ha H. unfold store_profile in H.
  destruct (is_nil (initial_windows o0)); simpl in H.
  - injection H as <-. split; [exact Ha|]. left. now apply tabs_grow_same.
  - apply (ensure_then_store _ o0 o o' tab_kept Hw) in H.
    + destruct H as [H1 H2]. split; [congruence|now right].
    + intros it. apply tab_kept_setters.
Qed.

Lemma add_new_window_step (o0 o : TerminalOptions) (profile : option string)
    (implicit : bool) :
  initial_windows o0 = initial_windows o -> any_wait o0 = any_wait o ->
  any_wait (add_new_window o0 profile implicit) = any_wait o /\
  tabs_grow o (add_new_window o0 profile implicit).
Proof.
  intros Hw Ha.
  destruct (add_new_window_options o0 profile implicit)
    as (_ & _ & _ & _ & _ & _ & _ & _ & Hy & _).
  split; [congruence|].
  exists [initial_tab_new profile]. split; [repeat constructor|].
  rewrite all_tabs_add_new_window. unfold all_tabs. now rewrite Hw.
Qed.

Lemma add_tab_step (profile : option string) (o : TerminalOptions) :
  any_wait (add_tab profile o) = any_wait o /\ tabs_grow o (add_tab profile o).
Proof.
  split.
  - unfold add_tab. destruct (is_nil (initial_windows o)); simpl; [|reflexivity].
    now destruct (add_new_window_options o profile true)
      as (_ & _ & _ & _ & _ & _ & _ & _ & Hy & _).
  - exists [initial_tab_new profile]. split; [repeat constructor|].
    apply all_tabs_add_tab.
Qed.

Lemma merge_config_step (o o' : TerminalOptions) (key_file : GKeyFile) (tag : Z) :
  terminal_options_merge_config E o key_file tag = Done o' ->
  any_wait o' = any_wait o /\ tabs_grow o o'.
Proof.
  unfold terminal_options_merge_config.
  destruct (negb (g_key_file_has_group key_file (TERMINAL_CONFIG_GROUP E)));
    [discriminate|].
  match goal with |- context [if ?c then Failed ErrIncompatibleConfigFile o else _] =>
    destruct c end; [discriminate|].
  destruct (g_key_file_get_string_list key_file (TERMINAL_CONFIG_GROUP E)
              (TERMINAL_CONFIG_PROP_WINDOWS E)) as [groups|]; [|discriminate].
  destruct (merge_windows_result E key_file tag groups o [])
    as (Hs & new & N1 & N2 & _).
  destruct (merge_windows E key_file tag groups o []) as [[o1 built] err].
  simpl in Hs, N1. destruct Hs as (Hw & _ & _ & Ha & _).
  destruct err; [discriminate|]. intros H. injection H as <-.
  split; [exact Ha|].
  apply (tabs_grow_windows o _ new); [simpl; now rewrite Hw, N1|exact N2].
Qed.

End Steps.

Section EventSteps.

Variable E : Env.

Lemma tabs_grow_with_top_window (g : InitialWindow -> InitialWindow) (o : TerminalOptions) :
  (forall iw, iw_tabs (g iw) = iw_tabs iw) ->
  tabs_grow o (with_top_window g o).
Proof.
  intros Hg. exists []. split; [constructor|].
  now rewrite app_nil_r, all_tabs_with_top_window.
Qed.

(** The shape of the tree after [ensure_top_tab]. *)
Lemma ensure_top_tab_shape (o o1 : TerminalOptions) :
  ensure_top_tab o = Done o1 ->
  exists l iw ts it fresh,
    initial_windows o1 = l ++ [iw] /\
    iw_tabs iw = ts ++ [it] /\
    Forall fresh_tab fresh /\
    all_tabs o ++ fresh = all_tabs o1 /\
    any_wait o1 = any_wait o.
Proof.
  intros H. destruct (initial_windows o) as [|w ws] eqn:Hw.
  - rewrite (ensure_top_tab_empty o Hw) in H. injection H as <-.
    destruct (add_new_window_windows o None true) as (iw & Hiw & Ht & _).
    destruct (add_new_window_options o None true)
      as (_ & _ & _ & _ & _ & _ & _ & _ & Hy & _).
    exists (initial_windows o), iw, [], (initial_tab_new None), [initial_tab_new None].
    split; [exact Hiw|]. split; [exact Ht|]. split; [repeat constructor|].
    split; [now rewrite all_tabs_add_new_window|exact Hy].
  - destruct (list_last_split _ (w :: ws)) as (l & iw & Hl); [discriminate|].
    rewrite Hl in Hw. clear Hl.
    destruct (iw_tabs iw) as [|t ts0] eqn:Ht.
    + rewrite (ensure_top_tab_no_tabs o l iw Hw Ht) in H. discriminate.
    + destruct (list_last_split _ (t :: ts0)) as (ts & it & Hts); [discriminate|].
      rewrite Hts in Ht. clear Hts.
      rewrite (ensure_top_tab_some o l iw ts it Hw Ht) in H. injection H as <-.
      exists l, iw, ts, it, []. repeat split; try assumption; try constructor.
      apply app_nil_r.
Qed.

Lemma existsb_fd_false (fd : Z) (arr : list PassFdElement) :
  existsb (fun e => pf_fd e =? fd) arr = false -> ~ In fd (map pf_fd arr).
Proof.
  induction arr as [|e arr IH]; simpl; [tauto|].
  intros H. apply orb_false_iff in H. destruct H as [H1 H2].
  intros [Heq|Hin]; [|now apply IH].
  rewrite Heq, Z.eqb_refl in H1. discriminate.
Qed.

Lemma option_pass_fd_cb_step (value : string) (o o' : TerminalOptions) :
  option_pass_fd_cb E value o = Done o' ->
  any_wait o' = any_wait o /\
  exists fd, parse_fd value = Some fd /\ tabs_modify (fd_appended fd) o o'.
Proof.
  unfold option_pass_fd_cb, parse_fd.
  set (v := sl_value (g_ascii_strtoll value)).
  destruct (sl_errno (g_ascii_strtoll value) || sl_end_is_value (g_ascii_strtoll value)
            || (v =? -1) || (v <? G_MININT) || (v >? G_MAXINT)); [discriminate|].
  destruct ((v =? STDIN_FILENO) || (v =? STDOUT_FILENO) || (v =? STDERR_FILENO)) eqn:Hstd;
    [discriminate|].
  destruct (ensure_top_tab o) as [o1| | |] eqn:Het; try discriminate.
  cbn [and_then].
  destruct (ensure_top_tab_shape o o1 Het) as (l & iw & ts & it & fresh & Hw & Ht & Hf & Ha & Hy).
  set (f0 := fun it0 => set_it_fds (Some (or_empty (it_fd_list it0)))
                                   (Some (or_empty (it_fd_array it0))) it0).
  pose proof (with_top_tab_app f0 o1 l iw ts it Hw Ht) as Hw2.
  assert (Ht2 : iw_tabs (set_iw_tabs (ts ++ [f0 it]) iw) = ts ++ [f0 it]) by reflexivity.
  unfold top_tab. rewrite (top_window_app _ _ _ Hw2), Ht2, g_list_last_app.
  cbn [f0 it_fd_array it_fd_list set_it_fds or_empty].
  destruct (existsb (fun e => pf_fd e =? v) (or_empty (it_fd_array it))) eqn:Hex;
    [discriminate|].
  unfold g_unix_fd_list_append.
  destruct ((0 <=? v) && fd_can_dup E v); [|discriminate].
  intros H. injection H as <-.
  split; [exact Hy|]. exists v. split; [reflexivity|].
  exists fresh, (List.concat (map iw_tabs l) ++ ts), it.
  eexists. split; [exact Hf|].
  split; [rewrite Ha; now destruct (all_tabs_with_top_tab f0 o1 l iw ts it Hw Ht)|].
  split.
  - match goal with |- all_tabs (with_top_tab ?g _) = _ =>
      destruct (all_tabs_with_top_tab g _ l _ ts (f0 it) Hw2 Ht2) as [_ H2]; exact H2
    end.
  - unfold fd_appended. cbn. repeat split.
    + now apply existsb_fd_false.
    + exact Hstd.
Qed.

End EventSteps.

Section AllEvents.

Variable E : Env.

Ltac grow_same :=
  split; [try reflexivity; try apply terminal_fprintf_same
         |left; apply tabs_grow_same; try reflexivity; try apply terminal_fprintf_same].

Ltac store_kept H o :=
  apply (ensure_then_store _ o o _ tab_kept) in H;
  [ destruct H as [?Ha ?Hm]; split; [exact Ha|right; exact Hm]
  | reflexivity
  | intros ?it; apply tab_kept_setters ].

(** What each option does to [any_wait] and to the tabs when its
    callback returns [TRUE]. *)
Lemma digest_event_tabs (ev : event) (o o' : TerminalOptions) :
  digest_event E ev o = Done o' -> tabs_step ev o o'.
Proof.
  destruct ev; cbn [digest_event tabs_step]; intros H.
  - discriminate.
  - (* app-id *)
    unfold option_app_id_callback in H.
    destruct (negb (g_application_id_is_valid E value)); [discriminate|].
    injection H as <-. grow_same.
  - discriminate.
  - unfold unsupported_option_callback in H. injection H as <-.
    unfold terminal_printerr. grow_same.
  - (* load-config *)
    unfold option_load_config_cb in H.
    destruct (g_key_file_load_from_file E value) as [kf|]; [|discriminate].
    apply merge_config_step in H. destruct H as [H1 H2]. split; [exact H1|now left].
  - unfold option_verbosity_cb in H.
    destruct ((option_name =? "--quiet")%string || (option_name =? "-q")%string);
      injection H as <-; grow_same.
  - (* window *)
    unfold option_window_callback in H.
    destruct value as [v|].
    + destruct (terminal_profiles_list_dup_uuid_or_name E (Some v)).
      * injection H as <-.
        destruct (add_new_window_step o o (Some s) false eq_refl eq_refl) as [H1 H2].
        split; [exact H1|now left].
      * destruct (terminal_profiles_list_dup_uuid_or_name E None); [|discriminate].
        injection H as <-.
        destruct (terminal_fprintf_same fp_stderr (TERMINAL_VERBOSITY_NORMAL E)
                    (MsgProfileNotFound v) o) as (Hw & Ha & _).
        destruct (add_new_window_step _ o (Some s) false Hw Ha) as [H1 H2].
        split; [exact H1|now left].
    + injection H as <-.
      destruct (add_new_window_step o o None false eq_refl eq_refl) as [H1 H2].
      split; [exact H1|now left].
  - (* tab *)
    unfold option_tab_callback in H.
    destruct value as [v|].
    + destruct (terminal_profiles_list_dup_uuid_or_name E (Some v)); [|discriminate].
      injection H as <-. destruct (add_tab_step (Some s) o). split; [assumption|now left].
    + injection H as <-. destruct (add_tab_step None o). split; [assumption|now left].
  - (* show-menubar *)
    unfold option_show_menubar_callback in H.
    destruct (is_nil (initial_windows o)); cbn [negb] in H.
    + injection H as <-. grow_same.
    + destruct (top_window o) as [iw|]; [|discriminate].
      destruct (iw_force_menubar_state iw && Bool.eqb (iw_menubar_state iw) true);
        injection H as <-.
      * unfold terminal_printerr_detail. grow_same.
      * split; [reflexivity|left]. now apply tabs_grow_with_top_window.
  - (* hide-menubar *)
    unfold option_hide_menubar_callback in H.
    destruct (is_nil (initial_windows o)); cbn [negb] in H.
    + injection H as <-. grow_same.
    + destruct (top_window o) as [iw|]; [|discriminate].
      destruct (iw_force_menubar_state iw && Bool.eqb (iw_menubar_state iw) false);
        injection H as <-.
      * unfold terminal_printerr_detail. grow_same.
      * split; [reflexivity|left]. now apply tabs_grow_with_top_window.
  - unfold option_maximize_callback in H.
    destruct (is_nil (initial_windows o)); cbn [negb] in H; injection H as <-.
    + grow_same.
    + split; [reflexivity|left]. now apply tabs_grow_with_top_window.
  - unfold option_fullscreen_callback in H.
    destruct (is_nil (initial_windows o)); cbn [negb] in H; injection H as <-.
    + grow_same.
    + split; [reflexivity|left]. now apply tabs_grow_with_top_window.
  - unfold option_geometry_callback in H.
    destruct (is_nil (initial_windows o)); cbn [negb] in H; injection H as <-.
    + grow_same.
    + split; [reflexivity|left]. now apply tabs_grow_with_top_window.
  - (* role *)
    unfold option_role_callback in H.
    destruct (is_nil (initial_windows o)); cbn [negb] in H.
    + destruct (is_null (default_role o)); [|discriminate]. injection H as <-. grow_same.
    + injection H as <-. split; [reflexivity|left]. now apply tabs_grow_with_top_window.
  - (* active *)
    unfold option_active_callback in H. store_kept H o.
  - (* command *)
    unfold option_command_callback in H.
    destruct (g_shell_parse_argv E value) as [argv|]; [|discriminate].
    assert (Hsame : initial_windows (deprecated_command_option_warning E option_name o)
                      = initial_windows o /\
                    any_wait (deprecated_command_option_warning E option_name o)
                      = any_wait o).
    { unfold deprecated_command_option_warning, deprecated_option_warning,
        terminal_printerr.
      split.
      - etransitivity; [apply terminal_fprintf_same|apply terminal_fprintf_same].
      - etransitivity; [apply terminal_fprintf_same|apply terminal_fprintf_same]. }
    destruct Hsame as [Hw Ha].
    destruct (is_nil (initial_windows (deprecated_command_option_warning E option_name o)));
      cbn [negb] in H.
    + injection H as <-. split; [exact Ha|left]. apply tabs_grow_same. exact Hw.
    + apply (ensure_then_store _ _ o _ tab_kept Hw) in H.
      * destruct H as [H1 H2]. split; [congruence|now right].
      * intros it. apply tab_kept_setters.
  - (* profile *)
    unfold option_profile_cb in H.
    destruct (terminal_profiles_list_dup_uuid_or_name E (Some value)).
    + exact (store_profile_step s o o o' eq_refl eq_refl H).
    + destruct (terminal_profiles_list_dup_uuid_or_name E None); [|discriminate].
      destruct (terminal_fprintf_same fp_stderr (TERMINAL_VERBOSITY_NORMAL E)
                  (MsgProfileNotFound value) o) as (Hw & Ha & _).
      exact (store_profile_step s _ o o' Hw Ha H).
  - unfold option_profile_id_cb in H.
    destruct (terminal_profiles_list_dup_uuid E value); [|discriminate].
    exact (store_profile_step s o o o' eq_refl eq_refl H).
  - unfold option_title_callback in H.
    destruct (is_nil (initial_windows o)); cbn [negb] in H.
    + injection H as <-. grow_same.
    + store_kept H o.
  - unfold option_working_directory_callback in H.
    destruct (is_nil (initial_windows o)); cbn [negb] in H.
    + injection H as <-. grow_same.
    + store_kept H o.
  - (* wait *)
    unfold option_wait_cb in H.
    destruct (any_wait o) eqn:Haw; [discriminate|].
    apply (ensure_then_store _ _ o _ wait_set) in H.
    + destruct H as [H1 H2]. repeat split; assumption.
    + reflexivity.
    + intros it. repeat split.
  - (* fd *)
    exact (option_pass_fd_cb_step E value o o' H).
  - (* zoom *)
    unfold option_zoom_callback in H.
    destruct (g_strtod E value) as [z|]; [|discriminate].
    destruct (PrimFloat.ltb z (TERMINAL_SCALE_MINIMUM E + double_1e_6));
      cbv beta iota zeta in H;
      match type of H with context [if PrimFloat.ltb ?a ?b then _ else _] =>
        destruct (PrimFloat.ltb a b) end;
      cbv beta iota zeta in H;
      match type of H with
      | (if negb (is_nil (initial_windows ?o0)) then _ else _) = _ =>
          assert (Hsame : initial_windows o0 = initial_windows o /\
                          any_wait o0 = any_wait o)
            by (unfold terminal_printerr; split;
                repeat first [reflexivity
                             |etransitivity; [apply terminal_fprintf_same|]]);
          destruct Hsame as [Hw Ha];
          destruct (is_nil (initial_windows o0)); cbn [negb] in H;
          [ injection H as <-; split; [exact Ha|left]; apply tabs_grow_same; exact Hw
          | apply (ensure_then_store _ _ o _ tab_kept Hw) in H;
            [ destruct H as [H1 H2]; split; [congruence|now right]
            | intros it; apply tab_kept_setters ] ]
      end.
Qed.

End AllEvents.

(** ** Invariants of the tabs *)

Section TabInvariants.

Variable E : Env.

Lemma fresh_tab_fd_passes_ok (it : InitialTab) : fresh_tab it -> fd_passes_ok it.
Proof.
  intros (_ & Hl & Ha). unfold fd_passes_ok, target_fds. rewrite Hl, Ha. simpl.
  repeat split; constructor.
Qed.

Lemma tab_kept_fd_passes_ok (it it' : InitialTab) :
  it_fd_list it' = it_fd_list it -> it_fd_array it' = it_fd_array it ->
  fd_passes_ok it -> fd_passes_ok it'.
Proof.
  intros Hl Ha. unfold fd_passes_ok, target_fds. now rewrite Hl, Ha.
Qed.

Lemma fd_appended_fd_passes_ok (fd : Z) (it it' : InitialTab) :
  fd_appended fd it it' -> fd_passes_ok it -> fd_passes_ok it'.
Proof.
  intros (_ & Ha & Hl & Hnin & Hstd) (Hnd & Hall & Hidx & Hlen).
  unfold fd_passes_ok, target_fds in *. rewrite Ha, Hl. cbn [or_empty].
  rewrite !map_app, !length_app. cbn [map List.length].
  repeat split.
  - apply NoDup_app; [exact Hnd|repeat constructor; simpl; tauto|].
    intros x Hx [Hx'|[]]. subst x. contradiction.
  - apply Forall_app. split; [exact Hall|repeat constructor; exact Hstd].
  - rewrite Nat.add_1_r, seq_S, map_app. cbn [map pf_index Nat.add].
    now rewrite Hidx, Hlen.
  - now rewrite Hlen.
Qed.

Lemma Forall_last_changed (P : InitialTab -> Prop) (l fresh ts : list InitialTab)
    (it it' : InitialTab) :
  Forall P l -> Forall P fresh -> l ++ fresh = ts ++ [it] ->
  (P it -> P it') -> Forall P (ts ++ [it']).
Proof.
  intros Hl Hf Heq Hp.
  assert (H : Forall P (ts ++ [it])) by (rewrite <- Heq; apply Forall_app; now split).
  apply Forall_app in H. destruct H as [H1 H2]. inversion H2; subst.
  apply Forall_app. split; [exact H1|]. constructor; [auto|constructor].
Qed.

Lemma tabs_step_fd_passes_ok (ev : event) (o o' : TerminalOptions) :
  tabs_step ev o o' ->
  Forall fd_passes_ok (all_tabs o) -> Forall fd_passes_ok (all_tabs o').
Proof.
  intros Hstep Hinv.
  assert (Hfresh : forall fresh, Forall fresh_tab fresh -> Forall fd_passes_ok fresh).
  { intros fresh Hf. eapply Forall_impl; [|exact Hf]. apply fresh_tab_fd_passes_ok. }
  assert (Hgrow : tabs_grow o o' -> Forall fd_passes_ok (all_tabs o')).
  { intros (fresh & Hf & ->). apply Forall_app. split; [exact Hinv|now apply Hfresh]. }
  assert (Hkept : tabs_modify tab_kept o o' -> Forall fd_passes_ok (all_tabs o')).
  { intros (fresh & ts & it & it' & Hf & Heq & -> & (_ & Hl & Ha)).
    apply (Forall_last_changed _ _ fresh ts it it' Hinv (Hfresh _ Hf) Heq).
    now apply tab_kept_fd_passes_ok. }
  destruct ev; cbn [tabs_step] in Hstep;
    try (destruct Hstep as [_ [Hg|Hm]]; [now apply Hgrow|now apply Hkept]).
  - destruct Hstep as (_ & _ & (fresh & ts & it & it' & Hf & Heq & -> & (_ & Hl & Ha))).
    apply (Forall_last_changed _ _ fresh ts it it' Hinv (Hfresh _ Hf) Heq).
    now apply tab_kept_fd_passes_ok.
  - destruct Hstep as (_ & fd & _ & (fresh & ts & it & it' & Hf & Heq & -> & Happ)).
    apply (Forall_last_changed _ _ fresh ts it it' Hinv (Hfresh _ Hf) Heq).
    now apply fd_appended_fd_passes_ok with fd.
Qed.

Lemma count_wait_app (l1 l2 : list InitialTab) :
  List.length (filter wait_stored (l1 ++ l2))
  = (List.length (filter wait_stored l1) + List.length (filter wait_stored l2))%nat.
Proof. now rewrite filter_app, length_app. Qed.

Lemma count_wait_fresh (fresh : list InitialTab) :
  Forall fresh_tab fresh -> List.length (filter wait_stored fresh) = 0%nat.
Proof.
  induction 1 as [|it l (Hw & _) _ IH]; [reflexivity|].
  simpl. unfold wait_stored at 1. now rewrite Hw.
Qed.

Lemma tabs_step_wait_accounted (ev : event) (o o' : TerminalOptions) :
  tabs_step ev o o' -> wait_accounted o -> wait_accounted o'.
Proof.
  intros Hstep [Hz Hle]. unfold wait_accounted, count_wait in *.
  assert (Hgrow : any_wait o' = any_wait o -> tabs_grow o o' ->
                  (any_wait o' = false -> List.length (filter wait_stored (all_tabs o')) = 0%nat) /\
                  (List.length (filter wait_stored (all_tabs o')) <= 1)%nat).
  { intros Ha (fresh & Hf & ->). rewrite count_wait_app, (count_wait_fresh _ Hf), Ha.
    rewrite Nat.add_0_r. now split. }
  assert (Hsame : forall change, any_wait o' = any_wait o ->
                  (forall it it', change it it' -> it_wait it' = it_wait it) ->
                  tabs_modify change o o' ->
                  (any_wait o' = false -> List.length (filter wait_stored (all_tabs o')) = 0%nat) /\
                  (List.length (filter wait_stored (all_tabs o')) <= 1)%nat).
  { intros change Ha Hc (fresh & ts & it & it' & Hf & Heq & -> & Hch).
    assert (Hcnt : List.length (filter wait_stored (ts ++ [it']))
                   = List.length (filter wait_stored (all_tabs o))).
    { transitivity (List.length (filter wait_stored (ts ++ [it]))).
      - rewrite !count_wait_app. f_equal. simpl. unfold wait_stored.
        rewrite (Hc _ _ Hch). now destruct (it_wait it) as [[|]|].
      - rewrite <- Heq, count_wait_app, (count_wait_fresh _ Hf). apply Nat.add_0_r. }
    rewrite Hcnt, Ha. now split. }
  destruct ev; cbn [tabs_step] in Hstep;
    try (destruct Hstep as [Ha [Hg|Hm]];
         [now apply Hgrow|apply (Hsame tab_kept Ha); [now intros ? ? (? & _)|exact Hm]]).
  - destruct Hstep as (Ha & Ha' & (fresh & ts & it & it' & Hf & Heq & -> & (Hw & _))).
    rewrite Ha'. split; [discriminate|].
    assert (H0 : List.length (filter wait_stored (ts ++ [it])) = 0%nat).
    { rewrite <- Heq, count_wait_app, (count_wait_fresh _ Hf), (Hz Ha). reflexivity. }
    rewrite count_wait_app in *. simpl. unfold wait_stored at 2. rewrite Hw. simpl.
    lia.
  - destruct Hstep as (Ha & fd & _ & Hm).
    apply (Hsame (fd_appended fd) Ha); [now intros ? ? (? & _)|exact Hm].
Qed.

End TabInvariants.

(** ** Forwarded descriptors *)

Section PassFd.

Variable E : Env.

Lemma g_list_last_Some (A : Type) (l : list A) (x : A) :
  g_list_last l = Some x -> exists l0, l = l0 ++ [x].
Proof.
  intros H. destruct l as [|y l]; [discriminate|].
  destruct (list_last_split A (y :: l)) as (l0 & z & Hl); [discriminate|].
  rewrite Hl in *. rewrite g_list_last_app in H. injection H as ->. now exists l0.
Qed.

Lemma top_tab_shape (o : TerminalOptions) (it : InitialTab) :
  top_tab o = Some it ->
  exists l iw ts, initial_windows o = l ++ [iw] /\ iw_tabs iw = ts ++ [it].
Proof.
  unfold top_tab, top_window. intros H.
  destruct (g_list_last (initial_windows o)) as [iw|] eqn:Hw; [|discriminate].
  destruct (g_list_last_Some _ _ _ Hw) as (l & Hl).
  destruct (g_list_last_Some _ _ _ H) as (ts & Hts).
  now exists l, iw, ts.
Qed.

Lemma existsb_fd_true (fd : Z) (arr : list PassFdElement) :
  In fd (map pf_fd arr) -> existsb (fun e => pf_fd e =? fd) arr = true.
Proof.
  induction arr as [|e arr IH]; simpl; [tauto|].
  intros [Heq|Hin]; apply orb_true_iff.
  - left. rewrite Heq. apply Z.eqb_refl.
  - right. now apply IH.
Qed.

Lemma option_pass_fd_cb_stdio (value : string) (o : TerminalOptions) (fd : Z) :
  parse_fd value = Some fd -> is_stdio fd = true ->
  option_pass_fd_cb E value o = Failed (ErrFdStdio (stdio_name fd)) o.
Proof.
  unfold option_pass_fd_cb, parse_fd, is_stdio, stdio_name.
  set (v := sl_value (g_ascii_strtoll value)).
  destruct (sl_errno (g_ascii_strtoll value) || sl_end_is_value (g_ascii_strtoll value)
            || (v =? -1) || (v <? G_MININT) || (v >? G_MAXINT)); [discriminate|].
  intros Hp Hstd. injection Hp as <-. now rewrite Hstd.
Qed.

Lemma existsb_fd_not_in (fd : Z) (arr : list PassFdElement) :
  ~ In fd (map pf_fd arr) -> existsb (fun e => pf_fd e =? fd) arr = false.
Proof.
  induction arr as [|e arr IH]; simpl; [reflexivity|].
  intros H. apply orb_false_iff. split.
  - apply Z.eqb_neq. tauto.
  - apply IH. tauto.
Qed.

(** [option_pass_fd_cb] once the value is read and the tab is there. *)
Lemma option_pass_fd_cb_after_ensure (value : string) (o o1 : TerminalOptions)
    (l : list InitialWindow) (iw : InitialWindow) (ts : list InitialTab)
    (it : InitialTab) (fd : Z) :
  parse_fd value = Some fd -> is_stdio fd = false ->
  ensure_top_tab o = Done o1 ->
  initial_windows o1 = l ++ [iw] -> iw_tabs iw = ts ++ [it] ->
  option_pass_fd_cb E value o =
    let o2 := with_top_tab with_fd_containers o1 in
    if existsb (fun e => pf_fd e =? fd) (or_empty (it_fd_array it))
    then Failed (ErrFdTwice fd) o2
    else if (0 <=? fd) && fd_can_dup E fd
         then Done (with_top_tab
                      (set_it_fds
                         (Some (or_empty (it_fd_list it) ++ [fd]))
                         (Some (or_empty (it_fd_array it)
                                ++ [Build_PassFdElement
                                      (Z.of_nat (List.length (or_empty (it_fd_list it)))) fd])))
                      o2)
         else Failed (ErrFdAppend fd) o2.
Proof.
  unfold option_pass_fd_cb, parse_fd, is_stdio.
  set (v := sl_value (g_ascii_strtoll value)).
  destruct (sl_errno (g_ascii_strtoll value) || sl_end_is_value (g_ascii_strtoll value)
            || (v =? -1) || (v <? G_MININT) || (v >? G_MAXINT)); [discriminate|].
  intros Hp Hstd Het Hw Ht. injection Hp as <-. rewrite Hstd, Het. cbn [and_then].
  fold with_fd_containers.
  pose proof (with_top_tab_app with_fd_containers o1 l iw ts it Hw Ht) as Hw2.
  assert (Ht2 : iw_tabs (set_iw_tabs (ts ++ [with_fd_containers it]) iw)
                = ts ++ [with_fd_containers it]) by reflexivity.
  unfold top_tab. rewrite (top_window_app _ _ _ Hw2), Ht2, g_list_last_app.
  cbn [with_fd_containers it_fd_array it_fd_list set_it_fds or_empty].
  cbv zeta. unfold g_unix_fd_list_append.
  destruct (existsb (fun e => pf_fd e =? v) (or_empty (it_fd_array it))); [reflexivity|].
  now destruct ((0 <=? v) && fd_can_dup E v).
Qed.

(** The tab an [--fd] writes to, from the options it starts from. *)
Lemma ensure_top_tab_current (o : TerminalOptions) :
  top_has_tab o ->
  exists o1 l iw ts it,
    ensure_top_tab o = Done o1 /\
    initial_windows o1 = l ++ [iw] /\ iw_tabs iw = ts ++ [it] /\
    target_fds it = current_target_fds o.
Proof.
  intros [Hnil|Htop].
  - destruct (add_new_window_windows o None true) as (iw & Hiw & Ht & _).
    exists (add_new_window o None true), (initial_windows o), iw, [], (initial_tab_new None).
    split; [now apply ensure_top_tab_empty|]. split; [exact Hiw|]. split; [exact Ht|].
    unfold current_target_fds, top_tab, top_window. now rewrite Hnil.
  - destruct (top_tab o) as [it|] eqn:Htt; [|now elim Htop].
    destruct (top_tab_shape o it Htt) as (l & iw & ts & Hw & Ht).
    exists o, l, iw, ts, it. split; [now apply (ensure_top_tab_some o l iw ts it)|].
    split; [exact Hw|]. split; [exact Ht|].
    unfold current_target_fds. now rewrite Htt.
Qed.

Lemma digest_options_callback_step (o o' : TerminalOptions) :
  digest_options_callback o = Done o' ->
  any_wait o' = any_wait o /\ (tabs_grow o o' \/ tabs_modify tab_kept o o').
Proof.
  unfold digest_options_callback. destruct (execute o).
  - destruct (exec_argv o) as [argv|]; [|discriminate].
    destruct (ensure_top_tab o) as [o1| | |] eqn:Het; try discriminate.
    cbn [and_then]. intros H. injection H as <-.
    destruct (ensure_top_tab_done o o1 Het)
      as (fresh & ts & it & H1 & H2 & _ & H4 & _ & H5 & _).
    split; [exact H5|]. right.
    exists fresh, ts, it, (set_it_exec_argv (Some argv) it).
    split; [exact H1|]. split; [exact H2|]. split; [apply H4|]. repeat split.
  - intros H. injection H as <-. split; [reflexivity|]. left. now apply tabs_grow_same.
Qed.

Lemma digest_events_invariant (P : TerminalOptions -> Prop) :
  (forall ev o o', tabs_step ev o o' -> P o -> P o') ->
  forall evs o o', digest_events E evs o = Done o' -> P o -> P o'.
Proof.
  intros Hstep. induction evs as [|ev evs IH]; intros o o' H Hp; simpl in H.
  - now injection H as <-.
  - destruct (digest_event E ev o) as [o1| | |] eqn:Hev; try discriminate.
    simpl in H. apply (IH o1 o' H). apply (Hstep ev o o1); [|exact Hp].
    now apply digest_event_tabs with E.
Qed.

Lemma parse_invariant_fd (evs : list event) (o o' : TerminalOptions) :
  Forall fd_passes_ok (all_tabs o) ->
  g_option_context_parse E evs o = Done o' ->
  Forall fd_passes_ok (all_tabs o').
Proof.
  unfold g_option_context_parse. intros Hinv H.
  destruct (digest_events E evs o) as [o1| | |] eqn:Hev; try discriminate.
  simpl in H.
  assert (H1 : Forall fd_passes_ok (all_tabs o1)).
  { apply (digest_events_invariant (fun o => Forall fd_passes_ok (all_tabs o))
             tabs_step_fd_passes_ok evs o o1 Hev Hinv). }
  destruct (digest_options_callback_step o1 o' H) as [Ha Hs].
  apply (tabs_step_fd_passes_ok EvActive o1 o'); [|exact H1]. now split.
Qed.

Lemma is_stdio_false (fd : Z) : is_stdio fd = false -> fd <> 0 /\ fd <> 1 /\ fd <> 2.
Proof.
  unfold is_stdio, STDIN_FILENO, STDOUT_FILENO, STDERR_FILENO. intros H.
  apply orb_false_iff in H. destruct H as [H H2].
  apply orb_false_iff in H. destruct H as [H0 H1].
  apply Z.eqb_neq in H0, H1, H2. tauto.
Qed.

(** The tests of [option_pass_fd_cb], in the order of the code. An
    [--fd] fails when [g_ascii_strtoll] converts nothing or the number it
    returns is [-1] or outside [int] (a parse error), when the number is
    0, 1 or 2 (an error naming the stream), when the tab already forwards
    the descriptor, and when the descriptor list does not take the
    descriptor (it is negative or cannot be duplicated). Otherwise the
    pair is appended to the current tab with the length of the list as its
    index. Whatever options are digested, in every tab the forwarded
    descriptors stay pairwise distinct and different from 0, 1 and 2. *)
Theorem option_pass_fd_cb_checks (value : string) (o : TerminalOptions) :
  (parse_fd value = None ->
   option_pass_fd_cb E value o = Failed (ErrFdParse value) o) /\
  (forall fd, parse_fd value = Some fd -> is_stdio fd = true ->
     option_pass_fd_cb E value o = Failed (ErrFdStdio (stdio_name fd)) o) /\
  (forall fd, parse_fd value = Some fd -> is_stdio fd = false ->
     In fd (current_target_fds o) ->
     exists o1, option_pass_fd_cb E value o = Failed (ErrFdTwice fd) o1) /\
  (forall fd, parse_fd value = Some fd -> is_stdio fd = false ->
     ~ In fd (current_target_fds o) -> top_has_tab o ->
     (0 <=? fd) && fd_can_dup E fd = false ->
     exists o1, option_pass_fd_cb E value o = Failed (ErrFdAppend fd) o1) /\
  (forall fd, parse_fd value = Some fd -> is_stdio fd = false ->
     ~ In fd (current_target_fds o) -> top_has_tab o ->
     (0 <=? fd) && fd_can_dup E fd = true ->
     exists o', option_pass_fd_cb E value o = Done o' /\
                tabs_modify (fd_appended fd) o o') /\
  (forall evs o',
     Forall fd_passes_ok (all_tabs o) ->
     g_option_context_parse E evs o = Done o' ->
     forall it, In it (all_tabs o') ->
       NoDup (target_fds it) /\
       forall fd, In fd (target_fds it) -> fd <> 0 /\ fd <> 1 /\ fd <> 2).
Proof.
  split; [|split; [|split; [|split; [|split]]]].
  - unfold option_pass_fd_cb, parse_fd.
    set (v := sl_value (g_ascii_strtoll value)).
    destruct (sl_errno (g_ascii_strtoll value) || sl_end_is_value (g_ascii_strtoll value)
              || (v =? -1) || (v <? G_MININT) || (v >? G_MAXINT));
      [reflexivity|discriminate].
  - intros fd Hp Hstd. now apply option_pass_fd_cb_stdio.
  - intros fd Hp Hstd Hin.
    assert (Htop : top_has_tab o).
    { right. unfold current_target_fds in Hin. now destruct (top_tab o). }
    destruct (ensure_top_tab_current o Htop) as (o1 & l & iw & ts & it & He & Hw & Ht & Hc).
    rewrite (option_pass_fd_cb_after_ensure value o o1 l iw ts it fd Hp Hstd He Hw Ht).
    cbv zeta. rewrite <- Hc in Hin. unfold target_fds in Hin.
    rewrite (existsb_fd_true fd _ Hin). eexists. reflexivity.
  - intros fd Hp Hstd Hnin Htop Hdup.
    destruct (ensure_top_tab_current o Htop) as (o1 & l & iw & ts & it & He & Hw & Ht & Hc).
    rewrite (option_pass_fd_cb_after_ensure value o o1 l iw ts it fd Hp Hstd He Hw Ht).
    cbv zeta. rewrite Hdup. rewrite <- Hc in Hnin. unfold target_fds in Hnin.
    rewrite (existsb_fd_not_in fd _ Hnin). eexists. reflexivity.
  - intros fd Hp Hstd Hnin Htop Hdup.
    destruct (option_pass_fd_cb E value o) as [o'| | |] eqn:Hcb.
    + exists o'. split; [reflexivity|].
      destruct (option_pass_fd_cb_step E value o o' Hcb) as (_ & fd' & Hp' & Hm).
      rewrite Hp in Hp'. injection Hp' as <-. exact Hm.
    + exfalso.
      destruct (ensure_top_tab_current o Htop) as (o1 & l & iw & ts & it & He & Hw & Ht & Hc).
      rewrite (option_pass_fd_cb_after_ensure value o o1 l iw ts it fd Hp Hstd He Hw Ht)
        in Hcb.
      cbv zeta in Hcb. rewrite Hdup in Hcb.
      rewrite <- Hc in Hnin. unfold target_fds in Hnin.
      rewrite (existsb_fd_not_in fd _ Hnin) in Hcb. discriminate.
    + exfalso.
      destruct (ensure_top_tab_current o Htop) as (o1 & l & iw & ts & it & He & Hw & Ht & Hc).
      rewrite (option_pass_fd_cb_after_ensure value o o1 l iw ts it fd Hp Hstd He Hw Ht)
        in Hcb.
      cbv zeta in Hcb. rewrite Hdup in Hcb.
      rewrite <- Hc in Hnin. unfold target_fds in Hnin.
      rewrite (existsb_fd_not_in fd _ Hnin) in Hcb. discriminate.
    + exfalso.
      destruct (ensure_top_tab_current o Htop) as (o1 & l & iw & ts & it & He & Hw & Ht & Hc).
      rewrite (option_pass_fd_cb_after_ensure value o o1 l iw ts it fd Hp Hstd He Hw Ht)
        in Hcb.
      cbv zeta in Hcb. rewrite Hdup in Hcb.
      now destruct (existsb (fun e => pf_fd e =? fd) (or_empty (it_fd_array it))).
  - intros evs o' Hinv Hparse it Hin.
    pose proof (parse_invariant_fd evs o o' Hinv Hparse) as Hall.
    rewrite Forall_forall in Hall. destruct (Hall it Hin) as (Hnd & Hstd & _).
    split; [exact Hnd|]. intros fd Hfd. rewrite Forall_forall in Hstd.
    now apply is_stdio_false, Hstd.
Qed.

End PassFd.

(** ** Where the context-sensitive options write *)

Section ContextFlags.

Variable E : Env.

Lemma ensure_then_store_windows (f : InitialTab -> InitialTab) (o0 o' : TerminalOptions)
    (l : list InitialWindow) (iw : InitialWindow) :
  initial_windows o0 = l ++ [iw] ->
  (let! o1 := ensure_top_tab o0 in Done (with_top_tab f o1)) = Done o' ->
  exists ts it,
    iw_tabs iw = ts ++ [it] /\
    initial_windows o' = l ++ [set_iw_tabs (ts ++ [f it]) iw].
Proof.
  intros Hw H. destruct (iw_tabs iw) as [|t ts0] eqn:Ht.
  - rewrite (ensure_top_tab_no_tabs o0 l iw Hw Ht) in H. discriminate.
  - destruct (list_last_split _ (t :: ts0)) as (ts & it & Hts); [discriminate|].
    rewrite Hts in Ht.
    rewrite (ensure_top_tab_some o0 l iw ts it Hw Ht) in H. cbn [and_then] in H.
    injection H as <-. exists ts, it. rewrite Hts. split; [reflexivity|].
    now apply with_top_tab_app.
Qed.

Lemma ensure_then_store_empty (f : InitialTab -> InitialTab) (o0 o' : TerminalOptions) :
  initial_windows o0 = [] ->
  (let! o1 := ensure_top_tab o0 in Done (with_top_tab f o1)) = Done o' ->
  exists iw,
    initial_windows o' = [iw] /\ iw_tabs iw = [f (initial_tab_new None)] /\
    iw_implicit_first_window iw = true.
Proof.
  intros Hw H. rewrite (ensure_top_tab_empty o0 Hw) in H. cbn [and_then] in H.
  injection H as <-.
  destruct (add_new_window_windows o0 None true) as (iw & Hiw & Ht & Hi & _).
  rewrite Hw in Hiw, Hi. simpl in Hiw, Hi.
  exists (set_iw_tabs [f (initial_tab_new None)] iw).
  split; [|split; [reflexivity|exact Hi]].
  exact (with_top_tab_app f _ [] iw [] (initial_tab_new None) Hiw Ht).
Qed.

Lemma warning_same_windows (option_name : string) (o : TerminalOptions) :
  initial_windows (deprecated_command_option_warning E option_name o) = initial_windows o /\
  exec_argv (deprecated_command_option_warning E option_name o) = exec_argv o.
Proof.
  unfold deprecated_command_option_warning, deprecated_option_warning, terminal_printerr.
  split; (etransitivity; [apply terminal_fprintf_same|apply terminal_fprintf_same]).
Qed.

(** The options after the clamping of [option_zoom_callback]. *)
Lemma option_zoom_callback_stores (value : string) (z : float) (o o' : TerminalOptions) :
  g_strtod E value = Some z ->
  option_zoom_callback E value o = Done o' ->
  exists o0,
    initial_windows o0 = initial_windows o /\
    (if negb (is_nil (initial_windows o0))
     then let! o1 := ensure_top_tab o0 in
          Done (with_top_tab (set_it_zoom (zoom_clamped E z)) o1)
     else Done (set_zoom (zoom_clamped E z) o0)) = Done o'.
Proof.
  unfold option_zoom_callback, zoom_clamped. intros ->.
  destruct (PrimFloat.ltb z (TERMINAL_SCALE_MINIMUM E + double_1e_6));
    cbv beta iota zeta;
    match goal with |- context [if PrimFloat.ltb ?a ?b then _ else _] =>
      destruct (PrimFloat.ltb a b) end;
    cbv beta iota zeta; intros H;
    match type of H with
    | (if negb (is_nil (initial_windows ?o0)) then _ else _) = _ =>
        exists o0; split; [|exact H];
        unfold terminal_printerr;
        repeat first [reflexivity|etransitivity; [apply terminal_fprintf_same|]]
    end.
Qed.

Lemma set_iw_menubar_same (iw : InitialWindow) (state : bool) :
  iw_force_menubar_state iw && Bool.eqb (iw_menubar_state iw) state = true ->
  set_iw_menubar true state iw = iw.
Proof.
  destruct iw as [? ? f s ? ? ? ? ?]. simpl. intros H.
  apply andb_true_iff in H. destruct H as [-> H]. apply Bool.eqb_prop in H.
  now subst.
Qed.

(** What a window option does when a window exists. *)
Lemma window_flag_on_window (ev : event) (o o' : TerminalOptions)
    (l : list InitialWindow) (iw : InitialWindow) :
  is_window_flag ev = true ->
  initial_windows o = l ++ [iw] ->
  digest_event E ev o = Done o' ->
  initial_windows o' = l ++ [window_store ev iw].
Proof.
  intros Hflag Hw H.
  destruct ev; try discriminate Hflag; cbn [digest_event window_store] in *.
  - unfold option_show_menubar_callback in H.
    rewrite Hw, is_nil_app, (top_window_app _ _ _ Hw) in H. cbn [negb] in H.
    destruct (iw_force_menubar_state iw && Bool.eqb (iw_menubar_state iw) true) eqn:Hc;
      injection H as <-.
    + rewrite (set_iw_menubar_same iw true Hc).
      unfold terminal_printerr_detail. etransitivity; [apply terminal_fprintf_same|exact Hw].
    + now apply with_top_window_app.
  - unfold option_hide_menubar_callback in H.
    rewrite Hw, is_nil_app, (top_window_app _ _ _ Hw) in H. cbn [negb] in H.
    destruct (iw_force_menubar_state iw && Bool.eqb (iw_menubar_state iw) false) eqn:Hc;
      injection H as <-.
    + rewrite (set_iw_menubar_same iw false Hc).
      unfold terminal_printerr_detail. etransitivity; [apply terminal_fprintf_same|exact Hw].
    + now apply with_top_window_app.
  - unfold option_maximize_callback in H. rewrite Hw, is_nil_app in H.
    injection H as <-. now apply with_top_window_app.
  - unfold option_fullscreen_callback in H. rewrite Hw, is_nil_app in H.
    injection H as <-. now apply with_top_window_app.
  - unfold option_geometry_callback in H. rewrite Hw, is_nil_app in H.
    injection H as <-. now apply with_top_window_app.
  - unfold option_role_callback in H. rewrite Hw, is_nil_app in H.
    injection H as <-. now apply with_top_window_app.
Qed.

(** What a window option does when there is no window: the defaults take
    it, and the next window created shows it. *)
Lemma window_flag_on_defaults (ev : event) (o o' : TerminalOptions) :
  is_window_flag ev = true ->
  initial_windows o = [] ->
  digest_event E ev o = Done o' ->
  initial_windows o' = [] /\ default_effect E ev o' /\
  forall profile implicit,
    initial_windows (add_new_window o' profile implicit)
    = map (window_store ev) (initial_windows (add_new_window o profile implicit)).
Proof.
  intros Hflag Hw H.
  destruct ev; try discriminate Hflag; cbn [digest_event window_store default_effect] in *.
  - unfold option_show_menubar_callback in H. rewrite Hw in H. injection H as <-.
    split; [exact Hw|]. split; [now split|]. intros profile implicit.
    unfold add_new_window, apply_defaults. destruct o as [? ? dr ? ? ? mf ? ? ? ? ? ws ? ? ? ? ? ?].
    simpl in Hw. subst ws. now destruct dr, mf.
  - unfold option_hide_menubar_callback in H. rewrite Hw in H. injection H as <-.
    split; [exact Hw|]. split; [now split|]. intros profile implicit.
    unfold add_new_window, apply_defaults. destruct o as [? ? dr ? ? ? mf ? ? ? ? ? ws ? ? ? ? ? ?].
    simpl in Hw. subst ws. now destruct dr, mf.
  - unfold option_maximize_callback in H. rewrite Hw in H. injection H as <-.
    split; [exact Hw|]. split; [reflexivity|]. intros profile implicit.
    unfold add_new_window, apply_defaults. destruct o as [? ? dr ? ? ? mf ? ? ? ? ? ws ? ? ? ? ? ?].
    simpl in Hw. subst ws. destruct dr, mf; simpl; now rewrite ?orb_true_r.
  - unfold option_fullscreen_callback in H. rewrite Hw in H. injection H as <-.
    split; [exact Hw|]. split; [reflexivity|]. intros profile implicit.
    unfold add_new_window, apply_defaults. destruct o as [? ? dr ? ? ? mf ? ? ? ? ? ws ? ? ? ? ? ?].
    simpl in Hw. subst ws. destruct dr, mf; simpl; now rewrite ?orb_true_r.
  - unfold option_geometry_callback in H. rewrite Hw in H. injection H as <-.
    split; [exact Hw|]. split; [reflexivity|]. intros profile implicit.
    unfold add_new_window, apply_defaults. destruct o as [? ? dr ? ? ? mf ? ? ? ? ? ws ? ? ? ? ? ?].
    simpl in Hw. subst ws. now destruct dr, mf.
  - unfold option_role_callback in H. rewrite Hw in H. cbn [is_nil negb] in H.
    destruct (default_role o) as [r|] eqn:Hr; [discriminate|]. injection H as <-.
    split; [exact Hw|]. split; [reflexivity|]. intros profile implicit.
    unfold add_new_window, apply_defaults. destruct o as [? ? dr ? ? ? mf ? ? ? ? ? ws ? ? ? ? ? ?].
    simpl in Hw, Hr. subst ws dr. now destruct mf.
Qed.

End ContextFlags.

Section TabFlags.

Variable E : Env.

Lemma store_profile_on_window (found : option string) (profile : string)
    (o0 o' : TerminalOptions) (l : list InitialWindow) (iw : InitialWindow) :
  found = Some profile ->
  initial_windows o0 = l ++ [iw] ->
  store_profile profile o0 = Done o' ->
  exists ts it it',
    iw_tabs iw = ts ++ [it] /\
    initial_windows o' = l ++ [set_iw_tabs (ts ++ [it']) iw] /\
    exists p, found = Some p /\ it' = set_it_profile (Some p) it.
Proof.
  intros Hfound Hw H. unfold store_profile in H. rewrite Hw, is_nil_app in H. cbn [negb] in H.
  destruct (ensure_then_store_windows _ o0 o' l iw Hw H) as (ts & it & Ht & Hw').
  exists ts, it, (set_it_profile (Some profile) it). repeat split; try assumption.
  now exists profile.
Qed.

Lemma store_profile_on_defaults (found : option string) (profile : string)
    (o0 o' : TerminalOptions) :
  found = Some profile ->
  initial_windows o0 = [] ->
  store_profile profile o0 = Done o' ->
  initial_windows o' = [] /\
  exists p, found = Some p /\ default_profile o' = Some p.
Proof.
  intros Hfound Hw H. unfold store_profile in H. rewrite Hw in H. injection H as <-.
  split; [exact Hw|now exists profile].
Qed.

(** What a tab option does when a window exists: it writes to the last
    tab of the last window. *)
Lemma tab_flag_on_window (ev : event) (o o' : TerminalOptions)
    (l : list InitialWindow) (iw : InitialWindow) :
  is_tab_flag ev = true ->
  initial_windows o = l ++ [iw] ->
  digest_event E ev o = Done o' ->
  exists ts it it',
    iw_tabs iw = ts ++ [it] /\
    initial_windows o' = l ++ [set_iw_tabs (ts ++ [it']) iw] /\
    tab_effect E ev it it'.
Proof.
  intros Hflag Hw H.
  destruct ev; try discriminate Hflag; cbn [digest_event tab_effect] in *.
  - (* active *)
    unfold option_active_callback in H.
    destruct (ensure_then_store_windows _ o o' l iw Hw H) as (ts & it & Ht & Hw').
    now exists ts, it, (set_it_active true it).
  - (* command *)
    unfold option_command_callback in H.
    destruct (g_shell_parse_argv E value) as [argv|] eqn:Hargv; [|discriminate].
    destruct (warning_same_windows E option_name o) as [Hw0 _].
    rewrite Hw0, Hw, is_nil_app in H. cbn [negb] in H.
    rewrite Hw in Hw0.
    destruct (ensure_then_store_windows _ _ o' l iw Hw0 H) as (ts & it & Ht & Hw').
    exists ts, it, (set_it_exec_argv (Some argv) it). repeat split; try assumption.
    now exists argv.
  - (* profile *)
    unfold option_profile_cb in H. unfold profile_or_default.
    destruct (terminal_profiles_list_dup_uuid_or_name E (Some value)) as [s|].
    + exact (store_profile_on_window _ s o o' l iw eq_refl Hw H).
    + destruct (terminal_profiles_list_dup_uuid_or_name E None) as [s|]; [|discriminate].
      refine (store_profile_on_window _ s _ o' l iw eq_refl _ H).
      unfold terminal_printerr. etransitivity; [apply terminal_fprintf_same|exact Hw].
  - unfold option_profile_id_cb in H.
    destruct (terminal_profiles_list_dup_uuid E value) as [s|]; [|discriminate].
    exact (store_profile_on_window _ s o o' l iw eq_refl Hw H).
  - unfold option_title_callback in H. rewrite Hw, is_nil_app in H. cbn [negb] in H.
    destruct (ensure_then_store_windows _ o o' l iw Hw H) as (ts & it & Ht & Hw').
    now exists ts, it, (set_it_title (Some value) it).
  - unfold option_working_directory_callback in H.
    rewrite Hw, is_nil_app in H. cbn [negb] in H.
    destruct (ensure_then_store_windows _ o o' l iw Hw H) as (ts & it & Ht & Hw').
    now exists ts, it, (set_it_working_dir (Some value) it).
  - (* wait *)
    unfold option_wait_cb in H. destruct (any_wait o); [discriminate|].
    assert (Hw0 : initial_windows (set_any_wait true o) = l ++ [iw]) by exact Hw.
    destruct (ensure_then_store_windows _ _ o' l iw Hw0 H) as (ts & it & Ht & Hw').
    now exists ts, it, (set_it_wait true it).
  - (* fd *)
    destruct (option_pass_fd_cb_step E value o o' H) as (_ & fd & Hp & _).
    assert (Hstd : is_stdio fd = false).
    { destruct (is_stdio fd) eqn:Hs; [|reflexivity].
      rewrite (option_pass_fd_cb_stdio E value o fd Hp Hs) in H. discriminate. }
    destruct (iw_tabs iw) as [|t ts0] eqn:Ht.
    { unfold option_pass_fd_cb in H. unfold parse_fd in Hp.
      destruct (sl_errno (g_ascii_strtoll value) || sl_end_is_value (g_ascii_strtoll value)
                || (sl_value (g_ascii_strtoll value) =? -1)
                || (sl_value (g_ascii_strtoll value) <? G_MININT)
                || (sl_value (g_ascii_strtoll value) >? G_MAXINT)); [discriminate|].
      injection Hp as <-. unfold is_stdio in Hstd. cbv zeta in H. rewrite Hstd in H.
      rewrite (ensure_top_tab_no_tabs o l iw Hw Ht) in H. discriminate. }
    destruct (list_last_split _ (t :: ts0)) as (ts & it & Hts); [discriminate|].
    rewrite Hts in Ht. rewrite Hts.
    pose proof (ensure_top_tab_some o l iw ts it Hw Ht) as He.
    rewrite (option_pass_fd_cb_after_ensure E value o o l iw ts it fd Hp Hstd He Hw Ht) in H.
    cbv zeta in H.
    destruct (existsb (fun e => pf_fd e =? fd) (or_empty (it_fd_array it))); [discriminate|].
    destruct ((0 <=? fd) && fd_can_dup E fd); [|discriminate].
    injection H as <-.
    pose proof (with_top_tab_app with_fd_containers o l iw ts it Hw Ht) as Hw2.
    eexists ts, it, _. split; [reflexivity|]. split.
    + rewrite (with_top_tab_app _ _ l _ ts (with_fd_containers it) Hw2 eq_refl).
      reflexivity.
    + exists fd. split; [exact Hp|reflexivity].
  - (* zoom *)
    destruct (g_strtod E value) as [z|] eqn:Hz;
      [|unfold option_zoom_callback in H; rewrite Hz in H; discriminate].
    destruct (option_zoom_callback_stores E value z o o' Hz H) as (o0 & Hw0 & H0).
    rewrite Hw0, Hw, is_nil_app in H0. cbn [negb] in H0. rewrite Hw in Hw0.
    destruct (ensure_then_store_windows _ _ o' l iw Hw0 H0) as (ts & it & Ht & Hw').
    exists ts, it, (set_it_zoom (zoom_clamped E z) it).
    split; [exact Ht|]. split; [exact Hw'|]. exists z. now split.
Qed.

(** What a tab option does when there is no window: three of them open
    the implicit first window and write to its tab, the others leave
    their value in the options and open nothing. *)
Lemma tab_flag_without_window (ev : event) (o o' : TerminalOptions) :
  is_tab_flag ev = true ->
  initial_windows o = [] ->
  digest_event E ev o = Done o' ->
  if always_ensures_tab ev
  then exists iw it,
         initial_windows o' = [iw] /\ iw_tabs iw = [it] /\
         iw_implicit_first_window iw = true /\
         tab_effect E ev (initial_tab_new None) it
  else initial_windows o' = [] /\ default_effect E ev o'.
Proof.
  intros Hflag Hw H.
  destruct ev; try discriminate Hflag;
    cbn [digest_event tab_effect default_effect always_ensures_tab] in *.
  - (* active *)
    unfold option_active_callback in H.
    destruct (ensure_then_store_empty _ o o' Hw H) as (iw & H1 & H2 & H3).
    now exists iw, (set_it_active true (initial_tab_new None)).
  - (* command *)
    unfold option_command_callback in H.
    destruct (g_shell_parse_argv E value) as [argv|] eqn:Hargv; [|discriminate].
    destruct (warning_same_windows E option_name o) as [Hw0 Hx].
    rewrite Hw0, Hw in H. injection H as <-.
    split; [cbn; now rewrite Hw0|]. now exists argv.
  - (* profile *)
    unfold option_profile_cb in H. unfold profile_or_default.
    destruct (terminal_profiles_list_dup_uuid_or_name E (Some value)) as [s|].
    + exact (store_profile_on_defaults _ s o o' eq_refl Hw H).
    + destruct (terminal_profiles_list_dup_uuid_or_name E None) as [s|]; [|discriminate].
      refine (store_profile_on_defaults _ s _ o' eq_refl _ H).
      unfold terminal_printerr. etransitivity; [apply terminal_fprintf_same|exact Hw].
  - unfold option_profile_id_cb in H.
    destruct (terminal_profiles_list_dup_uuid E value) as [s|]; [|discriminate].
    exact (store_profile_on_defaults _ s o o' eq_refl Hw H).
  - unfold option_title_callback in H. rewrite Hw in H. injection H as <-.
    now split.
  - unfold option_working_directory_callback in H. rewrite Hw in H. injection H as <-.
    now split.
  - (* wait *)
    unfold option_wait_cb in H. destruct (any_wait o); [discriminate|].
    assert (Hw0 : initial_windows (set_any_wait true o) = []) by exact Hw.
    destruct (ensure_then_store_empty _ _ o' Hw0 H) as (iw & H1 & H2 & H3).
    now exists iw, (set_it_wait true (initial_tab_new None)).
  - (* fd *)
    destruct (option_pass_fd_cb_step E value o o' H) as (_ & fd & Hp & _).
    assert (Hstd : is_stdio fd = false).
    { destruct (is_stdio fd) eqn:Hs; [|reflexivity].
      rewrite (option_pass_fd_cb_stdio E value o fd Hp Hs) in H. discriminate. }
    destruct (add_new_window_windows o None true) as (iw & Hiw & Ht & Hi & _).
    rewrite Hw in Hiw, Hi. simpl in Hiw, Hi.
    pose proof (ensure_top_tab_empty o Hw) as He.
    rewrite (option_pass_fd_cb_after_ensure E value o _ [] iw [] (initial_tab_new None)
               fd Hp Hstd He Hiw Ht) in H.
    cbv zeta in H. simpl existsb in H. cbv iota in H.
    destruct ((0 <=? fd) && fd_can_dup E fd); [|discriminate].
    injection H as <-.
    pose proof (with_top_tab_app with_fd_containers _ [] iw [] (initial_tab_new None) Hiw Ht)
      as Hw2.
    eexists _, _. split.
    + rewrite (with_top_tab_app _ _ [] _ [] (with_fd_containers (initial_tab_new None))
                 Hw2 eq_refl).
      reflexivity.
    + split; [reflexivity|]. split; [exact Hi|].
      exists fd. split; [exact Hp|reflexivity].
  - (* zoom *)
    destruct (g_strtod E value) as [z|] eqn:Hz;
      [|unfold option_zoom_callback in H; rewrite Hz in H; discriminate].
    destruct (option_zoom_callback_stores E value z o o' Hz H) as (o0 & Hw0 & H0).
    rewrite Hw0, Hw in H0. cbn [is_nil negb] in H0. injection H0 as <-.
    split; [cbn; now rewrite Hw0|]. exists z. now repeat split.
Qed.

End TabFlags.

(** ** Menubar visibility *)

Section Menubar.

Variable E : Env.

(** C3, as the code has it. On a window whose menubar state is forced,
    asking again for the state it has changes nothing in the tree and
    calls the "given twice" message (printed when [verbosity] reaches the
    detail level); asking for the other state stores that state in the
    window and prints nothing. *)
Theorem menubar_second_attempt (o : TerminalOptions) (l : list InitialWindow)
    (iw : InitialWindow) :
  initial_windows o = l ++ [iw] ->
  iw_force_menubar_state iw = true ->
  (iw_menubar_state iw = true ->
   (exists o', option_show_menubar_callback E o = Done o' /\
               initial_windows o' = initial_windows o /\
               stderr o' = if verbosity o <? TERMINAL_VERBOSITY_DETAIL E then stderr o
                           else stderr o ++ [MsgOptionGivenTwice "--show-menubar"]) /\
   (exists o', option_hide_menubar_callback E o = Done o' /\
               initial_windows o' = l ++ [set_iw_menubar true false iw] /\
               stderr o' = stderr o)) /\
  (iw_menubar_state iw = false ->
   (exists o', option_hide_menubar_callback E o = Done o' /\
               initial_windows o' = initial_windows o /\
               stderr o' = if verbosity o <? TERMINAL_VERBOSITY_DETAIL E then stderr o
                           else stderr o ++ [MsgOptionGivenTwice "--hide-menubar"]) /\
   (exists o', option_show_menubar_callback E o = Done o' /\
               initial_windows o' = l ++ [set_iw_menubar true true iw] /\
               stderr o' = stderr o)).
Proof.
  intros Hw Hf.
  unfold option_show_menubar_callback, option_hide_menubar_callback.
  rewrite Hw, is_nil_app, (top_window_app _ _ _ Hw), Hf. cbn [negb andb].
  split; intros Hs; rewrite Hs; cbn [Bool.eqb]; split.
  - eexists. split; [reflexivity|].
    unfold terminal_printerr_detail, terminal_fprintf.
    destruct (verbosity o <? TERMINAL_VERBOSITY_DETAIL E); split; try reflexivity;
      simpl; now rewrite Hw.
  - eexists. split; [reflexivity|]. split; [|reflexivity].
    now apply with_top_window_app.
  - eexists. split; [reflexivity|].
    unfold terminal_printerr_detail, terminal_fprintf.
    destruct (verbosity o <? TERMINAL_VERBOSITY_DETAIL E); split; try reflexivity;
      simpl; now rewrite Hw.
  - eexists. split; [reflexivity|]. split; [|reflexivity].
    now apply with_top_window_app.
Qed.

End Menubar.

(** ** Waiting for the child *)

Section Wait.

Variable E : Env.

Lemma digest_events_app (evs1 evs2 : list event) (o : TerminalOptions) :
  digest_events E (evs1 ++ evs2) o
  = let! o1 := digest_events E evs1 o in digest_events E evs2 o1.
Proof.
  revert o. induction evs1 as [|ev evs1 IH]; intros o; simpl; [reflexivity|].
  destruct (digest_event E ev o); simpl; [apply IH|reflexivity..].
Qed.

Lemma any_wait_stays (evs : list event) (o o' : TerminalOptions) :
  digest_events E evs o = Done o' -> any_wait o = true -> any_wait o' = true.
Proof.
  apply (digest_events_invariant E (fun o => any_wait o = true)).
  intros ev o0 o1 Hstep H0. destruct ev; cbn [tabs_step] in Hstep;
    destruct Hstep as [Ha _]; congruence.
Qed.

(** The guard of [option_wait_cb]: once [any_wait] is set, [--wait]
    fails, whatever the current window and tab. *)
Lemma option_wait_cb_guard (o : TerminalOptions) :
  any_wait o = true -> option_wait_cb o = Failed ErrWaitOnce o.
Proof. unfold option_wait_cb. now intros ->. Qed.

(** X16. No command line with two [--wait] is digested to the end,
    whatever stands before, between and after them. *)
Lemma wait_twice_fails (pre mid post : list event) (o o' : TerminalOptions) :
  digest_events E (pre ++ EvWait :: mid ++ EvWait :: post) o <> Done o'.
Proof.
  rewrite digest_events_app. destruct (digest_events E pre o) as [o1| | |]; try discriminate.
  cbn [and_then digest_events digest_event].
  destruct (option_wait_cb o1) as [o2| | |] eqn:Hw1; try discriminate.
  cbn [and_then]. rewrite digest_events_app.
  destruct (digest_events E mid o2) as [o3| | |] eqn:Hmid; try discriminate.
  cbn [and_then digest_events digest_event].
  assert (H2 : any_wait o2 = true).
  { pose proof (digest_event_tabs E EvWait o1 o2 Hw1) as Hs. cbn in Hs. tauto. }
  rewrite (option_wait_cb_guard o3 (any_wait_stays mid o2 o3 Hmid H2)). discriminate.
Qed.

(** In the tree of a digested command line, [wait] was stored in at most
    one tab, and in none unless [any_wait] is set. *)
Lemma wait_stored_at_most_once (evs : list event) (o o' : TerminalOptions) :
  wait_accounted o ->
  g_option_context_parse E evs o = Done o' ->
  wait_accounted o'.
Proof.
  unfold g_option_context_parse. intros Hinv H.
  destruct (digest_events E evs o) as [o1| | |] eqn:Hev; try discriminate.
  simpl in H.
  assert (H1 : wait_accounted o1).
  { apply (digest_events_invariant E wait_accounted tabs_step_wait_accounted evs o o1 Hev Hinv). }
  destruct (digest_options_callback_step o1 o' H) as [Ha Hs].
  apply (tabs_step_wait_accounted EvActive o1 o'); [|exact H1]. now split.
Qed.

Lemma wait_accounted_init : wait_accounted (terminal_options_init E).
Proof. split; [reflexivity|]. unfold count_wait. simpl. lia. Qed.

End Wait.

(** ** Roles *)

Lemma option_role_callback_on_window (value : string) (o : TerminalOptions)
    (l : list InitialWindow) (iw : InitialWindow) :
  initial_windows o = l ++ [iw] ->
  exists o', option_role_callback value o = Done o' /\
             initial_windows o' = l ++ [set_iw_role (Some value) iw].
Proof.
  intros Hw. unfold option_role_callback. rewrite Hw, is_nil_app. cbn [negb].
  eexists. split; [reflexivity|]. now apply with_top_window_app.
Qed.

Lemma option_role_callback_second_default (value r : string) (o : TerminalOptions) :
  initial_windows o = [] -> default_role o = Some r ->
  option_role_callback value o = Failed ErrTwoRoles o.
Proof. unfold option_role_callback. now intros -> ->. Qed.

(** ** Windows and their tabs *)

Section WindowsHaveTabs.

Variable E : Env.

Lemma window_store_tabs (ev : event) (iw : InitialWindow) :
  iw_tabs (window_store ev iw) = iw_tabs iw.
Proof. now destruct ev. Qed.

Lemma windows_have_tabs_same (o o' : TerminalOptions) :
  initial_windows o' = initial_windows o -> windows_have_tabs o -> windows_have_tabs o'.
Proof. unfold windows_have_tabs. now intros ->. Qed.

Lemma windows_have_tabs_add_new_window (o0 o : TerminalOptions)
    (profile : option string) (implicit : bool) :
  initial_windows o0 = initial_windows o ->
  windows_have_tabs o -> windows_have_tabs (add_new_window o0 profile implicit).
Proof.
  intros Hw H. destruct (add_new_window_windows o0 profile implicit) as (iw & Hiw & Ht & _).
  unfold windows_have_tabs. rewrite Hiw, Hw. apply Forall_app. split; [exact H|].
  constructor; [|constructor]. rewrite Ht. discriminate.
Qed.

Lemma windows_have_tabs_add_tab (profile : option string) (o : TerminalOptions) :
  windows_have_tabs o -> windows_have_tabs (add_tab profile o).
Proof.
  intros H. unfold add_tab. destruct (is_nil (initial_windows o)); cbn [negb].
  - now apply windows_have_tabs_add_new_window with o.
  - apply Forall_map_last; [exact H|]. intros iw _. simpl. now destruct (iw_tabs iw).
Qed.

(** Windows opened by the options start with one tab and keep their
    tabs: every option but [--load-config] leaves every window with a
    tab. *)
Lemma digest_event_windows_have_tabs (ev : event) (o o' : TerminalOptions) :
  is_load_config ev = false ->
  windows_have_tabs o ->
  digest_event E ev o = Done o' ->
  windows_have_tabs o'.
Proof.
  intros Hev Hinv H.
  destruct (is_window_flag ev || is_tab_flag ev) eqn:Hflag.
  - destruct (initial_windows o) as [|w ws] eqn:Hw.
    + unfold windows_have_tabs. destruct (is_window_flag ev) eqn:Hwf.
      * destruct (window_flag_on_defaults E ev o o' Hwf Hw H) as (-> & _). constructor.
      * simpl in Hflag. pose proof (tab_flag_without_window E ev o o' Hflag Hw H) as Hnone.
        destruct (always_ensures_tab ev).
        -- destruct Hnone as (iw & it & -> & Ht & _).
           constructor; [|constructor]. rewrite Ht. discriminate.
        -- destruct Hnone as (-> & _). constructor.
    + destruct (list_last_split _ (w :: ws)) as (l & iw & Hl); [discriminate|].
      rewrite Hl in Hw. unfold windows_have_tabs in *.
      rewrite Hw in Hinv. apply Forall_app in Hinv. destruct Hinv as [H1 H2].
      inversion H2 as [|? ? Hiw _]; subst.
      destruct (is_window_flag ev) eqn:Hwf.
      * rewrite (window_flag_on_window E ev o o' l iw Hwf Hw H).
        apply Forall_app. split; [exact H1|].
        constructor; [|constructor]. now rewrite window_store_tabs.
      * simpl in Hflag.
        destruct (tab_flag_on_window E ev o o' l iw Hflag Hw H)
          as (ts & it & it' & _ & -> & _).
        apply Forall_app. split; [exact H1|].
        constructor; [|constructor]. simpl. now destruct ts.
  - destruct ev; try discriminate Hflag; try discriminate Hev; cbn [digest_event] in H.
    + discriminate.
    + unfold option_app_id_callback in H.
      destruct (negb (g_application_id_is_valid E value)); [discriminate|].
      injection H as <-. exact Hinv.
    + discriminate.
    + unfold unsupported_option_callback in H. injection H as <-.
      apply windows_have_tabs_same with o; [apply terminal_fprintf_same|exact Hinv].
    + unfold option_verbosity_cb in H.
      destruct ((option_name =? "--quiet")%string || (option_name =? "-q")%string);
        injection H as <-; exact Hinv.
    + unfold option_window_callback in H. destruct value as [v|].
      * destruct (terminal_profiles_list_dup_uuid_or_name E (Some v)).
        -- injection H as <-. now apply windows_have_tabs_add_new_window with o.
        -- destruct (terminal_profiles_list_dup_uuid_or_name E None); [|discriminate].
           injection H as <-. apply windows_have_tabs_add_new_window with o; [|exact Hinv].
           apply terminal_fprintf_same.
      * injection H as <-. now apply windows_have_tabs_add_new_window with o.
    + unfold option_tab_callback in H. destruct value as [v|].
      * destruct (terminal_profiles_list_dup_uuid_or_name E (Some v)); [|discriminate].
        injection H as <-. now apply windows_have_tabs_add_tab.
      * injection H as <-. now apply windows_have_tabs_add_tab.
Qed.

(** While every window has a tab, no option runs into the assertion of
    [ensure_top_window]. *)
Lemma digest_event_not_aborted (ev : event) (o : TerminalOptions) :
  windows_have_tabs o -> digest_event E ev o <> Aborted.
Proof.
  intros Hinv.
  assert (Het : forall o0, initial_windows o0 = initial_windows o ->
                  exists o1, ensure_top_tab o0 = Done o1).
  { intros o0 Hw0. destruct (initial_windows o) as [|w ws] eqn:Hw.
    - eexists. now apply ensure_top_tab_empty.
    - destruct (list_last_split _ (w :: ws)) as (l & iw & Hl); [discriminate|].
      unfold windows_have_tabs in Hinv. rewrite Hw, Hl in Hinv.
      apply Forall_app in Hinv. destruct Hinv as [_ H2].
      inversion H2 as [|? ? Hiw _]; subst.
      destruct (list_last_split _ (iw_tabs iw) Hiw) as (ts & it & Ht).
      exists o0. apply (ensure_top_tab_some o0 l iw ts it); [now rewrite Hw0|exact Ht]. }
  assert (Hstore : forall f o0, initial_windows o0 = initial_windows o ->
                     (let! o1 := ensure_top_tab o0 in Done (with_top_tab f o1)) <> Aborted).
  { intros f o0 Hw0. destruct (Het o0 Hw0) as [o1 ->]. discriminate. }
  assert (Hprofile : forall p o0, initial_windows o0 = initial_windows o ->
                       store_profile p o0 <> Aborted).
  { intros p o0 Hw0. unfold store_profile.
    destruct (is_nil (initial_windows o0)); cbn [negb]; [discriminate|now apply Hstore]. }
  destruct ev; cbn [digest_event].
  - discriminate.
  - unfold option_app_id_callback. now destruct (negb _).
  - discriminate.
  - discriminate.
  - unfold option_load_config_cb.
    destruct (g_key_file_load_from_file E value) as [kf|]; [|discriminate].
    apply terminal_options_merge_config_not_aborted.
  - unfold option_verbosity_cb. now destruct (_ || _).
  - unfold option_window_callback. destruct value as [v|]; [|discriminate].
    destruct (terminal_profiles_list_dup_uuid_or_name E (Some v)); [discriminate|].
    now destruct (terminal_profiles_list_dup_uuid_or_name E None).
  - unfold option_tab_callback. destruct value as [v|]; [|discriminate].
    now destruct (terminal_profiles_list_dup_uuid_or_name E (Some v)).
  - unfold option_show_menubar_callback, top_window.
    destruct (initial_windows o) as [|w ws] eqn:Hw; [discriminate|]. cbn [is_nil negb].
    destruct (g_list_last (w :: ws)) as [iw|] eqn:Hl.
    + now destruct (_ && _).
    + apply g_list_last_None in Hl. discriminate.
  - unfold option_hide_menubar_callback, top_window.
    destruct (initial_windows o) as [|w ws] eqn:Hw; [discriminate|]. cbn [is_nil negb].
    destruct (g_list_last (w :: ws)) as [iw|] eqn:Hl.
    + now destruct (_ && _).
    + apply g_list_last_None in Hl. discriminate.
  - unfold option_maximize_callback. now destruct (negb _).
  - unfold option_fullscreen_callback. now destruct (negb _).
  - unfold option_geometry_callback. now destruct (negb _).
  - unfold option_role_callback. destruct (negb _); [discriminate|].
    now destruct (is_null _).
  - unfold option_active_callback. now apply Hstore.
  - unfold option_command_callback.
    destruct (g_shell_parse_argv E value); [|discriminate].
    destruct (negb _); [|discriminate]. apply Hstore.
    apply warning_same_windows.
  - unfold option_profile_cb.
    destruct (terminal_profiles_list_dup_uuid_or_name E (Some value)).
    + now apply Hprofile.
    + destruct (terminal_profiles_list_dup_uuid_or_name E None); [|discriminate].
      apply Hprofile. apply terminal_fprintf_same.
  - unfold option_profile_id_cb.
    destruct (terminal_profiles_list_dup_uuid E value); [|discriminate].
    now apply Hprofile.
  - unfold option_title_callback. destruct (negb _); [|discriminate]. now apply Hstore.
  - unfold option_working_directory_callback.
    destruct (negb _); [|discriminate]. now apply Hstore.
  - unfold option_wait_cb. destruct (any_wait o); [discriminate|]. now apply Hstore.
  - intros Hab. unfold option_pass_fd_cb in Hab.
    destruct (_ || _ || _ || _ || _); [discriminate|].
    destruct (_ || _ || _); [discriminate|].
    destruct (Het o eq_refl) as [o1 He]. rewrite He in Hab. cbn [and_then] in Hab.
    destruct (ensure_top_tab_shape o o1 He) as (l & iw & ts & it & _ & Hw & Ht & _).
    pose proof (with_top_tab_app with_fd_containers o1 l iw ts it Hw Ht) as Hw2.
    fold with_fd_containers in Hab. unfold top_tab in Hab.
    rewrite (top_window_app _ _ _ Hw2) in Hab. cbn [iw_tabs set_iw_tabs] in Hab.
    rewrite g_list_last_app in Hab.
    destruct (existsb _ _); [discriminate|].
    now destruct (g_unix_fd_list_append _ _ _) as [[? ?]|].
  - intros Hab. unfold option_zoom_callback in Hab.
    destruct (g_strtod E value) as [z|]; [|discriminate].
    destruct (PrimFloat.ltb z _); cbv beta iota zeta in Hab;
      match type of Hab with context [if PrimFloat.ltb ?a ?b then _ else _] =>
        destruct (PrimFloat.ltb a b) end;
      cbv beta iota zeta in Hab;
      match type of Hab with
      | (if negb (is_nil (initial_windows ?o0)) then _ else _) = _ =>
          destruct (negb (is_nil (initial_windows o0))); [|discriminate];
          revert Hab; apply Hstore; unfold terminal_printerr;
          repeat first [reflexivity|etransitivity; [apply terminal_fprintf_same|]]
      end.
Qed.

End WindowsHaveTabs.

(** ** Whole runs *)

Section Runs.

Variable E : Env.

Lemma prescan_loop_same (rest : list string) (i argc : nat) (o : TerminalOptions) :
  initial_windows (snd (prescan_loop E i rest argc o)) = initial_windows o /\
  any_wait (snd (prescan_loop E i rest argc o)) = any_wait o.
Proof.
  revert i. induction rest as [|arg rest IH]; intros i; cbn [prescan_loop]; [now split|].
  destruct (negb ((arg =? "-x")%string || (arg =? "--execute")%string)
            && negb (arg =? "--")%string); [apply IH|].
  assert (Hw : forall o0, initial_windows o0 = initial_windows o /\ any_wait o0 = any_wait o ->
                 initial_windows
                   (if (arg =? "-x")%string || (arg =? "--execute")%string
                    then deprecated_command_option_warning E arg o0 else o0)
                 = initial_windows o /\
                 any_wait
                   (if (arg =? "-x")%string || (arg =? "--execute")%string
                    then deprecated_command_option_warning E arg o0 else o0)
                 = any_wait o).
  { intros o0 [H1 H2]. destruct ((arg =? "-x")%string || (arg =? "--execute")%string);
      [|now split].
    unfold deprecated_command_option_warning, deprecated_option_warning, terminal_printerr.
    split; (etransitivity; [apply terminal_fprintf_same|];
            etransitivity; [apply terminal_fprintf_same|assumption]). }
  destruct (Hw o (conj eq_refl eq_refl)) as [H1 H2].
  destruct (is_nil rest); cbn [snd]; now split.
Qed.

(** X17. The tree of every command line that is digested to the end, from
    the options [terminal_options_parse] starts with: in every tab the
    forwarded descriptors are pairwise distinct, none of them is a
    standard stream and their indices count up from 0; and [wait] was
    stored in at most one tab. *)
Lemma digested_command_line (argv : list string) (evs : list event)
    (o' : TerminalOptions) :
  g_option_context_parse E evs (snd (prescan E argv (terminal_options_init E))) = Done o' ->
  Forall fd_passes_ok (all_tabs o') /\ wait_accounted o'.
Proof.
  intros H.
  assert (Hs : initial_windows (snd (prescan E argv (terminal_options_init E))) = [] /\
               any_wait (snd (prescan E argv (terminal_options_init E))) = false).
  { unfold prescan.
    destruct (prescan_loop_same (tl argv) 1 (List.length argv)
                (set_exec_argv None (terminal_options_init E))) as [H1 H2].
    destruct (prescan_loop E 1 (tl argv) (List.length argv)
                (set_exec_argv None (terminal_options_init E))) as [argc o].
    now split. }
  destruct Hs as [Hw Ha]. split.
  - refine (parse_invariant_fd E evs _ o' _ H).
    unfold all_tabs. rewrite Hw. constructor.
  - refine (wait_stored_at_most_once E evs _ o' _ H).
    unfold wait_accounted, count_wait, all_tabs. rewrite Hw. simpl. split; [reflexivity|lia].
Qed.

End Runs.

(** ** The code on sample command lines and documents *)

(** [--role A --role B] with no window before: the second role is
    refused. *)
Example role_twice_before_any_window :
  exists o, digest_events sample_env [EvRole "A"; EvRole "B"] sample_options
            = Failed ErrTwoRoles o.
Proof. eexists. lazy. reflexivity. Qed.

(** [--window --role A --window --role B]: each window has its role. *)
Example role_on_two_windows :
  exists o, digest_events sample_env
              [EvWindow None; EvRole "A"; EvWindow None; EvRole "B"] sample_options
            = Done o /\
            map iw_role (initial_windows o) = [Some "A"; Some "B"].
Proof. eexists. split; lazy; reflexivity. Qed.

(** C4: [--window --role A --role B]. The second [--role] arrives while
    the window has role ["A"], returns [TRUE] and leaves the window with
    role ["B"]. *)
Theorem role_twice_on_a_window_is_accepted :
  exists o1 o2,
    digest_events sample_env [EvWindow None; EvRole "A"] sample_options = Done o1 /\
    map iw_role (initial_windows o1) = [Some "A"] /\
    digest_event sample_env (EvRole "B") o1 = Done o2 /\
    map iw_role (initial_windows o2) = [Some "B"].
Proof. do 2 eexists. repeat split; lazy; reflexivity. Qed.

(** C5: [--wait --tab]. The tab [--wait] wrote to has [wait] set; in the
    tab opened after it nothing was ever stored in [wait]. *)
Theorem wait_is_not_initialised_in_other_tabs :
  (forall profile, it_wait (initial_tab_new profile) = None) /\
  exists o,
    digest_events sample_env [EvWait; EvTab None] sample_options = Done o /\
    map (fun iw => map it_wait (iw_tabs iw)) (initial_windows o) = [[Some true; None]].
Proof. split; [reflexivity|]. eexists. split; lazy; reflexivity. Qed.

(** C7: a document whose window group has an empty tab list. The merge
    succeeds and appends a window without tabs, and the next tab option
    runs into the assertion of [ensure_top_window]. *)
Theorem merge_config_window_without_tabs :
  exists o iw,
    terminal_options_merge_config sample_env sample_options
      (key_file_of empty_tabs_document) (SOURCE_SESSION sample_env) = Done o /\
    initial_windows o = [iw] /\ iw_tabs iw = [] /\
    digest_event sample_env (EvTitle "x") o = Aborted.
Proof. do 2 eexists. repeat split; lazy; reflexivity. Qed.

(** [--tab --tab -x top]: the command goes to the second tab. *)
Example execute_command_goes_to_last_tab :
  exists o,
    g_option_context_parse sample_env [EvTab None; EvTab None]
      (snd (prescan sample_env ["gnome-terminal"; "--tab"; "--tab"; "-x"; "top"]
              sample_options)) = Done o /\
    map (fun iw => map it_exec_argv (iw_tabs iw)) (initial_windows o)
    = [[None; Some ["top"]]].
Proof. eexists. split; lazy; reflexivity. Qed.

(** ** The theorems at sample inputs *)

(** [-x top]: the hook opens the implicit first window and gives the
    command to its tab. *)
Lemma digest_options_callback_attaches_witness :
  execute after_execute = true /\
  exec_argv after_execute = Some ["top"] /\
  initial_windows after_execute = [] /\
  exists o' iw it,
    digest_options_callback after_execute = Done o' /\
    initial_windows o' = [iw] /\ iw_tabs iw = [it] /\
    iw_implicit_first_window iw = true /\
    it_exec_argv it = Some ["top"] /\ exec_argv o' = None.
Proof.
  split; [reflexivity|]. split; [reflexivity|]. split; [reflexivity|].
  apply (proj1 (proj2 (proj2 (digest_options_callback_attaches after_execute))));
    reflexivity.
Defined.

(** [-- foo bar]: a trailing command exists and [execute] is clear; the
    hook attaches the command to no tab, opens no window and leaves the
    command buffered. *)
Lemma digest_options_callback_leaves_dashdash_command :
  execute after_dashdash = false /\
  exec_argv after_dashdash = Some ["foo"; "bar"] /\
  digest_options_callback after_dashdash = Done after_dashdash /\
  ~ (exists o' iw ws it ts,
       digest_options_callback after_dashdash = Done o' /\
       initial_windows o' = iw :: ws /\ iw_tabs iw = it :: ts /\
       it_exec_argv it = Some ["foo"; "bar"] /\ exec_argv o' = None).
Proof.
  split; [reflexivity|]. split; [reflexivity|]. split; [reflexivity|].
  intros (o' & iw & ws & it & ts & H & Hw & _).
  change (digest_options_callback after_dashdash) with (Done after_dashdash) in H.
  injection H as <-. discriminate Hw.
Qed.


(** [--window --hide-menubar --hide-menubar]: the second attempt is
    reported and changes nothing. *)
Lemma menubar_second_attempt_witness :
  exists iw,
    initial_windows hidden_menubar_window = [] ++ [iw] /\
    iw_force_menubar_state iw = true /\
    iw_menubar_state iw = false /\
    exists o',
      option_hide_menubar_callback sample_env hidden_menubar_window = Done o' /\
      initial_windows o' = initial_windows hidden_menubar_window /\
      stderr o' = [MsgOptionGivenTwice "--hide-menubar"].
Proof.
  eexists. split; [reflexivity|]. split; [reflexivity|]. split; [reflexivity|].
  exact (proj1 (proj2 (menubar_second_attempt sample_env hidden_menubar_window []
                         _ eq_refl eq_refl) eq_refl)).
Defined.

(** [--window --hide-menubar --show-menubar], with everything printed:
    the forced state "hidden" is replaced by "shown", and no message is
    printed. *)
Lemma show_menubar_overwrites_hidden_state :
  exists w1 o2 w2,
    initial_windows hidden_menubar_window = [w1] /\
    iw_force_menubar_state w1 = true /\ iw_menubar_state w1 = false /\
    digest_event sample_env EvShowMenubar hidden_menubar_window = Done o2 /\
    initial_windows o2 = [w2] /\
    iw_force_menubar_state w2 = true /\ iw_menubar_state w2 = true /\
    stderr o2 = stderr hidden_menubar_window /\
    ~ In (MsgOptionGivenTwice "--show-menubar") (stderr o2).
Proof.
  do 3 eexists. repeat split; try (lazy; reflexivity).
  lazy. intros [].
Qed.

(** [--fd 5] with descriptor 5 open. *)
Lemma option_pass_fd_cb_checks_witness :
  parse_fd "5" = Some 5 /\
  is_stdio 5 = false /\
  ~ In 5 (current_target_fds sample_options) /\
  top_has_tab sample_options /\
  (0 <=? 5) && fd_can_dup sample_env 5 = true /\
  exists o',
    option_pass_fd_cb sample_env "5" sample_options = Done o' /\
    tabs_modify (fd_appended 5) sample_options o'.
Proof.
  split; [reflexivity|]. split; [reflexivity|].
  split; [intros []|]. split; [left; reflexivity|]. split; [reflexivity|].
  apply (proj1 (proj2 (proj2 (proj2 (proj2
           (option_pass_fd_cb_checks sample_env "5" sample_options))))));
    [reflexivity|reflexivity|intros []|left; reflexivity|reflexivity].
Defined.

(** [--fd -1] and [--fd 9] with descriptor 9 closed: both values are
    base-10 integers within [int], neither is 0, 1 or 2, the tab forwards
    nothing yet, and both are refused. *)
Lemma pass_fd_refused_outside_the_three_checks :
  (sl_value (g_ascii_strtoll "-1") = -1 /\
   sl_end_is_value (g_ascii_strtoll "-1") = false /\
   sl_errno (g_ascii_strtoll "-1") = false /\
   G_MININT <= -1 <= G_MAXINT /\
   is_stdio (-1) = false /\
   current_target_fds sample_options = [] /\
   option_pass_fd_cb sample_env "-1" sample_options
     = Failed (ErrFdParse "-1") sample_options) /\
  (parse_fd "9" = Some 9 /\
   is_stdio 9 = false /\
   current_target_fds sample_options = [] /\
   (exists o1, option_pass_fd_cb sample_env "9" sample_options
               = Failed (ErrFdAppend 9) o1) /\
   ~ (exists o', option_pass_fd_cb sample_env "9" sample_options = Done o')).
Proof.
  split.
  - repeat split; try reflexivity; unfold G_MININT, G_MAXINT; lia.
  - assert (H : exists o1, option_pass_fd_cb sample_env "9" sample_options
                           = Failed (ErrFdAppend 9) o1)
      by (eexists; lazy; reflexivity).
    repeat split; try reflexivity; [exact H|].
    destruct H as [o1 H]. intros [o' H']. congruence.
Qed.

(** [gnome-terminal --tab -x top -u]. *)
Lemma prescan_first_match_witness :
  Forall (fun a => is_switch_arg a = false) ["--tab"] /\
  is_switch_arg "-x" = true /\
  execute (snd (prescan sample_env ["gnome-terminal"; "--tab"; "-x"; "top"; "-u"]
                  sample_options)) = true /\
  fst (prescan sample_env ["gnome-terminal"; "--tab"; "-x"; "top"; "-u"] sample_options)
    = ["gnome-terminal"; "--tab"] /\
  exec_argv (snd (prescan sample_env ["gnome-terminal"; "--tab"; "-x"; "top"; "-u"]
                    sample_options)) = Some ["top"; "-u"].
Proof.
  assert (Hpre : Forall (fun a => is_switch_arg a = false) ["--tab"])
    by (repeat constructor).
  destruct (proj2 (prescan_first_match sample_env sample_options "gnome-terminal"
                     ["--tab"; "-x"; "top"; "-u"])
              ["--tab"] "-x" ["top"; "-u"] eq_refl Hpre eq_refl) as (He & Hcut & _).
  destruct (Hcut ltac:(discriminate)) as [H1 H2].
  exact (conj Hpre (conj eq_refl (conj He (conj H1 H2)))).
Defined.

(** [gnome-terminal --title x --]: the separator is the last token; the
    vector handed to the option parser still ends with it. *)
Lemma prescan_keeps_a_final_separator :
  is_switch_arg "--" = true /\
  fst (prescan sample_env ["gnome-terminal"; "--title"; "x"; "--"] sample_options)
    = ["gnome-terminal"; "--title"; "x"; "--"] /\
  fst (prescan sample_env ["gnome-terminal"; "--title"; "x"; "--"] sample_options)
    <> ["gnome-terminal"; "--title"; "x"].
Proof. repeat split; try reflexivity. lazy. discriminate. Qed.

(** The session document: two of its three window groups have a tab
    list, and two windows are appended. *)
Lemma terminal_options_merge_config_all_or_nothing_witness :
  terminal_options_merge_config sample_env sample_options
    (key_file_of session_document) 2
  = Done (options_of (terminal_options_merge_config sample_env sample_options
                        (key_file_of session_document) 2)) /\
  exists groups built,
    g_key_file_get_string_list (key_file_of session_document)
      (TERMINAL_CONFIG_GROUP sample_env) (TERMINAL_CONFIG_PROP_WINDOWS sample_env)
      = Some groups /\
    has_bad_command sample_env (key_file_of session_document) groups = false /\
    initial_windows (options_of (terminal_options_merge_config sample_env sample_options
                                   (key_file_of session_document) 2))
      = initial_windows sample_options ++ built /\
    Forall2 (window_built_from sample_env (key_file_of session_document) 2)
      (surviving_groups sample_env (key_file_of session_document) groups) built.
Proof.
  split; [reflexivity|].
  apply (proj2 (proj2 (proj2 (terminal_options_merge_config_all_or_nothing sample_env
                                (key_file_of session_document) 2 sample_options)))).
  reflexivity.
Defined.

(** ** Making sure there is a window *)

Lemma ensure_top_window_cases (o : TerminalOptions) (implicit : bool) :
  (initial_windows o = [] ->
   ensure_top_window o implicit = Done (add_new_window o None implicit)) /\
  (forall l iw, initial_windows o = l ++ [iw] ->
     ensure_top_window o implicit = if is_nil (iw_tabs iw) then Aborted else Done o).
Proof.
  unfold ensure_top_window. split.
  - intros Hw. rewrite Hw. cbn [is_nil].
    destruct (add_new_window_windows o None implicit) as (iw & Hiw & Ht & _).
    rewrite Hw in Hiw. cbn in Hiw. unfold top_window. rewrite Hiw. cbn. now rewrite Ht.
  - intros l iw Hw. rewrite Hw, is_nil_app. rewrite (top_window_app _ _ _ Hw). reflexivity.
Qed.

(** X1. [terminal_options_ensure_window] opens a window only when there
    is none: then it opens exactly one, with one fresh tab, marked as
    implicit exactly when the setting reads ["tab"]. When windows exist it
    changes nothing, and stops at the assertion when the last window has
    no tab. Calling it again after it returned changes nothing, whatever
    the setting then reads. *)
Theorem terminal_options_ensure_window_once (mode_str : string) (o : TerminalOptions) :
  (initial_windows o = [] ->
   exists o' iw,
     terminal_options_ensure_window mode_str o = Done o' /\
     initial_windows o' = [iw] /\
     iw_tabs iw = [initial_tab_new None] /\
     iw_implicit_first_window iw = (mode_str =? "tab")%string) /\
  (forall l iw, initial_windows o = l ++ [iw] ->
     terminal_options_ensure_window mode_str o
     = if is_nil (iw_tabs iw) then Aborted else Done o) /\
  (forall o' mode_str', terminal_options_ensure_window mode_str o = Done o' ->
     initial_windows o' <> [] /\
     terminal_options_ensure_window mode_str' o' = Done o').
Proof.
  unfold terminal_options_ensure_window. cbv zeta.
  destruct (ensure_top_window_cases o (mode_str =? "tab")%string) as [Hnil Hsome].
  split; [|split].
  - intros Hw. rewrite (Hnil Hw).
    destruct (add_new_window_windows o None (mode_str =? "tab")%string)
      as (iw & Hiw & Ht & Hi & _).
    rewrite Hw in Hiw, Hi. cbn in Hiw, Hi. now exists (add_new_window o None (mode_str =? "tab")%string), iw.
  - exact Hsome.
  - intros o' mode_str' H.
    assert (Hshape : exists l iw, initial_windows o' = l ++ [iw] /\ is_nil (iw_tabs iw) = false).
    { destruct (initial_windows o) as [|w ws] eqn:Hw.
      - rewrite (Hnil eq_refl) in H. injection H as <-.
        destruct (add_new_window_windows o None (mode_str =? "tab")%string)
          as (iw & Hiw & Ht & _).
        exists (initial_windows o), iw. split; [exact Hiw|now rewrite Ht].
      - destruct (list_last_split _ (w :: ws)) as (l & iw & Hl); [discriminate|].
        rewrite (Hsome l iw Hl) in H.
        destruct (is_nil (iw_tabs iw)) eqn:Ht; [discriminate|]. injection H as <-.
        exists l, iw. rewrite Hw. now split. }
    destruct Hshape as (l & iw & Hl & Ht). split.
    + rewrite Hl. now destruct l.
    + destruct (ensure_top_window_cases o' (mode_str' =? "tab")%string) as [_ Hsome'].
      now rewrite (Hsome' l iw Hl), Ht.
Qed.

(** ** The defaults a window takes when it is opened *)

Section DefaultsOnce.

Variable E : Env.

Lemma windows_without_role (n : nat) (o : TerminalOptions) :
  default_role o = None ->
  exists o' new,
    digest_events E (repeat (EvWindow None) n) o = Done o' /\
    initial_windows o' = initial_windows o ++ new /\
    List.length new = n /\
    Forall (fun w => iw_role w = None /\
                     iw_start_fullscreen w = default_fullscreen o /\
                     iw_start_maximized w = default_maximize o /\
                     iw_implicit_first_window w = false) new /\
    default_role o' = None /\
    default_fullscreen o' = default_fullscreen o /\
    default_maximize o' = default_maximize o.
Proof.
  revert o. induction n as [|n IH]; intros o Hr.
  - exists o, []. simpl. rewrite app_nil_r. repeat split; [constructor|exact Hr].
  - cbn [repeat digest_events digest_event option_window_callback and_then].
    destruct (add_new_window_windows o None false)
      as (w & Hw & _ & Hi & _ & Hrole & _ & _ & _ & Hfs & Hmx).
    destruct (add_new_window_options o None false) as (_ & Hdr & _ & _ & Hdf & Hdm & _).
    destruct (IH (add_new_window o None false) Hdr)
      as (o' & new & H1 & H2 & H3 & H4 & H5 & H6 & H7).
    exists o', (w :: new). split; [exact H1|].
    split; [rewrite H2, Hw, <- app_assoc; reflexivity|].
    split; [simpl; now rewrite H3|].
    split; [|split; [exact H5|split; congruence]].
    constructor.
    + rewrite Hrole, Hr, Hi, andb_false_r. now repeat split.
    + eapply Forall_impl; [|exact H4]. intros w' (A & B & C & D).
      repeat split; congruence.
Qed.

(** X2. Of the windows [--window] opens one after the other while a
    default role is set, the first takes the role and no later one has a
    role: the default role is given away once. The fullscreen and
    maximize defaults are not consumed: every one of these windows starts
    with them. None of the windows is marked as implicit. *)
Theorem default_role_once_fullscreen_every_time (o : TerminalOptions) (n : nat)
    (role : string) :
  default_role o = Some role ->
  exists o' w1 later,
    digest_events E (repeat (EvWindow None) (S n)) o = Done o' /\
    initial_windows o' = initial_windows o ++ w1 :: later /\
    List.length later = n /\
    iw_role w1 = Some role /\
    Forall (fun w => iw_role w = None) later /\
    default_role o' = None /\
    Forall (fun w => iw_start_fullscreen w = default_fullscreen o /\
                     iw_start_maximized w = default_maximize o /\
                     iw_implicit_first_window w = false) (w1 :: later).
Proof.
  intros Hr.
  cbn [repeat digest_events digest_event option_window_callback and_then].
  destruct (add_new_window_windows o None false)
    as (w1 & Hw & _ & Hi & _ & Hrole & _ & _ & _ & Hfs & Hmx).
  destruct (add_new_window_options o None false) as (_ & Hdr & _ & _ & Hdf & Hdm & _).
  destruct (windows_without_role n (add_new_window o None false) Hdr)
    as (o' & later & H1 & H2 & H3 & H4 & H5 & _).
  exists o', w1, later. split; [exact H1|].
  split; [rewrite H2, Hw, <- app_assoc; reflexivity|].
  split; [exact H3|]. split; [congruence|].
  split; [eapply Forall_impl; [|exact H4]; now intros w' (A & _)|].
  split; [exact H5|].
  constructor.
  - rewrite Hi, andb_false_r. now repeat split.
  - eapply Forall_impl; [|exact H4]. intros w' (_ & B & C & D). repeat split; congruence.
Qed.

(** A run of [--tab] on options that hold a window whose last window has
    tabs: the tabs go to the last window, in order. *)
Lemma tabs_in_last_window (n : nat) (o : TerminalOptions) (l : list InitialWindow)
    (iw : InitialWindow) :
  initial_windows o = l ++ [iw] ->
  exists o',
    digest_events E (repeat (EvTab None) n) o = Done o' /\
    initial_windows o'
    = l ++ [set_iw_tabs (iw_tabs iw ++ repeat (initial_tab_new None) n) iw].
Proof.
  revert o iw. induction n as [|n IH]; intros o iw Hw.
  - exists o. split; [reflexivity|]. cbn [repeat]. rewrite app_nil_r, Hw.
    now destruct iw.
  - cbn [repeat digest_events digest_event option_tab_callback and_then].
    assert (Hw1 : initial_windows (add_tab None o)
                  = l ++ [set_iw_tabs (iw_tabs iw ++ [initial_tab_new None]) iw]).
    { unfold add_tab. rewrite Hw, is_nil_app. cbn [negb].
      exact (with_top_window_app
               (fun w => set_iw_tabs (iw_tabs w ++ [initial_tab_new None]) w) o l iw Hw). }
    destruct (IH _ _ Hw1) as (o' & H1 & H2). exists o'. split; [exact H1|].
    rewrite H2. cbn [iw_tabs set_iw_tabs]. now rewrite <- app_assoc.
Qed.

(** X3. A command line of [--tab] options alone opens one window, marked
    as implicit, with one tab per [--tab]: the first [--tab] opens the
    window with its tab, every later one adds a tab to it. On options
    that hold windows, the tabs all go to the last window and no window is
    opened. *)
Theorem tabs_share_one_window (n : nat) (o : TerminalOptions) :
  (initial_windows o = [] ->
   exists o' iw,
     digest_events E (repeat (EvTab None) (S n)) o = Done o' /\
     initial_windows o' = [iw] /\
     iw_implicit_first_window iw = true /\
     iw_tabs iw = repeat (initial_tab_new None) (S n)) /\
  (forall l iw, initial_windows o = l ++ [iw] ->
     exists o',
       digest_events E (repeat (EvTab None) n) o = Done o' /\
       initial_windows o'
       = l ++ [set_iw_tabs (iw_tabs iw ++ repeat (initial_tab_new None) n) iw]).
Proof.
  split.
  - intros Hw.
    cbn [repeat digest_events digest_event option_tab_callback and_then].
    destruct (add_new_window_windows o None true) as (iw & Hiw & Ht & Hi & _).
    rewrite Hw in Hiw, Hi. cbn in Hiw, Hi.
    assert (Hadd : add_tab None o = add_new_window o None true).
    { unfold add_tab. now rewrite Hw. }
    rewrite Hadd.
    destruct (tabs_in_last_window n _ [] iw Hiw) as (o' & H1 & H2).
    exists o', (set_iw_tabs (iw_tabs iw ++ repeat (initial_tab_new None) n) iw).
    split; [exact H1|]. split; [exact H2|]. split; [exact Hi|].
    cbn [iw_tabs set_iw_tabs]. now rewrite Ht.
  - intros l iw Hw. now apply tabs_in_last_window.
Qed.

End DefaultsOnce.

(** ** Comparisons of doubles *)

(** [<] and [<=] on doubles through their specification
    ([FloatAxioms.ltb_spec], [FloatAxioms.leb_spec]): a comparison with
    NaN is false, and on two numbers [not (a < b)] is [b <= a]. *)
Lemma double_ltb_nan_l (x : float) : PrimFloat.ltb nan x = false.
Proof. rewrite FloatAxioms.ltb_spec. reflexivity. Qed.

Lemma double_ltb_nan_r (x : float) : PrimFloat.ltb x nan = false.
Proof.
  rewrite FloatAxioms.ltb_spec. change (Prim2SF nan) with S754_nan.
  unfold SFltb. now destruct (Prim2SF x).
Qed.

Lemma SFcompare_antisym (x y : spec_float) (c : comparison) :
  SFcompare x y = Some c -> SFcompare y x = Some (CompOpp c).
Proof.
  destruct x as [s1|s1| |s1 m1 e1], y as [s2|s2| |s2 m2 e2]; cbn;
    try discriminate; intros H; injection H as <-;
    try (destruct s1; reflexivity); try (destruct s2; reflexivity);
    try (destruct s1, s2; reflexivity).
  destruct s1, s2; try reflexivity.
  - rewrite (Z.compare_antisym e1 e2).
    destruct (e1 ?= e2); cbn; try reflexivity.
    rewrite (Pos.compare_cont_antisym m1 m2 Eq). cbn.
    now destruct (Pos.compare_cont Eq m2 m1).
  - rewrite (Z.compare_antisym e1 e2).
    destruct (e1 ?= e2); cbn; try reflexivity.
    rewrite (Pos.compare_cont_antisym m1 m2 Eq). reflexivity.
Qed.

Lemma SFcompare_numbers (x y : spec_float) :
  SFeqb x x = true -> SFeqb y y = true -> exists c, SFcompare x y = Some c.
Proof. unfold SFeqb. destruct x, y; cbn; try discriminate; eauto. Qed.

Lemma double_not_ltb_leb (x y : float) :
  is_nan x = false -> is_nan y = false ->
  PrimFloat.ltb x y = false -> PrimFloat.leb y x = true.
Proof.
  unfold is_nan. rewrite !FloatAxioms.eqb_spec, FloatAxioms.ltb_spec, FloatAxioms.leb_spec.
  intros Hx Hy. apply negb_false_iff in Hx, Hy.
  destruct (SFcompare_numbers _ _ Hx Hy) as [c Hc].
  unfold SFltb, SFleb. rewrite Hc, (SFcompare_antisym _ _ _ Hc).
  destruct c; cbn; congruence.
Qed.

Lemma double_leb_not_ltb (x y : float) :
  PrimFloat.leb y x = true -> PrimFloat.ltb x y = false.
Proof.
  rewrite FloatAxioms.ltb_spec, FloatAxioms.leb_spec. unfold SFltb, SFleb.
  destruct (SFcompare (Prim2SF y) (Prim2SF x)) as [c|] eqn:Hc; [|discriminate].
  rewrite (SFcompare_antisym _ _ _ Hc). now destruct c.
Qed.

(** ** The zoom factor *)

Section Zoom.

Variable E : Env.

(** X4. [--zoom]: a value [g_strtod] does not read to its end is refused.
    Otherwise the factor stored, in the options when there is no window
    and in the last tab of the last window when there is one, is the
    result of the two comparisons on the double that was read. For a
    double that is not NaN (the two thresholds being numbers) this is the
    minimum scale, the maximum scale, or the double itself, and the double
    itself exactly when it lies between the minimum plus [1e-6] and the
    maximum minus [1e-6], both as the doubles the additions round to. NaN
    passes both comparisons: it is stored as it is, whatever the bounds. *)
Theorem option_zoom_callback_clamps (value : string) (o : TerminalOptions) :
  (g_strtod E value = None ->
   option_zoom_callback E value o = Failed (ErrInvalidZoom value) o) /\
  (forall z o', g_strtod E value = Some z ->
     option_zoom_callback E value o = Done o' ->
     (initial_windows o = [] ->
      initial_windows o' = [] /\ zoom o' = zoom_clamped E z /\ zoom_set o' = true) /\
     (forall l iw, initial_windows o = l ++ [iw] ->
        exists ts it,
          iw_tabs iw = ts ++ [it] /\
          initial_windows o'
          = l ++ [set_iw_tabs (ts ++ [set_it_zoom (zoom_clamped E z) it]) iw])) /\
  (forall z,
     is_nan z = false ->
     is_nan (TERMINAL_SCALE_MINIMUM E + double_1e_6) = false ->
     is_nan (TERMINAL_SCALE_MAXIMUM E - double_1e_6) = false ->
     (zoom_clamped E z = TERMINAL_SCALE_MINIMUM E \/
      zoom_clamped E z = TERMINAL_SCALE_MAXIMUM E \/
      zoom_clamped E z = z) /\
     (PrimFloat.leb (TERMINAL_SCALE_MINIMUM E + double_1e_6) z = true /\
      PrimFloat.leb z (TERMINAL_SCALE_MAXIMUM E - double_1e_6) = true ->
      zoom_clamped E z = z) /\
     (zoom_clamped E z <> TERMINAL_SCALE_MINIMUM E ->
      zoom_clamped E z <> TERMINAL_SCALE_MAXIMUM E ->
      PrimFloat.leb (TERMINAL_SCALE_MINIMUM E + double_1e_6) z = true /\
      PrimFloat.leb z (TERMINAL_SCALE_MAXIMUM E - double_1e_6) = true)) /\
  zoom_clamped E nan = nan.
Proof.
  split; [|split; [|split]].
  - unfold option_zoom_callback. now intros ->.
  - intros z o' Hz H.
    destruct (option_zoom_callback_stores E value z o o' Hz H) as (o0 & Hw0 & H0).
    split.
    + intros Hw. rewrite Hw0, Hw in H0. cbn [is_nil negb] in H0. injection H0 as <-.
      cbn. rewrite Hw0. now repeat split.
    + intros l iw Hw. rewrite Hw0, Hw, is_nil_app in H0. cbn [negb] in H0.
      rewrite Hw in Hw0.
      exact (ensure_then_store_windows _ o0 o' l iw Hw0 H0).
  - intros z Hz Hlo Hhi. unfold zoom_clamped.
    destruct (PrimFloat.ltb z (TERMINAL_SCALE_MINIMUM E + double_1e_6)) eqn:H1.
    + destruct (PrimFloat.ltb (TERMINAL_SCALE_MAXIMUM E - double_1e_6)
                  (TERMINAL_SCALE_MINIMUM E)) eqn:H2.
      * split; [now right; left|]. split; [|intros; congruence].
        intros [Hle _]. rewrite (double_leb_not_ltb _ _ Hle) in H1. discriminate.
      * split; [now left|]. split; [|intros; congruence].
        intros [Hle _]. rewrite (double_leb_not_ltb _ _ Hle) in H1. discriminate.
    + destruct (PrimFloat.ltb (TERMINAL_SCALE_MAXIMUM E - double_1e_6) z) eqn:H2.
      * split; [now right; left|]. split; [|intros; congruence].
        intros [_ Hle]. rewrite (double_leb_not_ltb _ _ Hle) in H2. discriminate.
      * split; [now right; right|]. split; [reflexivity|]. intros _ _.
        split; now apply double_not_ltb_leb.
  - unfold zoom_clamped. rewrite double_ltb_nan_l. cbv zeta.
    now rewrite double_ltb_nan_r.
Qed.

End Zoom.

(** ** More on the configuration-file merger *)

Section MergeMore.

Variable E : Env.
Variable key_file : GKeyFile.
Variable source_tag : Z.

(** The three tests at the head of [terminal_options_merge_config], and
    the loop that follows them. *)
Lemma terminal_options_merge_config_unfold (o : TerminalOptions) :
  terminal_options_merge_config E o key_file source_tag =
  if negb (g_key_file_has_group key_file (TERMINAL_CONFIG_GROUP E))
  then Failed ErrInvalidConfigFile o
  else if negb (config_versions_ok E key_file) then Failed ErrIncompatibleConfigFile o
  else match g_key_file_get_string_list key_file (TERMINAL_CONFIG_GROUP E)
               (TERMINAL_CONFIG_PROP_WINDOWS E) with
       | None => Failed ErrKeyFile o
       | Some groups =>
           let r := merge_windows E key_file source_tag groups o [] in
           if snd r then Failed ErrKeyFile (fst (fst r))
           else Done (set_initial_windows
                        (initial_windows (fst (fst r)) ++ snd (fst r)) (fst (fst r)))
       end.
Proof.
  unfold terminal_options_merge_config, config_versions_ok.
  destruct (negb (g_key_file_has_group key_file (TERMINAL_CONFIG_GROUP E)));
    [reflexivity|].
  rewrite negb_involutive.
  match goal with |- context [if ?c then Failed ErrIncompatibleConfigFile o else _] =>
    destruct c end; [reflexivity|].
  destruct (g_key_file_get_string_list key_file (TERMINAL_CONFIG_GROUP E)
              (TERMINAL_CONFIG_PROP_WINDOWS E)) as [groups|]; [|reflexivity].
  cbv zeta. now destruct (merge_windows E key_file source_tag groups o []) as [[o1 built] err].
Qed.

(** X5. A merge succeeds exactly when the document has the configuration
    group, its version is positive, its compatibility version is positive
    and not above the one the program supports, the window list can be
    read, and no tab of a listed window group has a command key that fails
    to decode or to split. A document without the group is refused as
    invalid and one with a bad version as incompatible, and in both cases
    the options are returned as they were. *)
Theorem terminal_options_merge_config_succeeds_iff (o : TerminalOptions) :
  ((exists o', terminal_options_merge_config E o key_file source_tag = Done o') <->
   g_key_file_has_group key_file (TERMINAL_CONFIG_GROUP E) = true /\
   config_versions_ok E key_file = true /\
   exists groups,
     g_key_file_get_string_list key_file (TERMINAL_CONFIG_GROUP E)
       (TERMINAL_CONFIG_PROP_WINDOWS E) = Some groups /\
     has_bad_command E key_file groups = false) /\
  (g_key_file_has_group key_file (TERMINAL_CONFIG_GROUP E) = false ->
   terminal_options_merge_config E o key_file source_tag = Failed ErrInvalidConfigFile o) /\
  (g_key_file_has_group key_file (TERMINAL_CONFIG_GROUP E) = true ->
   config_versions_ok E key_file = false ->
   terminal_options_merge_config E o key_file source_tag
   = Failed ErrIncompatibleConfigFile o).
Proof.
  rewrite terminal_options_merge_config_unfold.
  destruct (g_key_file_has_group key_file (TERMINAL_CONFIG_GROUP E)); cbn [negb].
  2:{ split; [|split; [reflexivity|discriminate]].
      split; [intros [o' H]; discriminate|intros (H & _); discriminate]. }
  destruct (config_versions_ok E key_file); cbn [negb].
  2:{ split; [|split; [discriminate|reflexivity]].
      split; [intros [o' H]; discriminate|intros (_ & H & _); discriminate]. }
  split; [|split; discriminate].
  destruct (g_key_file_get_string_list key_file (TERMINAL_CONFIG_GROUP E)
              (TERMINAL_CONFIG_PROP_WINDOWS E)) as [groups|].
  2:{ split; [intros [o' H]; discriminate|intros (_ & _ & groups & H & _); discriminate]. }
  cbv zeta.
  destruct (merge_windows_result E key_file source_tag groups o []) as (_ & new & _ & _ & Herr & _).
  rewrite Herr. destruct (has_bad_command E key_file groups) eqn:Hbad.
  - split; [intros [o' H]; discriminate|].
    intros (_ & _ & groups' & Hg & Hb). injection Hg as <-. congruence.
  - split; [|intros _; eexists; reflexivity].
    intros _. split; [reflexivity|]. split; [reflexivity|]. now exists groups.
Qed.

Lemma merge_windows_no_tab_lists (groups : list string) (o : TerminalOptions)
    (acc : list InitialWindow) :
  Forall (fun g => tab_groups_of E key_file g = None) groups ->
  merge_windows E key_file source_tag groups o acc = (o, acc, false).
Proof.
  induction 1 as [|g rest Hg _ IH]; cbn [merge_windows]; [reflexivity|].
  unfold tab_groups_of in Hg. now rewrite Hg.
Qed.

Lemma set_initial_windows_same (o : TerminalOptions) :
  set_initial_windows (initial_windows o ++ []) o = o.
Proof. destruct o. cbn. now rewrite app_nil_r. Qed.

(** X6. A valid document in which no listed window group has a tab list
    (and so also one whose window list is empty) merges successfully and
    changes nothing at all: no window is appended and no default is
    consumed. *)
Theorem terminal_options_merge_config_nothing_to_open (o : TerminalOptions)
    (groups : list string) :
  g_key_file_has_group key_file (TERMINAL_CONFIG_GROUP E) = true ->
  config_versions_ok E key_file = true ->
  g_key_file_get_string_list key_file (TERMINAL_CONFIG_GROUP E)
    (TERMINAL_CONFIG_PROP_WINDOWS E) = Some groups ->
  Forall (fun g => tab_groups_of E key_file g = None) groups ->
  terminal_options_merge_config E o key_file source_tag = Done o.
Proof.
  intros Hg Hv Hl Hnone. rewrite terminal_options_merge_config_unfold, Hg, Hv, Hl.
  cbn [negb]. cbv zeta. rewrite (merge_windows_no_tab_lists groups o [] Hnone).
  cbn [fst snd]. now rewrite set_initial_windows_same.
Qed.

Lemma same_but_consumed_refl (o : TerminalOptions) : same_but_consumed o o.
Proof. repeat split. Qed.

Lemma same_but_consumed_trans (o1 o2 o3 : TerminalOptions) :
  same_but_consumed o1 o2 -> same_but_consumed o2 o3 -> same_but_consumed o1 o3.
Proof.
  unfold same_but_consumed. intros H1 H2.
  repeat match goal with H : _ /\ _ |- _ => destruct H end.
  repeat split; congruence.
Qed.

Lemma apply_defaults_consumes (o : TerminalOptions) (iw : InitialWindow) :
  same_but_consumed o (fst (apply_defaults o iw)) /\
  default_role (fst (apply_defaults o iw)) = None /\
  default_window_menubar_forced (fst (apply_defaults o iw)) = false.
Proof.
  unfold apply_defaults. destruct o as [? ? dr ? ? ? mf ? ? ? ? ? ? ? ? ? ? ? ?].
  cbn. destruct dr, mf; cbn; repeat split.
Qed.

Lemma merge_windows_consumes (groups : list string) (o : TerminalOptions)
    (acc : list InitialWindow) :
  let o' := fst (fst (merge_windows E key_file source_tag groups o acc)) in
  same_but_consumed o o' /\
  (surviving_groups E key_file groups = [] -> o' = o) /\
  (surviving_groups E key_file groups <> [] ->
   default_role o' = None /\ default_window_menubar_forced o' = false).
Proof.
  revert o acc. induction groups as [|g rest IH]; intros o acc; cbv zeta.
  - cbn. split; [apply same_but_consumed_refl|]. split; [reflexivity|now intros H].
  - rewrite surviving_groups_cons. cbn [merge_windows]. unfold tab_groups_of at 1 2.
    destruct (g_key_file_get_string_list key_file g (TERMINAL_CONFIG_WINDOW_PROP_TABS E))
      as [tgs|] eqn:Htg; cbn [is_null negb]; [|exact (IH o acc)].
    destruct (merge_window_result E key_file source_tag g tgs o Htg) as (H1 & _).
    destruct (merge_window E key_file source_tag g tgs o) as [[o1 iw] err].
    cbn [fst snd] in H1.
    destruct (apply_defaults_consumes o (initial_window_new source_tag)) as (Hs & Hr & Hf).
    rewrite <- H1 in Hs, Hr, Hf.
    destruct err; cbn [fst snd].
    + split; [exact Hs|]. split; [discriminate|]. intros _. now split.
    + destruct (IH o1 (acc ++ [iw])) as (Hs' & Hnil & Hcons).
      split; [exact (same_but_consumed_trans _ _ _ Hs Hs')|]. split; [discriminate|].
      intros _. destruct (surviving_groups E key_file rest) eqn:Hsv.
      * rewrite (Hnil eq_refl). now split.
      * apply Hcons. discriminate.
Qed.

(** X7. Whatever a merge returns, of the options it leaves everything but
    the window list, the default role and the forced-menubar default as it
    was: the buffered command, the execute and wait flags, the zoom, the
    other defaults, the verbosity and what was printed. It returns: it
    neither exits nor fails an assertion. The two defaults are consumed as
    soon as one listed window group has a tab list, also when the merge
    then fails and appends no window. *)
Theorem terminal_options_merge_config_frame (o : TerminalOptions) :
  match terminal_options_merge_config E o key_file source_tag with
  | Done o' | Failed _ o' =>
      same_but_consumed o o' /\
      (forall groups,
         g_key_file_has_group key_file (TERMINAL_CONFIG_GROUP E) = true ->
         config_versions_ok E key_file = true ->
         g_key_file_get_string_list key_file (TERMINAL_CONFIG_GROUP E)
           (TERMINAL_CONFIG_PROP_WINDOWS E) = Some groups ->
         surviving_groups E key_file groups <> [] ->
         default_role o' = None /\ default_window_menubar_forced o' = false)
  | Exited _ | Aborted => False
  end.
Proof.
  rewrite terminal_options_merge_config_unfold.
  destruct (g_key_file_has_group key_file (TERMINAL_CONFIG_GROUP E)); cbn [negb].
  2:{ split; [apply same_but_consumed_refl|discriminate]. }
  destruct (config_versions_ok E key_file); cbn [negb].
  2:{ split; [apply same_but_consumed_refl|discriminate]. }
  destruct (g_key_file_get_string_list key_file (TERMINAL_CONFIG_GROUP E)
              (TERMINAL_CONFIG_PROP_WINDOWS E)) as [groups|].
  2:{ split; [apply same_but_consumed_refl|discriminate]. }
  cbv zeta.
  destruct (merge_windows_consumes groups o []) as (Hs & _ & Hc).
  destruct (merge_windows E key_file source_tag groups o []) as [[o1 built] err].
  cbn [fst snd] in *.
  destruct err.
  - split; [exact Hs|]. intros groups' _ _ Hg Hsv. injection Hg as <-. now apply Hc.
  - split; [exact Hs|]. intros groups' _ _ Hg Hsv. injection Hg as <-. now apply Hc.
Qed.

End MergeMore.

Section MergeContents.

Variable E : Env.
Variable key_file : GKeyFile.
Variable source_tag : Z.
Variable P : string -> InitialWindow -> Prop.

Hypothesis merge_window_P :
  forall g tgs o,
    tab_groups_of E key_file g = Some tgs ->
    snd (merge_window E key_file source_tag g tgs o) = false ->
    P g (snd (fst (merge_window E key_file source_tag g tgs o))).

Lemma merge_windows_Forall2 (groups : list string) (o : TerminalOptions)
    (acc : list InitialWindow) :
  snd (merge_windows E key_file source_tag groups o acc) = false ->
  exists new,
    snd (fst (merge_windows E key_file source_tag groups o acc)) = acc ++ new /\
    Forall2 P (surviving_groups E key_file groups) new.
Proof.
  revert o acc. induction groups as [|g rest IH]; intros o acc.
  - intros _. exists []. cbn. rewrite app_nil_r. split; [reflexivity|constructor].
  - rewrite surviving_groups_cons. cbn [merge_windows].
    pose proof (merge_window_P g) as HP. unfold tab_groups_of in *.
    destruct (g_key_file_get_string_list key_file g (TERMINAL_CONFIG_WINDOW_PROP_TABS E))
      as [tgs|] eqn:Htg; cbn [is_null negb]; [|exact (IH o acc)].
    specialize (HP tgs o eq_refl).
    destruct (merge_window E key_file source_tag g tgs o) as [[o1 iw] err].
    cbn [fst snd] in HP. destruct err; cbn [fst snd]; [discriminate|].
    intros Hrest. destruct (IH o1 (acc ++ [iw]) Hrest) as (new & H1 & H2).
    exists (iw :: new). rewrite H1, <- app_assoc. split; [reflexivity|].
    constructor; [now apply HP|exact H2].
Qed.

Lemma merge_config_Forall2 (o o' : TerminalOptions) :
  terminal_options_merge_config E o key_file source_tag = Done o' ->
  exists groups built,
    g_key_file_get_string_list key_file (TERMINAL_CONFIG_GROUP E)
      (TERMINAL_CONFIG_PROP_WINDOWS E) = Some groups /\
    initial_windows o' = initial_windows o ++ built /\
    Forall2 P (surviving_groups E key_file groups) built.
Proof.
  rewrite terminal_options_merge_config_unfold.
  destruct (negb (g_key_file_has_group key_file (TERMINAL_CONFIG_GROUP E)));
    [discriminate|].
  destruct (negb (config_versions_ok E key_file)); [discriminate|].
  destruct (g_key_file_get_string_list key_file (TERMINAL_CONFIG_GROUP E)
              (TERMINAL_CONFIG_PROP_WINDOWS E)) as [groups|]; [|discriminate].
  cbv zeta.
  destruct (merge_windows_result E key_file source_tag groups o []) as ((Hw & _) & _).
  destruct (snd (merge_windows E key_file source_tag groups o [])) eqn:Herr;
    [discriminate|].
  destruct (merge_windows_Forall2 groups o [] Herr) as (new & H1 & H2).
  intros H. injection H as <-. exists groups, new. split; [reflexivity|].
  split; [cbn; now rewrite Hw, H1|exact H2].
Qed.

End MergeContents.

Section MergedWindows.

Variable E : Env.
Variable key_file : GKeyFile.
Variable source_tag : Z.

Lemma merge_tab_from_document (active_terminal : option string) (tab_group : string) :
  tab_from_document E key_file active_terminal tab_group
    (fst (merge_tab E key_file active_terminal tab_group)).
Proof.
  unfold tab_from_document, merge_tab, terminal_util_key_file_get_argv,
    terminal_util_key_file_get_string_unescape.
  destruct (g_key_file_has_key key_file tab_group _);
    destruct (g_strcmp0_eq active_terminal tab_group);
    destruct (g_key_file_get_string key_file tab_group
                (TERMINAL_CONFIG_TERMINAL_PROP_WORKING_DIRECTORY E));
    cbn; repeat split;
    now destruct (g_key_file_get_string key_file tab_group
                    (TERMINAL_CONFIG_TERMINAL_PROP_COMMAND E)).
Qed.

Lemma merge_window_contents (g : string) (tgs : list string) (o : TerminalOptions) :
  tab_groups_of E key_file g = Some tgs ->
  snd (merge_window E key_file source_tag g tgs o) = false ->
  window_display_from E key_file g (snd (fst (merge_window E key_file source_tag g tgs o))) /\
  window_tabs_from E key_file g (snd (fst (merge_window E key_file source_tag g tgs o))).
Proof.
  intros Htg. unfold merge_window.
  destruct (apply_defaults_window o (initial_window_new source_tag)) as (Ht & _ & Hi & _).
  destruct (apply_defaults o (initial_window_new source_tag)) as [o1 iw1].
  cbn [fst snd] in Ht, Hi.
  match goal with
  | |- context [merge_tabs E key_file ?a tgs ?w] =>
      destruct (merge_tabs_result E key_file a tgs w) as (new & H1 & _ & H3 & H4);
      destruct (merge_tabs E key_file a tgs w) as [iw2 err]
  end.
  cbn [fst snd] in *. intros Herr. rewrite Herr in H3. symmetry in H3.
  specialize (H4 H3). subst iw2. split.
  - unfold window_display_from.
    destruct (g_key_file_has_key key_file g (TERMINAL_CONFIG_WINDOW_PROP_MENUBAR_VISIBLE E));
      cbn; repeat split; try exact Hi; try discriminate.
  - unfold window_tabs_from. rewrite Htg. cbn [or_empty].
    assert (Htabs : forall w, iw_tabs w = [] ->
              Forall2 (tab_from_document E key_file
                         (g_key_file_get_string key_file g
                            (TERMINAL_CONFIG_WINDOW_PROP_ACTIVE_TAB E)))
                      tgs (iw_tabs (set_iw_tabs (iw_tabs w ++ new) w))).
    { intros w Hw. cbn. rewrite Hw. cbn. rewrite H4. clear.
      induction tgs as [|tg rest IH]; cbn; constructor;
        [apply merge_tab_from_document|exact IH]. }
    destruct (g_key_file_has_key key_file g (TERMINAL_CONFIG_WINDOW_PROP_MENUBAR_VISIBLE E));
      apply Htabs; cbn; exact Ht.
Qed.

(** X8. The windows a successful merge appends show the document, one
    per window group with a tab list, in order: fullscreen and maximized
    are the document's values (false without the key) whatever the
    defaults say, no window is marked as implicit, a menubar key forces
    the menubar state; and each window has one tab per listed tab group,
    in order, the active one being the tab whose group is named by the
    window's active-terminal key, with the working directory unescaped,
    the command unescaped and then split, zoom 1 and no descriptors. *)
Theorem terminal_options_merge_config_contents (o o' : TerminalOptions) :
  terminal_options_merge_config E o key_file source_tag = Done o' ->
  exists groups built,
    g_key_file_get_string_list key_file (TERMINAL_CONFIG_GROUP E)
      (TERMINAL_CONFIG_PROP_WINDOWS E) = Some groups /\
    initial_windows o' = initial_windows o ++ built /\
    Forall2 (fun g iw => window_display_from E key_file g iw /\
                         window_tabs_from E key_file g iw)
            (surviving_groups E key_file groups) built.
Proof.
  apply (merge_config_Forall2 E key_file source_tag
           (fun g iw => window_display_from E key_file g iw /\
                        window_tabs_from E key_file g iw)).
  intros g tgs o0. apply merge_window_contents.
Qed.

End MergedWindows.

(** ** Printing and verbosity *)

Lemma add_new_window_streams (o : TerminalOptions) (profile : option string)
    (implicit : bool) :
  stdout (add_new_window o profile implicit) = stdout o /\
  stderr (add_new_window o profile implicit) = stderr o /\
  verbosity (add_new_window o profile implicit) = verbosity o.
Proof.
  unfold add_new_window, apply_defaults.
  destruct o as [? ? dr ? ? ? mf ? ? ? ? ? ? ? ? ? ? ? ?].
  cbn. destruct dr, mf; cbn; repeat split.
Qed.

(** [ensure_top_tab] prints nothing; it returns [TRUE] or stops at the
    assertion. *)
Lemma ensure_top_tab_outcome (o0 : TerminalOptions) :
  match ensure_top_tab o0 with
  | Done o1 =>
      stdout o1 = stdout o0 /\ stderr o1 = stderr o0 /\ verbosity o1 = verbosity o0
  | Failed _ _ | Exited _ => False
  | Aborted => True
  end.
Proof.
  unfold ensure_top_tab, ensure_top_window.
  set (o1 := if is_nil (initial_windows o0) then add_new_window o0 None true else o0).
  assert (Hs : stdout o1 = stdout o0 /\ stderr o1 = stderr o0 /\
               verbosity o1 = verbosity o0).
  { subst o1. destruct (is_nil (initial_windows o0));
      [apply add_new_window_streams|now repeat split]. }
  destruct (top_window o1) as [iw|]; [|exact I].
  destruct (is_nil (iw_tabs iw)); [exact I|]. cbn [and_then].
  destruct (top_tab o1); [exact Hs|exact I].
Qed.

Lemma forallb_negb_existsb {A : Type} (f : A -> bool) (l : list A) :
  existsb f l = false -> forallb (fun x => negb (f x)) l = true.
Proof.
  induction l as [|x l IH]; cbn; [reflexivity|].
  intros H. apply orb_false_iff in H. destruct H as [-> H]. now apply IH.
Qed.

Section Quiet.

Variable E : Env.
Variable o : TerminalOptions.
Hypothesis below_normal : verbosity o < TERMINAL_VERBOSITY_NORMAL E.
Hypothesis below_detail : verbosity o < TERMINAL_VERBOSITY_DETAIL E.

Lemma terminal_printerr_quiet (m : message) : terminal_printerr E m o = o.
Proof.
  unfold terminal_printerr, terminal_fprintf.
  now rewrite (proj2 (Z.ltb_lt _ _) below_normal).
Qed.

Lemma terminal_printerr_detail_quiet (m : message) : terminal_printerr_detail E m o = o.
Proof.
  unfold terminal_printerr_detail, terminal_fprintf.
  now rewrite (proj2 (Z.ltb_lt _ _) below_detail).
Qed.

Lemma printed_nothing_store (f : TerminalOptions -> TerminalOptions) (o0 : TerminalOptions) :
  stdout o0 = stdout o -> stderr o0 = stderr o -> verbosity o0 = verbosity o ->
  (forall x, stdout (f x) = stdout x /\ stderr (f x) = stderr x /\
             verbosity (f x) = verbosity x) ->
  printed_nothing o (let! o1 := ensure_top_tab o0 in Done (f o1)).
Proof.
  intros Ho Hs Hv Hf. pose proof (ensure_top_tab_outcome o0) as H.
  destruct (ensure_top_tab o0) as [o1|e o1|o1|]; cbn;
    [|contradiction|contradiction|exact I].
  destruct H as (H1 & H2 & H3). destruct (Hf o1) as (H4 & H5 & H6).
  repeat split; congruence.
Qed.

Lemma printed_nothing_merge (key_file : GKeyFile) (tag : Z) :
  printed_nothing o (terminal_options_merge_config E o key_file tag).
Proof.
  rewrite terminal_options_merge_config_unfold.
  destruct (negb (g_key_file_has_group key_file (TERMINAL_CONFIG_GROUP E)));
    [now repeat split|].
  destruct (negb (config_versions_ok E key_file)); [now repeat split|].
  destruct (g_key_file_get_string_list key_file (TERMINAL_CONFIG_GROUP E)
              (TERMINAL_CONFIG_PROP_WINDOWS E)) as [groups|]; [|now repeat split].
  cbv zeta. destruct (merge_windows_consumes E key_file tag groups o []) as (Hs & _).
  unfold same_but_consumed in Hs.
  repeat match goal with H : _ /\ _ |- _ => destruct H end.
  destruct (snd (merge_windows E key_file tag groups o [])); cbn; now repeat split.
Qed.

Lemma store_profile_printed_nothing (profile : string) :
  printed_nothing o (store_profile profile o).
Proof.
  unfold store_profile. destruct (negb (is_nil (initial_windows o))); [|now repeat split].
  now apply printed_nothing_store.
Qed.

(** Below the level of every message, a callback other than those of
    the verbosity options and of [--version] returns, prints nothing and
    leaves [verbosity] alone, unless it stops at the assertion. *)
Lemma digest_event_printed_nothing (ev : event) :
  is_verbosity ev || is_version ev = false -> printed_nothing o (digest_event E ev o).
Proof.
  intros Hev. destruct ev; try discriminate Hev; cbn [digest_event].
  - unfold option_app_id_callback. now destruct (negb _).
  - now repeat split.
  - unfold unsupported_option_callback. rewrite terminal_printerr_quiet. now repeat split.
  - unfold option_load_config_cb.
    destruct (g_key_file_load_from_file E value);
      [apply printed_nothing_merge|now repeat split].
  - unfold option_window_callback.
    assert (Ha : forall p i, printed_nothing o (Done (add_new_window o p i))).
    { intros p i. apply add_new_window_streams. }
    destruct value as [v|]; [|apply Ha].
    destruct (terminal_profiles_list_dup_uuid_or_name E (Some v)); [apply Ha|].
    rewrite terminal_printerr_quiet.
    destruct (terminal_profiles_list_dup_uuid_or_name E None); [apply Ha|now repeat split].
  - unfold option_tab_callback.
    assert (Ha : forall p, printed_nothing o (Done (add_tab p o))).
    { intros p. unfold add_tab. destruct (negb _); [now repeat split|].
      apply add_new_window_streams. }
    destruct value as [v|]; [|apply Ha].
    destruct (terminal_profiles_list_dup_uuid_or_name E (Some v));
      [apply Ha|now repeat split].
  - unfold option_show_menubar_callback. destruct (negb _); [|now repeat split].
    destruct (top_window o) as [iw|]; [|exact I].
    destruct (_ && _); [rewrite terminal_printerr_detail_quiet|]; now repeat split.
  - unfold option_hide_menubar_callback. destruct (negb _); [|now repeat split].
    destruct (top_window o) as [iw|]; [|exact I].
    destruct (_ && _); [rewrite terminal_printerr_detail_quiet|]; now repeat split.
  - unfold option_maximize_callback. destruct (negb _); now repeat split.
  - unfold option_fullscreen_callback. destruct (negb _); now repeat split.
  - unfold option_geometry_callback. destruct (negb _); now repeat split.
  - unfold option_role_callback. destruct (negb _); [now repeat split|].
    destruct (is_null _); now repeat split.
  - unfold option_active_callback. now apply printed_nothing_store.
  - unfold option_command_callback, deprecated_command_option_warning,
      deprecated_option_warning.
    rewrite !terminal_printerr_quiet.
    destruct (g_shell_parse_argv E value); [|now repeat split].
    destruct (negb _); [|now repeat split]. now apply printed_nothing_store.
  - unfold option_profile_cb.
    destruct (terminal_profiles_list_dup_uuid_or_name E (Some value));
      [apply store_profile_printed_nothing|].
    rewrite terminal_printerr_quiet.
    destruct (terminal_profiles_list_dup_uuid_or_name E None);
      [apply store_profile_printed_nothing|now repeat split].
  - unfold option_profile_id_cb.
    destruct (terminal_profiles_list_dup_uuid E value);
      [apply store_profile_printed_nothing|now repeat split].
  - unfold option_title_callback. destruct (negb _); [|now repeat split].
    now apply printed_nothing_store.
  - unfold option_working_directory_callback. destruct (negb _); [|now repeat split].
    now apply printed_nothing_store.
  - unfold option_wait_cb. destruct (any_wait o); [now repeat split|].
    now apply printed_nothing_store.
  - unfold option_pass_fd_cb.
    destruct (_ || _ || _ || _ || _); [now repeat split|].
    destruct (_ || _ || _); [now repeat split|].
    pose proof (ensure_top_tab_outcome o) as H.
    destruct (ensure_top_tab o) as [o1|e o1|o1|]; cbn [and_then];
      [|contradiction|contradiction|exact I].
    destruct H as (Ho & Hs & Hv).
    destruct (top_tab _) as [it|]; [|exact I].
    destruct (existsb _ _); [now repeat split|].
    destruct (g_unix_fd_list_append _ _ _) as [[idx l]|]; now repeat split.
  - unfold option_zoom_callback.
    destruct (g_strtod E value) as [z|]; [|now repeat split].
    destruct (PrimFloat.ltb z _); cbv beta iota zeta; rewrite ?terminal_printerr_quiet;
      match goal with |- context [if PrimFloat.ltb ?a ?b then _ else _] =>
        destruct (PrimFloat.ltb a b) end;
      cbv beta iota zeta; rewrite ?terminal_printerr_quiet;
      (destruct (negb _); [|now repeat split]); now apply printed_nothing_store.
Qed.

End Quiet.

Lemma digest_events_printed_nothing (E : Env) (evs : list event) (o : TerminalOptions) :
  verbosity o < TERMINAL_VERBOSITY_NORMAL E ->
  verbosity o < TERMINAL_VERBOSITY_DETAIL E ->
  forallb (fun ev => negb (is_verbosity ev || is_version ev)) evs = true ->
  printed_nothing o (digest_events E evs o).
Proof.
  revert o. induction evs as [|ev evs IH]; intros o Hn Hd Hevs; cbn [digest_events].
  - now repeat split.
  - cbn [forallb] in Hevs. apply andb_true_iff in Hevs. destruct Hevs as [Hev Hevs].
    apply negb_true_iff in Hev.
    pose proof (digest_event_printed_nothing E o Hn Hd ev Hev) as H.
    destruct (digest_event E ev o) as [o1|e o1|o1|]; cbn [and_then];
      [|exact H|exact H|exact I].
    destruct H as (Ho & Hs & Hv).
    assert (H1 : printed_nothing o1 (digest_events E evs o1))
      by (apply IH; [now rewrite Hv|now rewrite Hv|exact Hevs]).
    destruct (digest_events E evs o1) as [o2|e o2|o2|]; cbn in *;
      [| |exact H1|exact I];
      destruct H1 as (H1 & H2 & H3); repeat split; congruence.
Qed.

(** ** The command before any window *)

Section CommandOption.

Variable E : Env.

(** X10. Before any window is opened, [-e V] (or [--command V]) with a
    value that is none of [-x], [--execute] and [--] and that splits into
    a non-empty argument vector passes the prescan untouched and leaves
    the options as a command line ending in [--] followed by these
    arguments does: the arguments are buffered, [execute] is clear and no
    window is opened. The only difference is the deprecation notice the
    option prints. *)
Theorem command_option_is_dashdash (prog option_name value : string)
    (argv : list string) :
  option_name = "-e" \/ option_name = "--command" ->
  is_switch_arg value = false ->
  g_shell_parse_argv E value = Some argv ->
  argv <> [] ->
  prescan E [prog; option_name; value] (terminal_options_init E)
  = ([prog; option_name; value], terminal_options_init E) /\
  exists o1 o2,
    g_option_context_parse E [EvCommand option_name value]
      (snd (prescan E [prog; option_name; value] (terminal_options_init E))) = Done o1 /\
    g_option_context_parse E []
      (snd (prescan E (prog :: "--" :: argv) (terminal_options_init E))) = Done o2 /\
    set_stderr (stderr o1) o2 = o1 /\
    exec_argv o2 = Some argv /\ execute o2 = false /\ initial_windows o2 = [].
Proof.
  intros Hname Hvalue Hargv Hne.
  assert (Hpre : prescan E [prog; option_name; value] (terminal_options_init E)
                 = ([prog; option_name; value], terminal_options_init E)).
  { unfold prescan. cbn [tl List.length].
    rewrite prescan_loop_no_switch; [reflexivity|].
    constructor; [destruct Hname as [-> | ->]; reflexivity|].
    constructor; [exact Hvalue|constructor]. }
  split; [exact Hpre|]. rewrite Hpre. cbn [snd].
  unfold g_option_context_parse, prescan.
  cbn [tl List.length prescan_loop snd digest_events digest_event and_then].
  change (("--" =? "-x")%string) with false.
  change (("--" =? "--execute")%string) with false.
  change (("--" =? "--")%string) with true.
  cbn [orb negb andb].
  destruct argv as [|a argv]; [now elim Hne|]. cbn [is_nil snd].
  unfold option_command_callback. rewrite Hargv.
  destruct (warning_same_windows E option_name (terminal_options_init E)) as [Hw _].
  rewrite Hw. cbn [initial_windows terminal_options_init is_nil negb and_then].
  unfold digest_options_callback.
  assert (Hx : execute (set_exec_argv (Some (a :: argv))
                          (deprecated_command_option_warning E option_name
                             (terminal_options_init E))) = false).
  { unfold deprecated_command_option_warning, deprecated_option_warning,
      terminal_printerr, terminal_fprintf. cbn.
    repeat match goal with |- context [if ?b then _ else _] => destruct b end;
      reflexivity. }
  rewrite Hx. cbn [execute set_execute set_exec_argv].
  do 2 eexists. split; [reflexivity|]. split; [reflexivity|].
  split; [|now repeat split].
  unfold deprecated_command_option_warning, deprecated_option_warning,
    terminal_printerr, terminal_fprintf. cbn.
  repeat match goal with |- context [if ?b then _ else _] => destruct b end;
    reflexivity.
Qed.

End CommandOption.

(** ** Command lines that load no document *)

Section NoLoadConfig.

Variable E : Env.

Lemma digest_options_callback_windows_have_tabs (o : TerminalOptions) :
  windows_have_tabs o ->
  digest_options_callback o <> Aborted /\
  forall o', digest_options_callback o = Done o' -> windows_have_tabs o'.
Proof.
  intros Hinv. unfold digest_options_callback.
  destruct (execute o); [|split; [discriminate|intros o' H; now injection H as <-]].
  destruct (exec_argv o) as [argv|]; [|split; discriminate].
  destruct (initial_windows o) as [|w ws] eqn:Hw.
  - rewrite (ensure_top_tab_empty o Hw). cbn [and_then]. split; [discriminate|].
    intros o' H. injection H as <-.
    destruct (add_new_window_windows o None true) as (iw & Hiw & Ht & _).
    rewrite Hw in Hiw. cbn in Hiw. unfold windows_have_tabs. cbn.
    rewrite Hiw. cbn. rewrite Ht. cbn. constructor; [discriminate|constructor].
  - destruct (list_last_split _ (w :: ws)) as (l & iw & Hl); [discriminate|].
    rewrite Hl in Hw. unfold windows_have_tabs in Hinv. rewrite Hw in Hinv.
    apply Forall_app in Hinv. destruct Hinv as [H1 H2].
    inversion H2 as [|? ? Hiw _]; subst.
    destruct (list_last_split _ (iw_tabs iw) Hiw) as (ts & it & Ht).
    rewrite (ensure_top_tab_some o l iw ts it Hw Ht). cbn [and_then].
    split; [discriminate|]. intros o' H. injection H as <-.
    unfold windows_have_tabs. cbn [initial_windows set_exec_argv].
    rewrite (with_top_tab_app _ o l iw ts it Hw Ht).
    apply Forall_app. split; [exact H1|]. constructor; [|constructor].
    cbn. now destruct ts.
Qed.

Lemma digest_events_windows_have_tabs (evs : list event) (o : TerminalOptions) :
  windows_have_tabs o ->
  forallb (fun ev => negb (is_load_config ev)) evs = true ->
  digest_events E evs o <> Aborted /\
  forall o', digest_events E evs o = Done o' -> windows_have_tabs o'.
Proof.
  revert o. induction evs as [|ev evs IH]; intros o Hinv Hevs; cbn [digest_events].
  - split; [discriminate|]. intros o' H. now injection H as <-.
  - cbn [forallb] in Hevs. apply andb_true_iff in Hevs. destruct Hevs as [Hev Hevs].
    apply negb_true_iff in Hev.
    pose proof (digest_event_not_aborted E ev o Hinv) as Hna.
    pose proof (digest_event_windows_have_tabs E ev o) as Hstep.
    destruct (digest_event E ev o) as [o1|e o1|o1|]; cbn [and_then].
    + apply IH; [|exact Hevs]. now apply (Hstep o1).
    + split; discriminate.
    + split; discriminate.
    + now elim Hna.
Qed.

(** X11. A command line without [--load-config] never runs into the
    assertion of [ensure_top_window], and when it is digested to the end
    every window of the tree has at least one tab: the callbacks and the
    post-parse hook keep that every window has a tab. *)
Theorem command_line_windows_have_tabs (evs : list event) (o : TerminalOptions) :
  windows_have_tabs o ->
  forallb (fun ev => negb (is_load_config ev)) evs = true ->
  g_option_context_parse E evs o <> Aborted /\
  forall o', g_option_context_parse E evs o = Done o' -> windows_have_tabs o'.
Proof.
  intros Hinv Hevs. unfold g_option_context_parse.
  destruct (digest_events_windows_have_tabs evs o Hinv Hevs) as [Hna Hdone].
  destruct (digest_events E evs o) as [o1|e o1|o1|]; cbn [and_then].
  - apply digest_options_callback_windows_have_tabs. now apply Hdone.
  - split; discriminate.
  - split; discriminate.
  - now elim Hna.
Qed.

End NoLoadConfig.

(** ** Quiet runs *)

Section QuietRun.

Variable E : Env.

(** X9. While [verbosity] is below the level of the ordinary and of the
    detailed messages, a run of options other than [--verbose], [--quiet]
    and [--version] writes nothing to [stdout] or [stderr] through
    [terminal_fprintf], whether it is digested to the end or stopped by a
    callback that returns [FALSE], leaves [verbosity] as it was, and does
    not exit. It can only stop at the failed assertion (whose message is
    GLib's) when the run loads a document or a window without tabs was
    there from the start. So after [--quiet] (or [-q]), which sets
    [verbosity] to 0, the same holds for the options that follow, when
    both levels are positive. *)
Theorem quiet_prints_nothing (evs : list event) (o : TerminalOptions) :
  forallb (fun ev => negb (is_verbosity ev || is_version ev)) evs = true ->
  (verbosity o < TERMINAL_VERBOSITY_NORMAL E ->
   verbosity o < TERMINAL_VERBOSITY_DETAIL E ->
   match digest_events E evs o with
   | Done o' | Failed _ o' =>
       stdout o' = stdout o /\ stderr o' = stderr o /\ verbosity o' = verbosity o
   | Exited _ => False
   | Aborted => existsb is_load_config evs = true \/ ~ windows_have_tabs o
   end) /\
  (0 < TERMINAL_VERBOSITY_NORMAL E ->
   0 < TERMINAL_VERBOSITY_DETAIL E ->
   forall option_name,
     option_name = "--quiet" \/ option_name = "-q" ->
     match digest_events E (EvVerbosity option_name :: evs) o with
     | Done o' | Failed _ o' =>
         stdout o' = stdout o /\ stderr o' = stderr o /\ verbosity o' = 0
     | Exited _ => False
     | Aborted => existsb is_load_config evs = true \/ ~ windows_have_tabs o
     end).
Proof.
  intros Hevs.
  assert (Hrun : forall o0,
            windows_have_tabs o0 <-> windows_have_tabs o ->
            verbosity o0 < TERMINAL_VERBOSITY_NORMAL E ->
            verbosity o0 < TERMINAL_VERBOSITY_DETAIL E ->
            match digest_events E evs o0 with
            | Done o' | Failed _ o' =>
                stdout o' = stdout o0 /\ stderr o' = stderr o0 /\
                verbosity o' = verbosity o0
            | Exited _ => False
            | Aborted => existsb is_load_config evs = true \/ ~ windows_have_tabs o
            end).
  { intros o0 Hiff Hn Hd.
    pose proof (digest_events_printed_nothing E evs o0 Hn Hd Hevs) as H.
    destruct (digest_events E evs o0) as [o'|e o'|o'|] eqn:Hrun;
      [exact H|exact H|exact H|].
    destruct (existsb is_load_config evs) eqn:Hload; [now left|right].
    intros Hinv. apply Hiff in Hinv.
    now apply (proj1 (digest_events_windows_have_tabs E evs o0 Hinv
                        (forallb_negb_existsb _ _ Hload))). }
  split.
  - intros Hn Hd. now apply Hrun.
  - intros Hn Hd option_name Hq.
    cbn [digest_events digest_event]. unfold option_verbosity_cb.
    assert (Hname : (option_name =? "--quiet")%string || (option_name =? "-q")%string = true).
    { destruct Hq as [-> | ->]; reflexivity. }
    rewrite Hname. cbn [and_then].
    now apply (Hrun (set_verbosity 0 o)).
Qed.

End QuietRun.

(** ** Prescanning twice *)

Section PrescanTwice.

Variable E : Env.

Lemma first_switch_split (args : list string) :
  Forall (fun a => is_switch_arg a = false) args \/
  exists pre m post,
    args = pre ++ m :: post /\
    Forall (fun a => is_switch_arg a = false) pre /\
    is_switch_arg m = true.
Proof.
  induction args as [|a args IH]; [left; constructor|].
  destruct (is_switch_arg a) eqn:Ha.
  - right. exists [], a, args. repeat split; [constructor|exact Ha].
  - destruct IH as [IH|(pre & m & post & -> & Hpre & Hm)].
    + left. now constructor.
    + right. exists (a :: pre), m, post. repeat split; [now constructor|exact Hm].
Qed.

Lemma prescan_vector (argv0 : string) (args : list string) (o : TerminalOptions) :
  (Forall (fun a => is_switch_arg a = false) args ->
   fst (prescan E (argv0 :: args) o) = argv0 :: args) /\
  (forall pre m post,
     args = pre ++ m :: post ->
     Forall (fun a => is_switch_arg a = false) pre ->
     is_switch_arg m = true ->
     fst (prescan E (argv0 :: args) o)
     = if is_nil post then argv0 :: args else argv0 :: pre).
Proof.
  split.
  - intros H. unfold prescan. cbn [tl]. rewrite (prescan_loop_no_switch E _ _ _ _ H).
    cbn [fst]. apply firstn_all.
  - intros pre m post -> Hpre Hm. unfold prescan. cbn [tl].
    rewrite (prescan_loop_switch E _ _ _ _ _ _ Hpre Hm). cbv zeta.
    destruct post as [|p post]; cbn [is_nil fst].
    + apply firstn_all.
    + cbn [Nat.add firstn]. f_equal.
      rewrite firstn_app, firstn_all, Nat.sub_diag. cbn. apply app_nil_r.
Qed.

(** X12. The vector the prescan hands on is an initial part of the
    vector it was given, and prescanning it again gives the same vector:
    what was cut is never cut further. *)
Theorem prescan_idempotent (argv : list string) (o o2 : TerminalOptions) :
  (exists cut, argv = fst (prescan E argv o) ++ cut) /\
  fst (prescan E (fst (prescan E argv o)) o2) = fst (prescan E argv o).
Proof.
  destruct argv as [|argv0 args].
  - split; [now exists []|reflexivity].
  - destruct (prescan_vector argv0 args o) as [Hno Hsw].
    destruct (first_switch_split args) as [Hall|(pre & m & post & Heq & Hpre & Hm)].
    + rewrite (Hno Hall). split; [exists []; now rewrite app_nil_r|].
      now apply prescan_vector.
    + rewrite (Hsw pre m post Heq Hpre Hm).
      destruct post as [|p post]; cbn [is_nil].
      * split; [exists []; now rewrite app_nil_r|].
        destruct (prescan_vector argv0 args o2) as [_ Hsw2].
        now rewrite (Hsw2 pre m [] Heq Hpre Hm).
      * split; [exists (m :: p :: post); now rewrite Heq|].
        now apply prescan_vector.
Qed.

End PrescanTwice.

(** ** The descriptors that are forwarded *)

Section PassFdAccepted.

Variable E : Env.

Lemma option_pass_fd_cb_done_dup (value : string) (o o' : TerminalOptions) (fd : Z) :
  parse_fd value = Some fd ->
  option_pass_fd_cb E value o = Done o' ->
  (0 <=? fd) && fd_can_dup E fd = true /\ is_stdio fd = false /\ fd <= G_MAXINT.
Proof.
  unfold option_pass_fd_cb, parse_fd, is_stdio.
  set (v := sl_value (g_ascii_strtoll value)).
  destruct (sl_errno (g_ascii_strtoll value) || sl_end_is_value (g_ascii_strtoll value)
            || (v =? -1) || (v <? G_MININT) || (v >? G_MAXINT)) eqn:Hc; [discriminate|].
  intros Hp. injection Hp as <-.
  destruct ((v =? STDIN_FILENO) || (v =? STDOUT_FILENO) || (v =? STDERR_FILENO));
    [discriminate|].
  destruct (ensure_top_tab o) as [o1| | |]; try discriminate. cbn [and_then].
  destruct (top_tab _) as [it|]; [|discriminate].
  destruct (existsb _ _); [discriminate|].
  unfold g_unix_fd_list_append.
  destruct ((0 <=? v) && fd_can_dup E v); [|discriminate].
  intros _. split; [reflexivity|]. split; [reflexivity|].
  apply orb_false_iff in Hc. destruct Hc as [_ Hc].
  rewrite Z.gtb_ltb in Hc. apply Z.ltb_ge in Hc. exact Hc.
Qed.

Lemma target_fds_appended (it : InitialTab) (fd : Z) (l : list Z) (idx : Z) :
  target_fds (set_it_fds (Some l)
                (Some (or_empty (it_fd_array it) ++ [Build_PassFdElement idx fd])) it)
  = target_fds it ++ [fd].
Proof. unfold target_fds. cbn. now rewrite map_app. Qed.

Lemma option_pass_fd_cb_current (value : string) (o o' : TerminalOptions) (fd : Z) :
  parse_fd value = Some fd ->
  option_pass_fd_cb E value o = Done o' ->
  current_target_fds o' = current_target_fds o ++ [fd].
Proof.
  intros Hp H. unfold current_target_fds, top_tab.
  destruct (initial_windows o) as [|w ws] eqn:Hw.
  - pose proof (tab_flag_without_window E (EvPassFd value) o o' eq_refl Hw H) as Hn.
    cbn [always_ensures_tab tab_effect] in Hn.
    destruct Hn as (iw & it & Hw' & Ht & _ & fd' & Hp' & Hit).
    rewrite Hp in Hp'. injection Hp' as <-.
    unfold top_window. rewrite Hw, Hw'. cbn. rewrite Ht. cbn. rewrite Hit.
    now rewrite target_fds_appended.
  - destruct (list_last_split _ (w :: ws)) as (l & iw & Hl); [discriminate|].
    rewrite Hl in Hw.
    destruct (tab_flag_on_window E (EvPassFd value) o o' l iw eq_refl Hw H)
      as (ts & it & it' & Ht & Hw' & fd' & Hp' & Hit).
    rewrite Hp in Hp'. injection Hp' as <-.
    rewrite (top_window_app _ _ _ Hw), (top_window_app _ _ _ Hw').
    cbn [iw_tabs set_iw_tabs]. rewrite Ht, !g_list_last_app, Hit.
    now rewrite target_fds_appended.
Qed.

(** X13. When [--fd] succeeds, the descriptor it forwards is the number
    at the start of its value, it lies between 3 and the largest [int],
    the descriptor list could take it, and it is the last descriptor of
    the tab the option wrote to, after the descriptors that tab forwarded
    before. *)
Theorem option_pass_fd_cb_accepts (value : string) (o o' : TerminalOptions) :
  option_pass_fd_cb E value o = Done o' ->
  exists fd,
    parse_fd value = Some fd /\
    3 <= fd <= G_MAXINT /\
    fd_can_dup E fd = true /\
    current_target_fds o' = current_target_fds o ++ [fd].
Proof.
  intros H.
  destruct (option_pass_fd_cb_step E value o o' H) as (_ & fd & Hp & _).
  destruct (option_pass_fd_cb_done_dup value o o' fd Hp H) as (Hdup & Hstd & Hmax).
  apply andb_true_iff in Hdup. destruct Hdup as [H0 Hcan]. apply Z.leb_le in H0.
  destruct (is_stdio_false fd Hstd) as (N0 & N1 & N2).
  exists fd. split; [exact Hp|]. split; [lia|]. split; [exact Hcan|].
  exact (option_pass_fd_cb_current value o o' fd Hp H).
Qed.

End PassFdAccepted.

(** ** Text after the descriptor number *)

Section PassFdText.

Variable E : Env.

Lemma g_ascii_strtoll_text_after_5 (c : ascii) (text : string) :
  g_ascii_digit_value c = None ->
  g_ascii_strtoll (String "5" (String c text)) = Build_strtoll_result 5 false false.
Proof.
  intros Hc. unfold g_ascii_strtoll.
  cbn [skip_space g_ascii_isspace N_of_ascii].
  change (g_ascii_isspace "5") with false. cbv iota.
  cbn [read_digits]. change (g_ascii_digit_value "5") with (Some 5).
  cbv iota beta. cbn [read_digits]. rewrite Hc. reflexivity.
Qed.

(** C6: [--fd 5abc]. [g_ascii_strtoll] stops at the first character
    that is no digit, and of [end] the callback only asks whether it is
    [value]: a value made of the digit 5 and any text that does not go on
    with a digit is not refused as a parse error, it is read as the
    descriptor 5. When the current tab does not forward 5 yet and the
    descriptor can be duplicated, the option succeeds and appends 5 to the
    descriptors of that tab. *)
Theorem pass_fd_accepts_text_after_the_number (c : ascii) (text : string)
    (o : TerminalOptions) :
  g_ascii_digit_value c = None ->
  top_has_tab o ->
  ~ In 5 (current_target_fds o) ->
  fd_can_dup E 5 = true ->
  sl_value (g_ascii_strtoll (String "5" (String c text))) = 5 /\
  option_pass_fd_cb E (String "5" (String c text)) o
    <> Failed (ErrFdParse (String "5" (String c text))) o /\
  exists o',
    option_pass_fd_cb E (String "5" (String c text)) o = Done o' /\
    current_target_fds o' = current_target_fds o ++ [5].
Proof.
  intros Hc Htop Hnin Hdup.
  pose proof (g_ascii_strtoll_text_after_5 c text Hc) as Hs.
  assert (Hp : parse_fd (String "5" (String c text)) = Some 5).
  { unfold parse_fd. rewrite Hs. reflexivity. }
  destruct (ensure_top_tab_current o Htop) as (o1 & l & iw & ts & it & He & Hw & Ht & Hcur).
  pose proof (option_pass_fd_cb_after_ensure E _ o o1 l iw ts it 5 Hp eq_refl He Hw Ht)
    as Hcb.
  cbv zeta in Hcb. rewrite Hdup in Hcb. cbn [Z.leb andb] in Hcb.
  rewrite <- Hcur in Hnin. unfold target_fds in Hnin.
  rewrite (existsb_fd_not_in 5 _ Hnin) in Hcb.
  split; [now rewrite Hs|]. split; [rewrite Hcb; discriminate|].
  eexists. split; [exact Hcb|].
  exact (option_pass_fd_cb_current E _ o _ 5 Hp Hcb).
Qed.

End PassFdText.

(** ** Profiles that are not found *)

Section ProfileFallback.

Variable E : Env.


End ProfileFallback.

(** ** The implicit first window *)

Section ImplicitFirst.

Variable E : Env.

Lemma implicit_only_first_flags (o o' : TerminalOptions) :
  map iw_implicit_first_window (initial_windows o')
  = map iw_implicit_first_window (initial_windows o) ->
  implicit_only_first o -> implicit_only_first o'.
Proof.
  unfold implicit_only_first. intros Hmap Hinv.
  assert (H : forall l, Forall (fun iw => iw_implicit_first_window iw = false) (tl l) <->
                        Forall (fun b => b = false) (tl (map iw_implicit_first_window l))).
  { intros l. destruct l as [|w l]; cbn; [split; constructor|]. now rewrite Forall_map. }
  apply H. rewrite Hmap. now apply H.
Qed.

Lemma implicit_only_first_app (o o' : TerminalOptions) (new : list InitialWindow) :
  initial_windows o' = initial_windows o ++ new ->
  Forall (fun iw => iw_implicit_first_window iw = false) (tl new) ->
  (initial_windows o <> [] -> Forall (fun iw => iw_implicit_first_window iw = false) new) ->
  implicit_only_first o -> implicit_only_first o'.
Proof.
  unfold implicit_only_first. intros -> Htl Hall Hinv.
  destruct (initial_windows o) as [|w l]; cbn in *; [exact Htl|].
  apply Forall_app. split; [exact Hinv|]. now apply Hall.
Qed.

Lemma implicit_only_first_last (o o' : TerminalOptions) (l : list InitialWindow)
    (iw iw' : InitialWindow) :
  initial_windows o = l ++ [iw] -> initial_windows o' = l ++ [iw'] ->
  iw_implicit_first_window iw' = iw_implicit_first_window iw ->
  implicit_only_first o -> implicit_only_first o'.
Proof.
  intros Hw Hw' Hi. apply implicit_only_first_flags.
  rewrite Hw, Hw', !map_app. cbn. now rewrite Hi.
Qed.

Lemma implicit_only_first_single (o' : TerminalOptions) (l : list InitialWindow) :
  initial_windows o' = l -> (List.length l <= 1)%nat -> implicit_only_first o'.
Proof.
  unfold implicit_only_first. intros -> Hlen.
  destruct l as [|w [|w' l]]; cbn in *; [constructor|constructor|lia].
Qed.

Lemma window_store_implicit (ev : event) (iw : InitialWindow) :
  iw_implicit_first_window (window_store ev iw) = iw_implicit_first_window iw.
Proof. now destruct ev. Qed.

Lemma add_new_window_implicit_only_first (o0 o : TerminalOptions)
    (profile : option string) (implicit : bool) :
  initial_windows o0 = initial_windows o ->
  (initial_windows o <> [] -> implicit = false) ->
  implicit_only_first o -> implicit_only_first (add_new_window o0 profile implicit).
Proof.
  intros Hw Himp.
  destruct (add_new_window_windows o0 profile implicit) as (iw & Hiw & _ & Hi & _).
  rewrite Hw in Hiw, Hi.
  apply (implicit_only_first_app o _ [iw] Hiw); [constructor|].
  intros Hne. constructor; [|constructor]. rewrite Hi, (Himp Hne). apply andb_false_r.
Qed.

Lemma merge_config_implicit_only_first (o o' : TerminalOptions) (key_file : GKeyFile)
    (tag : Z) :
  terminal_options_merge_config E o key_file tag = Done o' ->
  implicit_only_first o -> implicit_only_first o'.
Proof.
  intros H.
  destruct (merge_config_Forall2 E key_file tag
              (fun _ iw => iw_implicit_first_window iw = false)) with (o := o) (o' := o')
    as (groups & built & _ & Hw & Hall); [|exact H|].
  - intros g tgs o0 Htg Herr.
    now destruct (merge_window_contents E key_file tag g tgs o0 Htg Herr)
      as ((_ & _ & Hi & _) & _).
  - assert (Hb : Forall (fun iw => iw_implicit_first_window iw = false) built).
    { clear - Hall. induction Hall; constructor; assumption. }
    apply (implicit_only_first_app o o' built Hw); [|now intros _].
    destruct built; cbn; [constructor|now inversion Hb].
Qed.

Lemma digest_event_implicit_only_first (ev : event) (o o' : TerminalOptions) :
  digest_event E ev o = Done o' ->
  implicit_only_first o -> implicit_only_first o'.
Proof.
  intros H.
  destruct (is_window_flag ev || is_tab_flag ev) eqn:Hflag.
  - destruct (initial_windows o) as [|w ws] eqn:Hw.
    + intros _. destruct (is_window_flag ev) eqn:Hwf.
      * destruct (window_flag_on_defaults E ev o o' Hwf Hw H) as (Hw' & _).
        apply (implicit_only_first_single o' [] Hw'). cbn. lia.
      * cbn in Hflag. pose proof (tab_flag_without_window E ev o o' Hflag Hw H) as Hn.
        destruct (always_ensures_tab ev).
        -- destruct Hn as (iw & it & Hw' & _).
           apply (implicit_only_first_single o' [iw] Hw'). cbn. lia.
        -- destruct Hn as (Hw' & _).
           apply (implicit_only_first_single o' [] Hw'). cbn. lia.
    + destruct (list_last_split _ (w :: ws)) as (l & iw & Hl); [discriminate|].
      rewrite Hl in Hw. destruct (is_window_flag ev) eqn:Hwf.
      * apply (implicit_only_first_last o o' l iw _ Hw
                 (window_flag_on_window E ev o o' l iw Hwf Hw H)).
        apply window_store_implicit.
      * cbn in Hflag.
        destruct (tab_flag_on_window E ev o o' l iw Hflag Hw H)
          as (ts & it & it' & _ & Hw' & _).
        now apply (implicit_only_first_last o o' l iw _ Hw Hw').
  - destruct ev; try discriminate Hflag; cbn [digest_event] in H.
    + discriminate.
    + unfold option_app_id_callback in H.
      destruct (negb _); [discriminate|]. now injection H as <-.
    + discriminate.
    + unfold unsupported_option_callback in H. injection H as <-.
      apply implicit_only_first_flags. f_equal. apply terminal_fprintf_same.
    + unfold option_load_config_cb in H.
      destruct (g_key_file_load_from_file E value) as [kf|]; [|discriminate].
      now apply merge_config_implicit_only_first with kf
        (if (option_name =? "load-config")%string then SOURCE_DEFAULT E else SOURCE_SESSION E).
    + unfold option_verbosity_cb in H. destruct (_ || _); now injection H as <-.
    + unfold option_window_callback in H. destruct value as [v|].
      * destruct (terminal_profiles_list_dup_uuid_or_name E (Some v)).
        -- injection H as <-. now apply add_new_window_implicit_only_first.
        -- destruct (terminal_profiles_list_dup_uuid_or_name E None); [|discriminate].
           injection H as <-. apply add_new_window_implicit_only_first; [|reflexivity].
           apply terminal_fprintf_same.
      * injection H as <-. now apply add_new_window_implicit_only_first.
    + assert (Ha : forall p, implicit_only_first o -> implicit_only_first (add_tab p o)).
      { intros p. unfold add_tab. destruct (initial_windows o) as [|w ws] eqn:Hw.
        - cbn [is_nil negb]. apply add_new_window_implicit_only_first; [reflexivity|].
          rewrite Hw. now intros Hne.
        - destruct (list_last_split _ (w :: ws)) as (l & iw & Hl); [discriminate|].
          cbn [is_nil negb]. rewrite Hl in Hw.
          apply (implicit_only_first_last o _ l iw _ Hw
                   (with_top_window_app
                      (fun x => set_iw_tabs (iw_tabs x ++ [initial_tab_new p]) x) o l iw Hw)).
          reflexivity. }
      unfold option_tab_callback in H. destruct value as [v|].
      * destruct (terminal_profiles_list_dup_uuid_or_name E (Some v)); [|discriminate].
        injection H as <-. apply Ha.
      * injection H as <-. apply Ha.
Qed.

Lemma digest_options_callback_implicit_only_first (o o' : TerminalOptions) :
  digest_options_callback o = Done o' ->
  implicit_only_first o -> implicit_only_first o'.
Proof.
  unfold digest_options_callback. destruct (execute o); [|intros H; now injection H as <-].
  destruct (exec_argv o) as [argv|]; [|discriminate].
  destruct (ensure_top_tab o) as [o1| | |] eqn:He; try discriminate. cbn [and_then].
  intros H. injection H as <-.
  destruct (initial_windows o) as [|w ws] eqn:Hw.
  - intros _. rewrite (ensure_top_tab_empty o Hw) in He. injection He as <-.
    destruct (add_new_window_windows o None true) as (iw & Hiw & Ht & _).
    rewrite Hw in Hiw. cbn in Hiw.
    pose proof (with_top_tab_app (set_it_exec_argv (Some argv)) _ [] iw []
                  (initial_tab_new None) Hiw Ht) as Hw'.
    refine (implicit_only_first_single _ _ Hw' _). cbn. lia.
  - destruct (list_last_split _ (w :: ws)) as (l & iw & Hl); [discriminate|].
    rewrite Hl in Hw.
    destruct (iw_tabs iw) as [|t ts0] eqn:Ht.
    + rewrite (ensure_top_tab_no_tabs o l iw Hw Ht) in He. discriminate.
    + destruct (list_last_split _ (t :: ts0)) as (ts & it & Hts); [discriminate|].
      rewrite Hts in Ht.
      rewrite (ensure_top_tab_some o l iw ts it Hw Ht) in He. injection He as <-.
      pose proof (with_top_tab_app (set_it_exec_argv (Some argv)) o l iw ts it Hw Ht) as Hw'.
      now apply (implicit_only_first_last o _ l iw _ Hw Hw').
Qed.

(** X15. In the tree of every command line that is digested to the end,
    only the first window can be marked as implicit: the callbacks, the
    merge of a document and the post-parse hook never mark a window that
    is opened after another one. *)
Theorem implicit_window_is_the_first (evs : list event) (o o' : TerminalOptions) :
  implicit_only_first o ->
  g_option_context_parse E evs o = Done o' ->
  implicit_only_first o'.
Proof.
  unfold g_option_context_parse. revert o.
  induction evs as [|ev evs IH]; intros o Hinv; cbn [digest_events and_then].
  - intros H. now apply (digest_options_callback_implicit_only_first o o').
  - destruct (digest_event E ev o) as [o1| | |] eqn:Hev; try discriminate.
    cbn [and_then]. apply IH. now apply (digest_event_implicit_only_first ev o o1).
Qed.

End ImplicitFirst.

(** ** The defaults a new window takes *)

Section WindowsOpened.

Variable E : Env.




End WindowsOpened.

(** ** The fields a merged window takes from its document *)

Section MergedFields.

Variable E : Env.
Variable key_file : GKeyFile.
Variable source_tag : Z.



End MergedFields.

(** ** Defaults and context *)

Section DefaultsReach.

Variable E : Env.



End DefaultsReach.

(** ** Defaults and context on sample command lines *)


(** [--role r --full-screen --load-config session.conf]: the windows
    built from the document have the roles and the fullscreen state of
    their window groups, not those given on the command line. *)
Example role_default_not_kept_by_merged_window :
  exists o',
    digest_events sample_env
      [EvRole "r"; EvFullscreen; EvLoadConfig "load-config" "session.conf"] sample_options
    = Done o' /\
    map iw_role (initial_windows o') = [Some "editor"; None] /\
    map iw_start_fullscreen (initial_windows o') = [false; false].
Proof.
  eexists. split; [vm_compute; reflexivity|]. split; vm_compute; reflexivity.
Qed.



(** [--fd 5abc] on the options of an empty command line. *)
Lemma pass_fd_accepts_text_after_the_number_witness :
  g_ascii_digit_value "a" = None /\
  top_has_tab sample_options /\
  fd_can_dup sample_env 5 = true /\
  exists o',
    option_pass_fd_cb sample_env "5abc" sample_options = Done o' /\
    current_target_fds o' = [5].
Proof.
  split; [reflexivity|]. split; [left; reflexivity|]. split; [reflexivity|].
  exact (proj2 (proj2 (pass_fd_accepts_text_after_the_number sample_env "a" "bc"
                         sample_options eq_refl (or_introl eq_refl) (fun H => H)
                         eq_refl))).
Defined.

(** ** The further properties on sample command lines and documents *)

(** The setting reads ["tab"] and there is no window. *)
Lemma terminal_options_ensure_window_once_witness :
  initial_windows sample_options = [] /\
  exists o' iw,
    terminal_options_ensure_window "tab" sample_options = Done o' /\
    initial_windows o' = [iw] /\
    iw_tabs iw = [initial_tab_new None] /\
    iw_implicit_first_window iw = true.
Proof.
  split; [reflexivity|].
  exact (proj1 (terminal_options_ensure_window_once "tab" sample_options) eq_refl).
Defined.

(** [--role editor --fullscreen --window --window --window]. *)
Lemma default_role_once_fullscreen_every_time_witness :
  default_role role_and_fullscreen_defaults = Some "editor" /\
  exists o' w1 later,
    digest_events sample_env (repeat (EvWindow None) 3) role_and_fullscreen_defaults
      = Done o' /\
    initial_windows o' = initial_windows role_and_fullscreen_defaults ++ w1 :: later /\
    List.length later = 2%nat /\
    iw_role w1 = Some "editor" /\
    Forall (fun w => iw_role w = None) later /\
    default_role o' = None /\
    Forall (fun w => iw_start_fullscreen w = true /\
                     iw_start_maximized w = false /\
                     iw_implicit_first_window w = false) (w1 :: later).
Proof.
  split; [reflexivity|].
  exact (default_role_once_fullscreen_every_time sample_env role_and_fullscreen_defaults
           2 "editor" eq_refl).
Defined.

(** [--tab --tab --tab]. *)
Lemma tabs_share_one_window_witness :
  initial_windows sample_options = [] /\
  exists o' iw,
    digest_events sample_env [EvTab None; EvTab None; EvTab None] sample_options = Done o' /\
    initial_windows o' = [iw] /\
    iw_implicit_first_window iw = true /\
    iw_tabs iw = [initial_tab_new None; initial_tab_new None; initial_tab_new None].
Proof.
  split; [reflexivity|].
  exact (proj1 (tabs_share_one_window sample_env 2 sample_options) eq_refl).
Defined.

(** [--zoom nan], [--zoom 9] and [--zoom 0.5] with a scale between 1/4
    and 4: NaN is stored, 4 for the 9, and 0.5 as it is. *)
Lemma option_zoom_callback_clamps_witness :
  g_strtod sample_env "nan" = Some nan /\
  g_strtod sample_env "9" = Some 9%float /\
  initial_windows sample_options = [] /\
  zoom (options_of (option_zoom_callback sample_env "nan" sample_options)) = nan /\
  zoom (options_of (option_zoom_callback sample_env "9" sample_options))
    = TERMINAL_SCALE_MAXIMUM sample_env /\
  is_nan 0.5 = false /\
  PrimFloat.leb (TERMINAL_SCALE_MINIMUM sample_env + double_1e_6) 0.5 = true /\
  PrimFloat.leb 0.5 (TERMINAL_SCALE_MAXIMUM sample_env - double_1e_6) = true /\
  zoom_clamped sample_env 0.5 = 0.5%float.
Proof.
  split; [reflexivity|]. split; [reflexivity|]. split; [reflexivity|].
  split; [|split; [|split; [reflexivity|split; [reflexivity|split; [reflexivity|]]]]].
  - rewrite <- (proj2 (proj2 (proj2 (option_zoom_callback_clamps sample_env "nan"
                                       sample_options)))).
    exact (proj1 (proj2 (proj1 (proj1 (proj2 (option_zoom_callback_clamps sample_env "nan"
                                                 sample_options))
                                  nan _ eq_refl eq_refl) eq_refl))).
  - exact (proj1 (proj2 (proj1 (proj1 (proj2 (option_zoom_callback_clamps sample_env "9"
                                                 sample_options))
                                  9%float _ eq_refl eq_refl) eq_refl))).
  - exact (proj1 (proj2 (proj1 (proj2 (proj2 (option_zoom_callback_clamps sample_env "9"
                                                 sample_options)))
                                  0.5%float eq_refl eq_refl eq_refl))
             (conj eq_refl eq_refl)).
Defined.

(** The session document passes every test of the merge. *)
Lemma terminal_options_merge_config_succeeds_iff_witness :
  g_key_file_has_group (key_file_of session_document) (TERMINAL_CONFIG_GROUP sample_env)
    = true /\
  config_versions_ok sample_env (key_file_of session_document) = true /\
  has_bad_command sample_env (key_file_of session_document)
    ["Window0"; "Window1"; "Window2"] = false /\
  (exists o', terminal_options_merge_config sample_env sample_options
                (key_file_of session_document) 2 = Done o') /\
  terminal_options_merge_config sample_env sample_options (key_file_of []) 2
    = Failed ErrInvalidConfigFile sample_options.
Proof.
  split; [reflexivity|]. split; [reflexivity|]. split; [reflexivity|]. split.
  - apply (proj2 (proj1 (terminal_options_merge_config_succeeds_iff sample_env
                           (key_file_of session_document) 2 sample_options))).
    split; [reflexivity|]. split; [reflexivity|].
    exists ["Window0"; "Window1"; "Window2"]. split; reflexivity.
  - exact (proj1 (proj2 (terminal_options_merge_config_succeeds_iff sample_env
                           (key_file_of []) 2 sample_options)) eq_refl).
Defined.

(** A document whose only window group has no tab list, merged while a
    default role is set. *)
Lemma terminal_options_merge_config_nothing_to_open_witness :
  Forall (fun g => tab_groups_of sample_env (key_file_of no_tab_list_document) g = None)
    ["Window0"] /\
  terminal_options_merge_config sample_env role_and_fullscreen_defaults
    (key_file_of no_tab_list_document) 2 = Done role_and_fullscreen_defaults.
Proof.
  assert (H : Forall (fun g => tab_groups_of sample_env (key_file_of no_tab_list_document) g
                               = None) ["Window0"]).
  { constructor; [reflexivity|constructor]. }
  split; [exact H|].
  exact (terminal_options_merge_config_nothing_to_open sample_env
           (key_file_of no_tab_list_document) 2 role_and_fullscreen_defaults ["Window0"]
           eq_refl eq_refl eq_refl H).
Defined.

(** The session document, merged while a default role is set. *)
Lemma terminal_options_merge_config_frame_witness :
  surviving_groups sample_env (key_file_of session_document)
    ["Window0"; "Window1"; "Window2"] <> [] /\
  same_but_consumed role_and_fullscreen_defaults
    (options_of (terminal_options_merge_config sample_env role_and_fullscreen_defaults
                   (key_file_of session_document) 2)) /\
  default_role (options_of (terminal_options_merge_config sample_env
                              role_and_fullscreen_defaults
                              (key_file_of session_document) 2)) = None.
Proof.
  assert (Hne : surviving_groups sample_env (key_file_of session_document)
                  ["Window0"; "Window1"; "Window2"] <> []).
  { vm_compute. discriminate. }
  pose proof (terminal_options_merge_config_frame sample_env (key_file_of session_document)
                2 role_and_fullscreen_defaults) as H.
  destruct (terminal_options_merge_config sample_env role_and_fullscreen_defaults
              (key_file_of session_document) 2) as [o'|e o'|o'|]; cbn [options_of].
  - split; [exact Hne|]. split; [exact (proj1 H)|].
    exact (proj1 (proj2 H _ eq_refl eq_refl eq_refl Hne)).
  - split; [exact Hne|]. split; [exact (proj1 H)|].
    exact (proj1 (proj2 H _ eq_refl eq_refl eq_refl Hne)).
  - destruct H.
  - destruct H.
Defined.

(** The windows the session document gives. *)
Lemma terminal_options_merge_config_contents_witness :
  terminal_options_merge_config sample_env sample_options
    (key_file_of session_document) 2
  = Done (options_of (terminal_options_merge_config sample_env sample_options
                        (key_file_of session_document) 2)) /\
  exists groups built,
    g_key_file_get_string_list (key_file_of session_document)
      (TERMINAL_CONFIG_GROUP sample_env) (TERMINAL_CONFIG_PROP_WINDOWS sample_env)
      = Some groups /\
    initial_windows (options_of (terminal_options_merge_config sample_env sample_options
                                   (key_file_of session_document) 2))
      = initial_windows sample_options ++ built /\
    Forall2 (fun g iw => window_display_from sample_env (key_file_of session_document) g iw /\
                         window_tabs_from sample_env (key_file_of session_document) g iw)
      (surviving_groups sample_env (key_file_of session_document) groups) built.
Proof.
  split; [reflexivity|].
  exact (terminal_options_merge_config_contents sample_env (key_file_of session_document)
           2 sample_options _ eq_refl).
Defined.

(** [--quiet --window Nope --hide-menubar --hide-menubar]: neither the
    notice about the profile nor the one about the repeated option is
    printed. *)
Lemma quiet_prints_nothing_witness :
  forallb (fun ev => negb (is_verbosity ev || is_version ev))
    [EvWindow (Some "Nope"); EvHideMenubar; EvHideMenubar] = true /\
  0 < TERMINAL_VERBOSITY_NORMAL sample_env /\
  0 < TERMINAL_VERBOSITY_DETAIL sample_env /\
  match digest_events sample_env
          [EvVerbosity "--quiet"; EvWindow (Some "Nope"); EvHideMenubar; EvHideMenubar]
          sample_options with
  | Done o' | Failed _ o' =>
      stdout o' = stdout sample_options /\ stderr o' = stderr sample_options /\
      verbosity o' = 0
  | Exited _ => False
  | Aborted =>
      existsb is_load_config [EvWindow (Some "Nope"); EvHideMenubar; EvHideMenubar] = true \/
      ~ windows_have_tabs sample_options
  end.
Proof.
  split; [reflexivity|]. split; [reflexivity|]. split; [reflexivity|].
  exact (proj2 (quiet_prints_nothing sample_env
                  [EvWindow (Some "Nope"); EvHideMenubar; EvHideMenubar] sample_options
                  eq_refl) eq_refl eq_refl "--quiet" (or_introl eq_refl)).
Defined.

(** [gnome-terminal -e 'vim notes.txt'] and
    [gnome-terminal -- vim notes.txt]. *)
Lemma command_option_is_dashdash_witness :
  is_switch_arg "vim notes.txt" = false /\
  g_shell_parse_argv sample_env "vim notes.txt" = Some ["vim"; "notes.txt"] /\
  prescan sample_env ["gnome-terminal"; "-e"; "vim notes.txt"]
    (terminal_options_init sample_env)
  = (["gnome-terminal"; "-e"; "vim notes.txt"], terminal_options_init sample_env) /\
  exists o1 o2,
    g_option_context_parse sample_env [EvCommand "-e" "vim notes.txt"]
      (snd (prescan sample_env ["gnome-terminal"; "-e"; "vim notes.txt"]
              (terminal_options_init sample_env)))
      = Done o1 /\
    g_option_context_parse sample_env []
      (snd (prescan sample_env ["gnome-terminal"; "--"; "vim"; "notes.txt"]
              (terminal_options_init sample_env))) = Done o2 /\
    set_stderr (stderr o1) o2 = o1 /\
    exec_argv o2 = Some ["vim"; "notes.txt"] /\ execute o2 = false /\
    initial_windows o2 = [].
Proof.
  split; [reflexivity|]. split; [reflexivity|].
  apply (command_option_is_dashdash sample_env "gnome-terminal" "-e" "vim notes.txt"
           ["vim"; "notes.txt"]); [now left|reflexivity|reflexivity|discriminate].
Defined.

(** [gnome-terminal -e -x]: the prescan takes the value of [-e] for the
    execute switch. It is the last argument, so nothing is cut, but
    [execute] is set, and the hook opens a window for the command the
    option buffered. *)
Example command_value_taken_for_the_execute_switch :
  is_switch_arg "-x" = true /\
  execute (snd (prescan sample_env ["gnome-terminal"; "-e"; "-x"]
                  (terminal_options_init sample_env))) = true /\
  exists o' iw it,
    g_option_context_parse sample_env [EvCommand "-e" "-x"]
      (snd (prescan sample_env ["gnome-terminal"; "-e"; "-x"]
              (terminal_options_init sample_env))) = Done o' /\
    initial_windows o' = [iw] /\ iw_tabs iw = [it] /\ it_exec_argv it = Some ["-x"].
Proof.
  split; [reflexivity|]. split; [reflexivity|].
  do 3 eexists. split; [vm_compute; reflexivity|]. now repeat split.
Qed.

(** [--title x --tab --wait]. *)
Lemma command_line_windows_have_tabs_witness :
  windows_have_tabs sample_options /\
  g_option_context_parse sample_env [EvTitle "x"; EvTab None; EvWait] sample_options
    <> Aborted /\
  windows_have_tabs
    (options_of (g_option_context_parse sample_env [EvTitle "x"; EvTab None; EvWait]
                   sample_options)).
Proof.
  assert (H : windows_have_tabs sample_options) by constructor.
  assert (Hd : g_option_context_parse sample_env [EvTitle "x"; EvTab None; EvWait]
                 sample_options
               = Done (options_of (g_option_context_parse sample_env
                                     [EvTitle "x"; EvTab None; EvWait] sample_options)))
    by (vm_compute; reflexivity).
  split; [exact H|]. split.
  - exact (proj1 (command_line_windows_have_tabs sample_env
                    [EvTitle "x"; EvTab None; EvWait] sample_options H eq_refl)).
  - exact (proj2 (command_line_windows_have_tabs sample_env
                    [EvTitle "x"; EvTab None; EvWait] sample_options H eq_refl) _ Hd).
Defined.

(** [gnome-terminal --title x -- top -b]. *)
Lemma prescan_idempotent_witness :
  fst (prescan sample_env ["gnome-terminal"; "--title"; "x"; "--"; "top"; "-b"]
         sample_options) = ["gnome-terminal"; "--title"; "x"] /\
  fst (prescan sample_env
         (fst (prescan sample_env ["gnome-terminal"; "--title"; "x"; "--"; "top"; "-b"]
                 sample_options)) sample_options)
  = fst (prescan sample_env ["gnome-terminal"; "--title"; "x"; "--"; "top"; "-b"]
           sample_options).
Proof.
  split; [reflexivity|].
  exact (proj2 (prescan_idempotent sample_env
                  ["gnome-terminal"; "--title"; "x"; "--"; "top"; "-b"]
                  sample_options sample_options)).
Defined.

(** [--fd 5 --fd 6]: the second descriptor comes after the first. *)
Lemma option_pass_fd_cb_accepts_witness :
  option_pass_fd_cb sample_env "6"
    (options_of (option_pass_fd_cb sample_env "5" sample_options))
  = Done (options_of (option_pass_fd_cb sample_env "6"
                        (options_of (option_pass_fd_cb sample_env "5" sample_options)))) /\
  exists fd,
    parse_fd "6" = Some fd /\
    3 <= fd <= G_MAXINT /\
    fd_can_dup sample_env fd = true /\
    current_target_fds
      (options_of (option_pass_fd_cb sample_env "6"
                     (options_of (option_pass_fd_cb sample_env "5" sample_options))))
    = current_target_fds (options_of (option_pass_fd_cb sample_env "5" sample_options))
      ++ [fd].
Proof.
  assert (Hd : option_pass_fd_cb sample_env "6"
                 (options_of (option_pass_fd_cb sample_env "5" sample_options))
               = Done (options_of
                         (option_pass_fd_cb sample_env "6"
                            (options_of (option_pass_fd_cb sample_env "5" sample_options)))))
    by (vm_compute; reflexivity).
  split; [exact Hd|].
  exact (option_pass_fd_cb_accepts sample_env "6"
           (options_of (option_pass_fd_cb sample_env "5" sample_options)) _ Hd).
Defined.


(** [--tab --window --load-config session.conf]. *)
Lemma implicit_window_is_the_first_witness :
  implicit_only_first sample_options /\
  map iw_implicit_first_window
    (initial_windows
       (options_of (g_option_context_parse sample_env
                      [EvTab None; EvWindow None; EvLoadConfig "load-config" "session.conf"]
                      sample_options)))
  = [true; false; false; false] /\
  implicit_only_first
    (options_of (g_option_context_parse sample_env
                   [EvTab None; EvWindow None; EvLoadConfig "load-config" "session.conf"]
                   sample_options)).
Proof.
  assert (H : implicit_only_first sample_options) by constructor.
  assert (Hd : g_option_context_parse sample_env
                 [EvTab None; EvWindow None; EvLoadConfig "load-config" "session.conf"]
                 sample_options
               = Done (options_of
                         (g_option_context_parse sample_env
                            [EvTab None; EvWindow None;
                             EvLoadConfig "load-config" "session.conf"]
                            sample_options)))
    by (vm_compute; reflexivity).
  split; [exact H|]. split; [vm_compute; reflexivity|].
  exact (implicit_window_is_the_first sample_env
           [EvTab None; EvWindow None; EvLoadConfig "load-config" "session.conf"]
           sample_options _ H Hd).
Defined.

(** [gnome-terminal --fd 5 --wait --tab --fd 5]. *)
Lemma digested_command_line_witness :
  g_option_context_parse sample_env [EvPassFd "5"; EvWait; EvTab None; EvPassFd "5"]
    (snd (prescan sample_env ["gnome-terminal"; "--fd"; "5"; "--wait"; "--tab"; "--fd"; "5"]
            (terminal_options_init sample_env)))
  = Done (options_of
            (g_option_context_parse sample_env
               [EvPassFd "5"; EvWait; EvTab None; EvPassFd "5"]
               (snd (prescan sample_env
                       ["gnome-terminal"; "--fd"; "5"; "--wait"; "--tab"; "--fd"; "5"]
                       (terminal_options_init sample_env))))) /\
  Forall fd_passes_ok
    (all_tabs (options_of
                 (g_option_context_parse sample_env
                    [EvPassFd "5"; EvWait; EvTab None; EvPassFd "5"]
                    (snd (prescan sample_env
                            ["gnome-terminal"; "--fd"; "5"; "--wait"; "--tab"; "--fd"; "5"]
                            (terminal_options_init sample_env)))))).
Proof.
  assert (Hd : g_option_context_parse sample_env
                 [EvPassFd "5"; EvWait; EvTab None; EvPassFd "5"]
                 (snd (prescan sample_env
                         ["gnome-terminal"; "--fd"; "5"; "--wait"; "--tab"; "--fd"; "5"]
                         (terminal_options_init sample_env)))
               = Done (options_of
                         (g_option_context_parse sample_env
                            [EvPassFd "5"; EvWait; EvTab None; EvPassFd "5"]
                            (snd (prescan sample_env
                                    ["gnome-terminal"; "--fd"; "5"; "--wait"; "--tab";
                                     "--fd"; "5"]
                                    (terminal_options_init sample_env))))))
    by (vm_compute; reflexivity).
  split; [exact Hd|].
  exact (proj1 (digested_command_line sample_env
                  ["gnome-terminal"; "--fd"; "5"; "--wait"; "--tab"; "--fd"; "5"]
                  [EvPassFd "5"; EvWait; EvTab None; EvPassFd "5"] _ Hd)).
Defined.
